(* ===== verification/_CoqProject ===== *)
-Q . S2P
Prelude.v
PyStr.v
PyDict.v
Yaml.v
Resolver.v
Banner.v
Process.v
Regex.v
RegexParse.v
PyRe.v
PathMatch.v
Builder.v
ArgParse.v
Orchestrator.v
Program.v
