(* ===== verification/Prelude.v ===== *)
(** * A verification development of builder-py ([src/builder.py])

    The program is a configuration-driven build runner.  [main] (lines
    122-169) parses its arguments and the [-v key=value] user variables,
    loads a YAML configuration, seeds a [variables] dictionary with [os]
    and [bt], extends it with the global [variables] block and builds the
    global [environment]; it then walks [projects] in order, extends the
    variables with each project's block, and runs the first project whose
    [path] pattern, once resolved, matches the start of the working
    directory: [build] and (with [--test]) [test] resolve the project's
    steps, join them into one [&&]-chained shell line framed by banner
    [echo]s, and run it; a failing command, a missing [path] or no match
    ends the run with exit status 1.

    ** Files and what they model

    - [Prelude] (this file): Python exceptions [exn] and fallible results
      [result] with [rbind] and the notation [x <- c ;; k] ([py_scope]),
      the fallible loop [rfold], string slicing ([sdrop], [stake]), the
      string lemmas shared by every file, [star], the labelled paths of a
      step relation with their determinism and invariant lemmas, the hint
      databases [pyrt] (resolve) and [pyrw] (rewrite) and the tactics
      [py_simp], [inv_bind].
    - [PyStr]: the [str] methods the script calls, from CPython's
      semantics: [py_replace] ([str.replace], a left-to-right scan),
      [py_split1] ([split('=', 1)], line 137), [py_strip] (line 138),
      [py_join] (line 95), [py_contains] ([in]), [py_slice_to] (line 18);
      [py_split] is the reference [str.split] the scan is proved against.
    - [PyDict]: a [dict] as an insertion-ordered association list with
      distinct keys ([dict_wf]); [dict_set] is [d[k] = v], [dict_merge] is
      [{**a, **b}] (line 72).
    - [Yaml]: the values [yaml.safe_load] returns and the dynamic
      operations the script applies to them: [py_in], [py_getitem],
      [py_index], [py_iter], [py_str] and [py_repr] ([str()] and
      [repr()]), with [unrepr_str], the reading of a Python string
      literal, as the reference [repr] is checked against.
    - [Resolver]: [replace_with_variables] (lines 23-28),
      [extract_variables] and [extract_environment] (lines 31-42), and
      [declare], the sequential fold the specification describes.
    - [Banner]: [banner] (lines 16-20) and the step loop of [build] and
      [test] ([phase_commands], [phase_line], lines 83-95, 103-115).
    - [Process]: the observable behaviour: a [World] (working directory,
      process environment, home directories, the exit status the shell
      gives a command, the [OSError] of a [cwd] that cannot be entered)
      and the monad [M] of traces ([event]: a printed line, a line on
      standard error, a shell run) with an exception; [error] (lines
      11-13), [execute_command] (lines 70-75), [exit_status], and three
      properties of traces: [clean] (no error printed, every command
      succeeded), [announced] (every shell run right after the line that
      prints it) and [err_last] (an error line is the last event of a
      failing run).  The class [TraceInv] states the laws such a
      property must satisfy: preserved by sequencing, true of pure steps,
      of a last event that ends the process, and of [execute_command].
      Builder and Program then prove any such property of every run.
    - [Regex]: the interface [RegexEngine] of [re.compile]/[match]/[group]
      as a type class, the syntax of patterns, a backtracking matcher
      ([mtch], [regex_match]) in the style of CPython's [sre], and [lang],
      the language of a pattern as a relation, which the matcher is
      proved sound and complete for, lookaheads included.
    - [RegexParse]: the parser [py_compile] after [sre_parse], for a
      subset of Python's syntax (groups, lookaheads, classes, escapes,
      greedy and lazy quantifiers), with the proof that its fuel suffices.
    - [PyRe]: the engine as the instance [py_re] of the interface.
    - [PathMatch]: [os.path.expanduser] and [get_path] (lines 45-51),
      proved for any engine.
    - [Builder]: [Args] (the parsed command line), the [-v] parsing
      ([add_user_variable], [parse_user_variables]), [build] and [test]
      ([run_phase]), the projects loop ([select], [run_matched]) and
      [main].  The script passes ONE [variables] and ONE [environment]
      dictionary to every call and the extractors mutate them in place;
      the model threads them as values, each call returning the
      dictionaries it mutated, so the aliasing is explicit.
    - [ArgParse]: the command line (lines 124-131): the option table the
      [add_argument] calls build, their defaults ([default_args], with
      [--config] expanded by [os.path.expanduser]), and CPython 3.11's
      [parse_args] specialised to that table: [parse_optional] classifies
      one argument (exact option, [--opt=value], unique abbreviation,
      attached short value, negative number, unknown option), [classify]
      the whole line ([--] ends the options), [cluster] a group of flags
      such as [-nt], [consume] walks the tokens taking each action, and
      [parse_args_m] prints the help (exit 0) or the usage and the error
      (exit 2).  [setting], [apply_setting] and [render] state what the
      options mean and how a command line spells them.
    - [Orchestrator]: the state machine of section 4.6 of the
      specification ([ostate], the labelled step relation [ostep], its
      paths [lstar]) over the states of the script, and [load], the
      set-up of [main] before the projects loop.
    - [Program]: the whole of [main]: the [-v] arguments, then the
      configuration file read from the [World] ([read_file]) and loaded by
      the interface [YamlLoader] of [yaml.safe_load], then [main_loaded];
      [builder], the script on its command line: [parse_args_m], then
      [program]; and [pstep], the machine of the Orchestrator extended
      with the command line and the configuration file.

    ** What the theorems show (claim ids C1-C40)

    - the run (Builder): at most one shell command per phase (C1);
      fail-fast, no test after a failed build (C2); only the first matching
      project runs (C3); no match prints the error and exits 1 with nothing
      run (C4); the configuration file's errors come after the [-v]
      errors (C24); the [-v] split at the first [=] and the [IndexError] of an
      argument without [=] (C18, C19); repeated [-v] arguments, the last
      value of a key winning (C30); a [projects] value that is a list or a
      string raises [TypeError] before anything runs (C38); a skipped project, unmatched or
      matched on the empty text, leaves its variables in the shared
      dictionary for the next (C25); [build] extracts the project's
      variables a second time and runs the commands resolved against that
      (C26); an empty phase list runs the empty command line (C27); a run
      that succeeds printed no error and every command it ran exited 0
      (C28, through the [clean] predicate of Process); the build runs in
      the text the path matched, so a match that is not a directory ends
      the run with [subprocess.call]'s [OSError] after the command line is
      printed and before anything runs (C14);
    - resolution and extraction (Resolver): user variables first (C5); the
      extractors refine the specification's sequential fold (C6, C7); the
      duplicate-free, order-preserving invariant (C8); the no-block and
      error cases (C20); for any keys and dictionaries, later keys rescan
      substituted text (C23);
    - command lines (Banner): the [&&] pipeline (C9), the banner's length
      (C17), and, for every text, the quotes of the step between the
      banner's single quotes, unescaped (C29);
    - commands (Process): the shell gets [os.environ] overlaid with the
      project's environment (C13); any non-zero status, a signal's
      negative one included, prints the error and exits 1 (C15);
    - path matching (PathMatch): a result is a prefix of the working
      directory (C10), a missing [path] is fatal (C11); the engine agrees
      with the language of its patterns ([lang], Regex): the text it
      returns is a matching prefix, and it finds a match whenever one
      exists, repetitions and lookaheads included (C22);
    - the command line (ArgParse, Program): [parse_args] refines the
      meaning of the options, whether a value is given as [--opt=value] or
      as the next argument (C12); the only ambiguous abbreviation is
      [--=...], reported before any option is acted on (C16); [-h] wins
      over everything after it (C21); the script on a command line runs
      [main] with the parsed settings, or stops with exit status 2 on a
      left-over argument before opening the configuration (C40); the whole
      script refines the machine of section 4.6 extended with the command
      line and the configuration file ([pstep] in Program): a run is the
      one path of that machine from [argv] to the exit (C39); on every
      command line and in every world, each shell run comes right after
      the printed command (C31), and an error line is the last event of a
      failing run, so nothing is printed or run after it (C33);
    - the state machine (Orchestrator): [main] refines it (C32), the shared
      dictionaries keep distinct keys and only grow along every run
      (C34), and every step resolves to a string, so no [TypeError] (C35);
    - [os.path.expanduser] with [HOME] (C36), and [~] expanded after the
      substitution: a path [{k}/rest] whose variable holds [~] compiles
      [HOME/rest], for any engine (C37).

    Lemmas kept without a claim: [str.replace] equals split-then-join
    ([py_replace_split_join]), [repr] reads back ([repr_str_roundtrip]),
    the machine reaches a final state ([machine_reaches_final]), and the
    fuel lemmas below.

    ** Bounds, fuel and choices

    Strings are Stdlib [string]s of 8-bit characters; Python strings are
    code points, which coincide on ASCII, so [len] and [text[:110]] count
    bytes here, and [repr] treats the characters above 127 as printable.
    Integers are [Z]: the script does no fixed-width arithmetic.  Every
    recursion is structural except the regex engine, which recurses on
    fuel: its repetition loop gets one more unit than the subject's
    length and every iteration that continues the loop consumes a
    character (after an empty one, [sre] goes on with the rest of the
    pattern); its parser gets
    [4 * length + 4] while [3 * length + 3] suffices, because every step
    leaves a shorter remainder; the class parser gets [length + 1].  The
    lemmas [py_compile_fuel_enough] and [mtch_star_fuel_enough] show that
    more fuel changes nothing.

    ** Not modelled

    Of [argparse], only what this parser uses: no positional arguments,
    mutually exclusive groups, [fromfile] prefixes, type conversions or
    sub-parsers; the usage and help texts are those of the program name
    [builder.py] at the default width of 80 columns (the library wraps
    them to the terminal's width and names the program after
    [sys.argv[0]]).  The YAML parser: [yaml.safe_load] is the interface [YamlLoader], whose
    results the model takes as given; a float is carried as the text
    [repr] gives it (the script only ever prints floats); timestamps,
    [!!binary], [!!set], [!!omap] and mapping keys that are not strings
    are outside [yaml], and a non-string key reached through a list
    [variables] block is reported as [TypeError] where the block is
    extracted, while CPython raises it at the next substitution.  Opening a file other than a missing one
    (permissions, directories, encodings) is not distinguished.  The shell: its exit status for a command is the
    [w_shell] field of the [World].  Regular-expression features outside
    the engine's subset (lookbehind, atomic groups and possessive
    quantifiers, backreferences, named groups, comments, inline flags,
    [\b]) are rejected as [ReError], where CPython accepts them.

    ** Findings

    The manifest lists them; in short: later keys rescan substituted text
    (the specification says single pass); one shared dictionary leaks a
    skipped project's variables and [build]/[test] re-extract them; an
    empty [build] list runs an empty command; [get_system_name] is always
    [fedora]; [banner] does not escape quotes; an empty match counts as no
    match; a [-v] key is not stripped and a [-v] without [=] crashes;
    [~] is expanded after the substitution of variables; commands run in
    the matched text, which need not be a directory; the command line
    accepts [argparse]'s abbreviations and exits 2 on its errors; a
    [projects] list crashes with [TypeError]. *)

From Stdlib Require Import String List ZArith Lia Bool.
Import ListNotations.

Declare Scope py_scope.
Delimit Scope py_scope with py.
Open Scope string_scope.

(** ** Python exceptions and fallible results *)

Inductive exn : Type :=
| TypeError
| KeyError (key : string)
| IndexError
| ValueError
| ReError
| FileNotFoundError (path : string)   (** [open] of a missing file, or a missing [cwd] *)
| NotADirectoryError (path : string)  (** a [cwd] that is not a directory *)
| YAMLError                           (** [yaml.safe_load] of malformed text *)
| SystemExit (code : Z).

Inductive result (A : Type) : Type :=
| Ok (a : A)
| Err (e : exn).
Arguments Ok {A} a.
Arguments Err {A} e.

Definition rbind {A B} (c : result A) (f : A -> result B) : result B :=
  match c with
  | Ok a => f a
  | Err e => Err e
  end.

(** The error monad's notation: [x <- c ;; k] runs [c] and continues with
    its value, or propagates the exception. *)
Notation "x <- c ;; k" := (rbind c (fun x => k))
  (at level 61, c at next level, right associativity) : py_scope.
Notation "' p <- c ;; k" := (rbind c (fun x => match x with p => k end))
  (at level 61, p pattern, c at next level, right associativity) : py_scope.
Open Scope py_scope.

(** Fold of a fallible step over a list, as a [for] loop that may raise. *)
Fixpoint rfold {A B} (f : A -> B -> result A) (l : list B) (a : A) : result A :=
  match l with
  | [] => Ok a
  | x :: l' => rbind (f a x) (rfold f l')
  end.

(** The labelled paths of a step relation: its reflexive-transitive
    closure, with the labels of the steps concatenated. *)
Inductive star {S E : Type} (step : S -> list E -> S -> Prop) : S -> list E -> S -> Prop :=
| star_refl s : star step s [] s
| star_step s1 t1 s2 t2 s3 : step s1 t1 s2 -> star step s2 t2 s3 -> star step s1 (t1 ++ t2) s3.

Arguments star_refl {S E step} s.
Arguments star_step {S E step} s1 t1 s2 t2 s3 _ _.

(** [sdrop n s] is [s[n:]]; [stake n s] is [s[:n]]. *)
Fixpoint sdrop (n : nat) (s : string) : string :=
  match n, s with
  | O, _ => s
  | S _, EmptyString => EmptyString
  | S n', String _ s' => sdrop n' s'
  end.

Fixpoint stake (n : nat) (s : string) : string :=
  match n, s with
  | O, _ => EmptyString
  | S _, EmptyString => EmptyString
  | S n', String c s' => String c (stake n' s')
  end.

(** [replicate_char n c] is [c * n]. *)
Fixpoint replicate_char (n : nat) (c : Ascii.ascii) : string :=
  match n with
  | O => EmptyString
  | S n' => String c (replicate_char n' c)
  end.

(** ** Lemmas on results *)

Lemma rbind_ok {A B} (a : A) (f : A -> result B) : rbind (Ok a) f = f a.
Proof. reflexivity. Qed.

Lemma rbind_err {A B} (e : exn) (f : A -> result B) : rbind (Err e) f = Err e.
Proof. reflexivity. Qed.

Lemma rbind_inv {A B} (c : result A) (f : A -> result B) (b : B) :
  rbind c f = Ok b -> exists a, c = Ok a /\ f a = Ok b.
Proof. destruct c; simpl; [eauto | discriminate]. Qed.

Lemma rfold_app {A B} (f : A -> B -> result A) l1 l2 a :
  rfold f (l1 ++ l2) a = rbind (rfold f l1 a) (rfold f l2).
Proof.
  revert a; induction l1 as [|x l1 IH]; intros a; simpl; [reflexivity|].
  destruct (f a x); simpl; auto.
Qed.

(** ** Strings *)

Lemma append_nil_r (s : string) : s ++ EmptyString = s.
Proof. induction s; simpl; congruence. Qed.

Lemma append_assoc (s1 s2 s3 : string) : s1 ++ s2 ++ s3 = (s1 ++ s2) ++ s3.
Proof. induction s1; simpl; congruence. Qed.

Lemma length_append (s1 s2 : string) : String.length (s1 ++ s2) = String.length s1 + String.length s2.
Proof. induction s1; simpl; congruence. Qed.

Lemma prefix_nil (s : string) : prefix EmptyString s = true.
Proof. destruct s; reflexivity. Qed.

Lemma prefix_append (s1 s2 : string) : prefix s1 (s1 ++ s2) = true.
Proof.
  induction s1 as [|c s1 IH]; simpl; [apply prefix_nil|].
  destruct (Ascii.ascii_dec c c); [exact IH | congruence].
Qed.

Lemma prefix_cons (c : Ascii.ascii) (s1 s2 : string) :
  prefix (String c s1) (String c s2) = prefix s1 s2.
Proof. simpl. destruct (Ascii.ascii_dec c c); congruence. Qed.

Lemma prefix_split (p s : string) :
  prefix p s = true -> s = p ++ sdrop (String.length p) s.
Proof.
  revert s; induction p as [|c p IH]; intros s H; [reflexivity|].
  destruct s as [|d s]; simpl in H; [discriminate|].
  destruct (Ascii.ascii_dec c d); [subst; simpl; f_equal; auto | discriminate].
Qed.

Lemma sdrop_append (p s : string) : sdrop (String.length p) (p ++ s) = s.
Proof. induction p; simpl; auto. Qed.

Lemma stake_sdrop (n : nat) (s : string) : stake n s ++ sdrop n s = s.
Proof.
  revert s; induction n as [|n IH]; intros [|c s]; simpl; f_equal; auto.
Qed.

Lemma length_stake (n : nat) (s : string) : String.length (stake n s) = Nat.min n (String.length s).
Proof. revert s; induction n; intros [|c s]; simpl; auto. Qed.

Lemma length_sdrop (n : nat) (s : string) : String.length (sdrop n s) = String.length s - n.
Proof. revert s; induction n; intros [|c s]; simpl; auto; lia. Qed.

Lemma stake_all (n : nat) (s : string) : String.length s <= n -> stake n s = s.
Proof.
  revert s; induction n; intros [|c s] H; simpl in *; auto; try lia.
  f_equal; apply IHn; lia.
Qed.

Lemma prefix_stake (n : nat) (s : string) : prefix (stake n s) s = true.
Proof.
  revert s; induction n as [|n IH]; intros [|c s]; try apply prefix_nil.
  cbn [stake]. rewrite prefix_cons. apply IH.
Qed.

Lemma stake_append (p t : string) : stake (String.length p) (p ++ t) = p.
Proof. induction p; simpl; f_equal; auto. Qed.

Lemma prefix_refl (s : string) : prefix s s = true.
Proof. rewrite <- (append_nil_r s) at 2. apply prefix_append. Qed.

Lemma sdrop_self (s : string) : sdrop (String.length s) s = EmptyString.
Proof. rewrite <- (append_nil_r s) at 2. apply sdrop_append. Qed.

Lemma length_replicate_char n c : String.length (replicate_char n c) = n.
Proof. induction n; simpl; auto. Qed.

Lemma prefix_String (c d : Ascii.ascii) (s1 s2 : string) :
  prefix (String c s1) (String d s2) =
  if Ascii.ascii_dec c d then prefix s1 s2 else false.
Proof. reflexivity. Qed.

Lemma prefix_String_empty (c : Ascii.ascii) (s : string) : prefix (String c s) EmptyString = false.
Proof. reflexivity. Qed.

(** ** Paths of a step relation *)

Section Paths.
Context {S E : Type} (step : S -> list E -> S -> Prop).

Lemma star_one s t s' : step s t s' -> star step s t s'.
Proof. intros H. rewrite <- (app_nil_r t). exact (star_step _ _ _ _ _ H (star_refl s')). Qed.

Lemma star_trans s1 t1 s2 t2 s3 : star step s1 t1 s2 -> star step s2 t2 s3 -> star step s1 (t1 ++ t2) s3.
Proof.
  induction 1 as [|s1 ta s1' tb s2' Hs _ IH]; intros H2; [exact H2|].
  rewrite <- app_assoc. exact (star_step _ _ _ _ _ Hs (IH H2)).
Qed.

(** An invariant of the steps holds along every path. *)
Lemma star_inv (P : S -> Prop) :
  (forall s t s', step s t s' -> P s -> P s') -> forall s t s', star step s t s' -> P s -> P s'.
Proof. intros Hstep s t s' H. induction H; eauto. Qed.

(** A deterministic relation has one path at most from a state to a state
    with no step: the same labels and the same end. *)
Lemma star_stuck_det :
  (forall s t1 s1 t2 s2, step s t1 s1 -> step s t2 s2 -> t1 = t2 /\ s1 = s2) ->
  forall s t1 f1 t2 f2,
  (forall t s', ~ step f1 t s') -> (forall t s', ~ step f2 t s') ->
  star step s t1 f1 -> star step s t2 f2 -> t1 = t2 /\ f1 = f2.
Proof.
  intros Hdet s t1 f1 t2 f2 Hf1 Hf2 H1. revert t2.
  induction H1 as [s|s ta s' tb s'' Hs Hl IH]; intros t2 H2.
  - inversion H2 as [|? ? ? ? ? Hs]; subst; [split; reflexivity|]. exfalso; exact (Hf1 _ _ Hs).
  - inversion H2 as [|? ta' s2 tb' ? Hs' Hl']; subst; [exfalso; exact (Hf2 _ _ Hs)|].
    destruct (Hdet _ _ _ _ _ Hs Hs') as [<- <-].
    destruct (IH Hf1 _ Hl') as [<- <-]. split; reflexivity.
Qed.

End Paths.

(** From here on [simpl] leaves [prefix] folded: the lemmas above are how
    proofs unfold it. *)
Arguments prefix : simpl never.

(** ** Automation shared by the development *)

Create HintDb pyrt.
Create Rewrite HintDb pyrw.
#[export] Hint Rewrite append_nil_r length_append sdrop_append prefix_append
  length_stake length_sdrop length_replicate_char : pyrw.
#[export] Hint Resolve prefix_nil prefix_append : pyrt.

(** Close a goal about a [result] computation: case on the scrutinised
    results, then rewrite and decide. *)
Ltac py_simp :=
  repeat match goal with
  | H : Ok _ = Ok _ |- _ => injection H as H
  | H : Err _ = Ok _ |- _ => discriminate H
  | H : Ok _ = Err _ |- _ => discriminate H
  | H : rbind (Ok _) _ = _ |- _ => rewrite rbind_ok in H
  | H : rbind (Err _) _ = _ |- _ => rewrite rbind_err in H
  end; subst.

(** Case analysis on the 256 characters. *)
Ltac ascii_cases c := destruct c as [[|] [|] [|] [|] [|] [|] [|] [|]].

Ltac inv_bind H :=
  let a := fresh "a" in let Ha := fresh "Ha" in
  apply rbind_inv in H; destruct H as [a [Ha H]].
