(* ===== verification/PyStr.v ===== *)
(** * The Python string methods called by [src/builder.py]

    [str.replace] (line 25, 27), [str.split('=', 1)] (line 137),
    [str.strip()] (line 138), [s[:n]] (line 18), [sub in s] and [sep.join]
    (lines 19, 95), written from CPython's semantics on 8-bit strings.
    [replace_scan] is the left-to-right scan CPython performs (leftmost,
    non-overlapping occurrences, never rescanning replaced text); it is
    proved equal to [py_join new (split_scan old s)], CPython's reference
    identity [s.replace(old, new) == new.join(s.split(old))]. *)

From Stdlib Require Import List String Ascii ZArith Lia Bool DecimalString.
From S2P Require Import Prelude.
Import ListNotations.
Open Scope string_scope.
Open Scope py_scope.

Module PyStr.

(** ** Definitions *)

(** [sub in s] for strings. *)
Fixpoint py_contains (sub s : string) : bool :=
  prefix sub s || match s with
                  | EmptyString => false
                  | String _ s' => py_contains sub s'
                  end.

(** [s.replace(old, new)] for a non-empty [old]: scan from the left; at a
    match emit [new] and skip the rest of the match ([skip] characters). *)
Fixpoint replace_scan (old new : string) (skip : nat) (s : string) : string :=
  match s with
  | EmptyString => EmptyString
  | String c s' =>
      match skip with
      | S k => replace_scan old new k s'
      | O => if prefix old s then new ++ replace_scan old new (length old - 1) s'
             else String c (replace_scan old new 0 s')
      end
  end.

(** [s.replace('', new)] inserts [new] before every character and at the end. *)
Fixpoint replace_empty (new s : string) : string :=
  match s with
  | EmptyString => new
  | String c s' => new ++ String c (replace_empty new s')
  end.

Definition py_replace (s old new : string) : string :=
  match old with
  | EmptyString => replace_empty new s
  | String _ _ => replace_scan old new 0 s
  end.

(** [s.split(sep)] for a non-empty [sep]: the head of the result is the
    piece that starts here. *)
Fixpoint split_scan (sep : string) (skip : nat) (s : string) : list string :=
  match s with
  | EmptyString => [EmptyString]
  | String c s' =>
      match skip with
      | S k => split_scan sep k s'
      | O => if prefix sep s then EmptyString :: split_scan sep (length sep - 1) s'
             else match split_scan sep 0 s' with
                  | h :: t => String c h :: t
                  | [] => [String c EmptyString]
                  end
      end
  end.

Definition py_split (s sep : string) : result (list string) :=
  match sep with
  | EmptyString => Err ValueError
  | String _ _ => Ok (split_scan sep 0 s)
  end.

(** [sep.join(l)]. *)
Definition py_join (sep : string) (l : list string) : string := String.concat sep l.

(** The first occurrence of [sep] in [s], as the text before and after it. *)
Fixpoint split1_scan (sep s : string) : option (string * string) :=
  if prefix sep s then Some (EmptyString, sdrop (length sep) s)
  else match s with
       | EmptyString => None
       | String c s' =>
           match split1_scan sep s' with
           | Some (a, b) => Some (String c a, b)
           | None => None
           end
       end.

(** [s.split(sep, 1)]. *)
Definition py_split1 (s sep : string) : result (list string) :=
  match sep with
  | EmptyString => Err ValueError
  | String _ _ =>
      match split1_scan sep s with
      | Some (a, b) => Ok [a; b]
      | None => Ok [s]
      end
  end.

(** [str.isspace()] on one character: the ASCII whitespace of CPython
    (tab, line feed, vertical tab, form feed, carriage return, the four
    information separators 0x1c-0x1f, and space). *)
Definition py_isspace (c : ascii) : bool :=
  let n := nat_of_ascii c in
  (Nat.leb 9 n && Nat.leb n 13) || (Nat.leb 28 n && Nat.leb n 32).

Fixpoint py_lstrip (s : string) : string :=
  match s with
  | EmptyString => EmptyString
  | String c s' => if py_isspace c then py_lstrip s' else s
  end.

Fixpoint py_rstrip (s : string) : string :=
  match s with
  | EmptyString => EmptyString
  | String c s' =>
      let r := py_rstrip s' in
      match r with
      | EmptyString => if py_isspace c then EmptyString else String c EmptyString
      | _ => String c r
      end
  end.

(** [s.strip()]. *)
Definition py_strip (s : string) : string := py_rstrip (py_lstrip s).

(** [s[:n]] for [n >= 0]. *)
Definition py_slice_to (n : nat) (s : string) : string := stake n s.

(** [str(z)] for an [int]. *)
Definition py_str_int (z : Z) : string := NilZero.string_of_int (Z.to_int z).

(** ** The scan, unfolded *)

Lemma replace_scan_skip old new k s :
  replace_scan old new k s = replace_scan old new 0 (sdrop k s).
Proof.
  revert k; induction s as [|c s IH]; intros [|k]; simpl; auto.
Qed.

Lemma split_scan_skip sep k s :
  split_scan sep k s = split_scan sep 0 (sdrop k s).
Proof.
  revert k; induction s as [|c s IH]; intros [|k]; simpl; auto.
Qed.

Lemma split_scan_nonempty sep k s : split_scan sep k s <> [].
Proof.
  revert k; induction s as [|c s IH]; intros [|k] H; simpl in H; try discriminate H.
  - destruct (prefix sep (String c s)); [discriminate H|].
    destruct (split_scan sep 0 s); discriminate H.
  - exact (IH k H).
Qed.

(** One step of the scan at a match: [new], then the text after the match. *)
Lemma replace_scan_match old new s :
  old <> EmptyString -> prefix old s = true ->
  replace_scan old new 0 s = new ++ replace_scan old new 0 (sdrop (length old) s).
Proof.
  intros Hne Hp. destruct s as [|c s].
  - destruct old; [congruence | discriminate].
  - simpl. rewrite Hp, replace_scan_skip.
    destruct old as [|d old]; [congruence|]. simpl. rewrite Nat.sub_0_r. reflexivity.
Qed.

Lemma replace_scan_nomatch old new c s :
  prefix old (String c s) = false ->
  replace_scan old new 0 (String c s) = String c (replace_scan old new 0 s).
Proof. intros Hp. simpl. rewrite Hp. reflexivity. Qed.

Lemma concat_cons_cons sep x l :
  l <> [] -> String.concat sep (x :: l) = x ++ sep ++ String.concat sep l.
Proof. destruct l; [congruence | reflexivity]. Qed.

Lemma concat_string_cons sep c h t :
  String.concat sep (String c h :: t) = String c (String.concat sep (h :: t)).
Proof. destruct t; reflexivity. Qed.

(** ** Equivalence with the split/join reference *)

Lemma replace_scan_split_scan old new k s :
  replace_scan old new k s = String.concat new (split_scan old k s).
Proof.
  revert k; induction s as [|c s IH]; intros [|k]; simpl; auto.
  destruct (prefix old (String c s)).
  - rewrite concat_cons_cons by apply split_scan_nonempty. simpl. f_equal. apply IH.
  - rewrite IH. destruct (split_scan old 0 s) as [|h t] eqn:E.
    + exfalso; exact (split_scan_nonempty _ _ _ E).
    + symmetry; apply concat_string_cons.
Qed.

(** ** Occurrences of a longer pattern *)

Lemma prefix_app_l (p q s : string) : prefix (p ++ q) s = true -> prefix p s = true.
Proof.
  revert s; induction p as [|c p IH]; intros s H; [apply prefix_nil|].
  destruct s as [|d s]; [discriminate|].
  simpl in H. rewrite prefix_String in H. rewrite prefix_String.
  destruct (ascii_dec c d); [apply IH, H | discriminate].
Qed.

Lemma py_contains_app_l (p q s : string) :
  py_contains (p ++ q) s = true -> py_contains p s = true.
Proof.
  induction s as [|c s IH]; intros H; simpl in *.
  - destruct (prefix (p ++ q) EmptyString) eqn:E; [|discriminate]. rewrite (prefix_app_l _ _ _ E). reflexivity.
  - apply orb_true_iff in H as [H|H].
    + rewrite (prefix_app_l _ _ _ H). reflexivity.
    + rewrite (IH H). apply orb_true_r.
Qed.

Lemma py_contains_head c s : py_contains (String c EmptyString) (String c s) = true.
Proof. simpl. rewrite prefix_cons, prefix_nil. reflexivity. Qed.

Lemma py_contains_tail sub c s :
  py_contains sub (String c s) = false -> py_contains sub s = false.
Proof. simpl. intros H. apply orb_false_iff in H. apply H. Qed.

(** ** Finding an occurrence *)

Lemma py_contains_cons sub c s :
  py_contains sub (String c s) = prefix sub (String c s) || py_contains sub s.
Proof. reflexivity. Qed.

(** A one-character [c in a + b] is [c in a or c in b]. *)
Lemma py_contains_char_app (c : ascii) (a b : string) :
  py_contains (String c EmptyString) (a ++ b) =
  py_contains (String c EmptyString) a || py_contains (String c EmptyString) b.
Proof.
  induction a as [|d a IH].
  - change (py_contains (String c EmptyString) EmptyString) with false. reflexivity.
  - cbn [append]. rewrite !py_contains_cons, IH, !prefix_String, orb_assoc.
    destruct (ascii_dec c d); rewrite ?prefix_nil; reflexivity.
Qed.

Lemma replace_scan_absent old new s :
  py_contains old s = false -> replace_scan old new 0 s = s.
Proof.
  induction s as [|c s IH]; intros H; [reflexivity|].
  rewrite py_contains_cons in H. apply orb_false_iff in H as [Hp Hs].
  rewrite replace_scan_nomatch by exact Hp. f_equal. auto.
Qed.

(** Strong induction on the length of a string. *)
Lemma string_len_ind (P : string -> Prop) :
  (forall s, (forall t, length t < length s -> P t) -> P s) -> forall s, P s.
Proof.
  intros H s. remember (length s) as n eqn:E. revert s E.
  induction n as [n IHn] using (well_founded_induction lt_wf).
  intros s ->. apply H. intros t Ht. eapply IHn; eauto.
Qed.

Lemma length_sdrop_lt (p s : string) :
  p <> EmptyString -> prefix p s = true -> length (sdrop (length p) s) < length s.
Proof.
  intros Hne Hp. pose proof (prefix_split p s Hp) as Hs.
  rewrite Hs at 2. rewrite length_append. destruct p; [congruence | simpl; lia].
Qed.

Lemma replace_scan_self sep s :
  sep <> EmptyString -> replace_scan sep sep 0 s = s.
Proof.
  intros Hne. induction s as [s IH] using string_len_ind.
  destruct (prefix sep s) eqn:Hp.
  - rewrite replace_scan_match by assumption. rewrite IH by (apply length_sdrop_lt; auto).
    symmetry. apply prefix_split, Hp.
  - destruct s as [|c s]; [reflexivity|].
    rewrite replace_scan_nomatch by exact Hp. f_equal. apply IH. simpl; lia.
Qed.

(** [split1_scan] cuts at the first occurrence of [sep]. *)
Lemma split1_scan_some sep s a b :
  split1_scan sep s = Some (a, b) ->
  s = a ++ sep ++ b /\ (forall i, i < length a -> prefix sep (sdrop i s) = false).
Proof.
  revert a b; induction s as [|c s IH]; intros a b H; simpl in H.
  - destruct (prefix sep EmptyString) eqn:Hp; [|discriminate].
    injection H as <- <-. split; [|simpl; lia].
    destruct sep; [reflexivity | discriminate].
  - destruct (prefix sep (String c s)) eqn:Hp.
    + injection H as <- <-. split; [apply prefix_split, Hp | simpl; lia].
    + destruct (split1_scan sep s) as [[a' b']|] eqn:E; [|discriminate].
      injection H as <- <-. destruct (IH a' b' eq_refl) as [-> Hfirst].
      split; [reflexivity|]. intros [|i] Hi; simpl in *; [exact Hp|].
      apply Hfirst; lia.
Qed.

Lemma split1_scan_none sep s :
  split1_scan sep s = None -> forall i, i <= length s -> prefix sep (sdrop i s) = false.
Proof.
  induction s as [|c s IH]; intros H i Hi; simpl in H.
  - destruct (prefix sep EmptyString) eqn:Hp; [discriminate|]. destruct i; exact Hp.
  - destruct (prefix sep (String c s)) eqn:Hp; [discriminate|].
    destruct (split1_scan sep s) as [[a' b']|]; [discriminate|].
    destruct i as [|i]; [exact Hp|]. simpl in *. apply IH; auto; lia.
Qed.

Lemma split1_scan_absent sep s : py_contains sep s = false -> split1_scan sep s = None.
Proof.
  induction s as [|c s IH]; intros H; simpl in *.
  - destruct (prefix sep EmptyString); [discriminate | reflexivity].
  - apply orb_false_iff in H as [Hp Hr]. rewrite Hp, IH; auto.
Qed.

(** A one-character separator splits at its first occurrence. *)
Lemma split1_scan_char c k v :
  py_contains (String c EmptyString) k = false ->
  split1_scan (String c EmptyString) (k ++ String c v) = Some (k, v).
Proof.
  induction k as [|d k IH]; intros H; simpl.
  - rewrite prefix_String. destruct (Ascii.ascii_dec c c); [|congruence].
    rewrite prefix_nil. reflexivity.
  - simpl in H. apply orb_false_iff in H as [Hp Hr].
    rewrite prefix_String in *. destruct (Ascii.ascii_dec c d); [rewrite prefix_nil in Hp; discriminate|].
    rewrite IH; auto.
Qed.

(** ** The [str] methods against their reference *)

(** [s.replace(old, new)] equals [new.join(s.split(old))]: the
    one-pass scan of [str.replace] is the split/join identity of CPython. *)
Theorem py_replace_split_join (s old new : string) (l : list string) :
  py_split s old = Ok l -> py_replace s old new = py_join new l.
Proof.
  unfold py_split, py_replace, py_join. destruct old as [|c o]; [discriminate|].
  intros [= <-]. apply replace_scan_split_scan.
Qed.

(** Splitting on a non-empty separator and joining with it gives the
    string back. *)
Theorem py_join_split (s sep : string) (l : list string) :
  py_split s sep = Ok l -> py_join sep l = s.
Proof.
  unfold py_split, py_join. destruct sep as [|c o]; [discriminate|]. intros [= <-].
  rewrite <- replace_scan_split_scan. apply replace_scan_self. discriminate.
Qed.

(** A pattern that does not occur is not replaced: the string comes
    back unchanged. *)
Theorem py_replace_absent (s old new : string) :
  py_contains old s = false -> py_replace s old new = s.
Proof.
  intros H. destruct old as [|c o].
  - destruct s; simpl in H; rewrite ?prefix_nil in H; discriminate.
  - apply replace_scan_absent, H.
Qed.

Lemma py_join_split_witness :
  py_split "make && make install" " && " = Ok ["make"; "make install"] /\
  py_join " && " ["make"; "make install"] = "make && make install".
Proof. split; [reflexivity | apply py_join_split; reflexivity]. Defined.

End PyStr.
