(* ===== verification/PyDict.v ===== *)
(** * Python dictionaries with string keys

    A CPython [dict] remembers insertion order: [d[k] = v] on a present key
    changes the value in place, on a new key appends it.  [src/builder.py]
    iterates its dictionaries ([for v in variables], line 26) in that
    order, so the model is an association list, with the invariant that its
    keys are distinct. *)

From Stdlib Require Import List String Bool Lia.
From S2P Require Import Prelude.
Import ListNotations.
Open Scope string_scope.

Module PyDict.

Definition dict (V : Type) : Type := list (string * V).

Section Dict.
Context {V : Type}.

(** [d.get(k)]. *)
Fixpoint dict_get (d : dict V) (k : string) : option V :=
  match d with
  | [] => None
  | (k', v) :: d' => if String.eqb k k' then Some v else dict_get d' k
  end.

(** [d[k] = v]. *)
Fixpoint dict_set (k : string) (v : V) (d : dict V) : dict V :=
  match d with
  | [] => [(k, v)]
  | (k', v') :: d' => if String.eqb k k' then (k', v) :: d' else (k', v') :: dict_set k v d'
  end.

(** [list(d)]: the keys in iteration order. *)
Definition dict_keys (d : dict V) : list string := map fst d.

(** [k in d]. *)
Definition dict_mem (d : dict V) (k : string) : bool :=
  match dict_get d k with Some _ => true | None => false end.

(** [{**a, **b}]: a copy of [a] updated with the entries of [b], in order. *)
Definition dict_merge (a b : dict V) : dict V :=
  fold_left (fun acc kv => dict_set (fst kv) (snd kv) acc) b a.

(** The representation invariant of a [dict]. *)
Definition dict_wf (d : dict V) : Prop := NoDup (dict_keys d).

(** ** Lemmas *)

Lemma dict_get_set_eq d k v : dict_get (dict_set k v d) k = Some v.
Proof.
  induction d as [|[k' v'] d IH]; simpl; [rewrite String.eqb_refl; reflexivity|].
  destruct (String.eqb_spec k k') as [->|Hne]; simpl.
  - rewrite String.eqb_refl. reflexivity.
  - rewrite (proj2 (String.eqb_neq k k') Hne). exact IH.
Qed.

Lemma dict_get_set_ne d k k2 v :
  k2 <> k -> dict_get (dict_set k v d) k2 = dict_get d k2.
Proof.
  intros Hne. induction d as [|[k' v'] d IH]; simpl.
  - rewrite (proj2 (String.eqb_neq k2 k) Hne). reflexivity.
  - destruct (String.eqb_spec k k') as [->|Hne']; simpl.
    + rewrite (proj2 (String.eqb_neq k2 k') Hne). reflexivity.
    + destruct (String.eqb k2 k'); [reflexivity | exact IH].
Qed.

Lemma dict_get_set d k k2 v :
  dict_get (dict_set k v d) k2 = if String.eqb k2 k then Some v else dict_get d k2.
Proof.
  destruct (String.eqb_spec k2 k) as [->|Hne].
  - apply dict_get_set_eq.
  - apply dict_get_set_ne, Hne.
Qed.

Lemma dict_get_in d k : dict_get d k <> None <-> In k (dict_keys d).
Proof.
  induction d as [|[k' v'] d IH]; simpl; [tauto|].
  destruct (String.eqb_spec k k') as [->|Hne]; [split; [auto | discriminate]|].
  rewrite IH. split; [auto|]. intros [->|H]; [congruence | exact H].
Qed.

Lemma dict_get_none d k : dict_get d k = None <-> ~ In k (dict_keys d).
Proof.
  rewrite <- dict_get_in. destruct (dict_get d k); split; intros H; try congruence.
  exfalso; apply H; discriminate.
Qed.

Lemma dict_get_In d k v : dict_wf d -> In (k, v) d -> dict_get d k = Some v.
Proof.
  unfold dict_wf, dict_keys. induction d as [|[k' v'] d IH]; simpl; [tauto|].
  intros Hnd Hin. inversion Hnd as [|? ? Hk Hnd']; subst.
  destruct Hin as [[= -> ->]|Hin]; [rewrite String.eqb_refl; reflexivity|].
  destruct (String.eqb_spec k k') as [->|]; [|auto].
  exfalso. apply Hk. apply (in_map fst) in Hin. exact Hin.
Qed.

(** A present key keeps its position; a new key goes last. *)
Lemma dict_keys_set d k v :
  dict_keys (dict_set k v d) =
  if existsb (String.eqb k) (dict_keys d) then dict_keys d else (dict_keys d ++ [k])%list.
Proof.
  induction d as [|[k' v'] d IH]; simpl; [reflexivity|].
  destruct (String.eqb k k'); simpl; [reflexivity|].
  rewrite IH. destruct (existsb (String.eqb k) (dict_keys d)); reflexivity.
Qed.

Lemma existsb_eqb_In k l : existsb (String.eqb k) l = true <-> In k l.
Proof.
  rewrite existsb_exists. split.
  - intros [x [Hx Heq]]. apply String.eqb_eq in Heq. subst. exact Hx.
  - intros H. exists k. split; [exact H | apply String.eqb_refl].
Qed.

Lemma dict_set_wf d k v : dict_wf d -> dict_wf (dict_set k v d).
Proof.
  unfold dict_wf. intros Hnd. rewrite dict_keys_set.
  destruct (existsb (String.eqb k) (dict_keys d)) eqn:E; [exact Hnd|].
  apply NoDup_app; [exact Hnd | constructor; [auto | constructor] |].
  intros x Hx [<-|[]]. apply Bool.not_true_iff_false in E. apply E.
  apply existsb_eqb_In, Hx.
Qed.

(** Every key of [d] is still a key of [d[k] = v], in the same order. *)
Lemma dict_keys_set_prefix d k v : exists l, dict_keys (dict_set k v d) = (dict_keys d ++ l)%list.
Proof.
  rewrite dict_keys_set. destruct (existsb _ _); eexists; [rewrite app_nil_r|]; reflexivity.
Qed.

Lemma dict_merge_wf a b : dict_wf a -> dict_wf (dict_merge a b).
Proof.
  unfold dict_merge. revert a; induction b as [|[k v] b IH]; intros a Ha; simpl; auto.
  apply IH, dict_set_wf, Ha.
Qed.

Lemma dict_merge_cons a k v b : dict_merge a ((k, v) :: b) = dict_merge (dict_set k v a) b.
Proof. reflexivity. Qed.

(** [{**a, **b}] reads a key from [b] when [b] has it and from [a]
    otherwise: the entries of [b] override those of [a], and the merge
    keeps the keys distinct. *)
Theorem dict_merge_get a b k :
  dict_wf b ->
  dict_get (dict_merge a b) k = match dict_get b k with Some v => Some v | None => dict_get a k end.
Proof.
  revert a; induction b as [|[k' v'] b IH]; intros a Hwf; [reflexivity|].
  inversion Hwf as [|? ? Hk Hwf']; subst. rewrite dict_merge_cons, IH by exact Hwf'.
  rewrite dict_get_set. simpl. destruct (String.eqb_spec k k') as [->|]; [|reflexivity].
  apply dict_get_none in Hk. rewrite Hk. reflexivity.
Qed.

End Dict.

Lemma dict_merge_get_witness :
  dict_wf [("CC", "clang"); ("X", "1")] /\
  dict_get (dict_merge [("HOME", "/root"); ("CC", "gcc")] [("CC", "clang"); ("X", "1")]) "CC" = Some "clang".
Proof.
  assert (H : dict_wf [("CC", "clang"); ("X", "1")]) by (repeat constructor; simpl; intuition discriminate).
  split; [exact H|]. rewrite (dict_merge_get _ _ "CC" H). reflexivity.
Defined.

#[export] Hint Resolve dict_set_wf dict_merge_wf : pyrt.
#[export] Hint Rewrite @dict_get_set_eq @dict_get_set : pyrw.

End PyDict.
