(* ===== verification/Yaml.v ===== *)
(** * Values loaded by [yaml.safe_load] and the Python operations on them

    [src/builder.py] never checks the shape of its configuration: it
    applies [in], [[]], [for] and [str()] to whatever [yaml.safe_load]
    returned.  [yaml] is that value (null, booleans, integers, floats by
    their [repr], dates, strings, lists, mappings with string keys), and
    [py_in], [py_getitem], [py_iter], [py_str] are the Python operations,
    raising [TypeError], [KeyError] or [IndexError] where CPython does. *)

From Stdlib Require Import List String Ascii ZArith Lia Bool.
From S2P Require Import Prelude PyStr PyDict.
Import ListNotations.
Import PyStr PyDict.
Open Scope string_scope.
Open Scope py_scope.

Module Yaml.

Inductive yaml : Type :=
| YNull
| YBool (b : bool)
| YInt (z : Z)
| YFloat (repr : string)              (** a [float], by the text [repr] gives it *)
| YDate (year month day : Z)          (** a [datetime.date] *)
| YStr (s : string)
| YSeq (l : list yaml)
| YMap (m : dict yaml).

(** ** [repr] and [str] *)

Definition hex_digit (n : nat) : ascii :=
  if Nat.ltb n 10 then ascii_of_nat (48 + n) else ascii_of_nat (87 + n).

(** [repr] of one character inside quotes [q]. *)
Definition repr_char (q c : ascii) : string :=
  let n := nat_of_ascii c in
  if Ascii.eqb c q || Ascii.eqb c "\" then String "\" (String c EmptyString)
  else if Nat.eqb n 9 then "\t"
  else if Nat.eqb n 10 then "\n"
  else if Nat.eqb n 13 then "\r"
  else if Nat.ltb n 32 || Nat.eqb n 127 then
    String "\" (String "x" (String (hex_digit (n / 16)) (String (hex_digit (n mod 16)) EmptyString)))
  else String c EmptyString.

Fixpoint repr_chars (q : ascii) (s : string) : string :=
  match s with
  | EmptyString => EmptyString
  | String c s' => repr_char q c ++ repr_chars q s'
  end.

(** The double-quote character. *)
Definition dquote_char : ascii := ascii_of_nat 34.
Definition dquote : string := String dquote_char EmptyString.

(** [repr(s)]: single quotes, unless [s] holds a single quote and no
    double quote. *)
Definition repr_str (s : string) : string :=
  let q := if py_contains "'" s && negb (py_contains dquote s) then dquote_char else "'"%char in
  String q (repr_chars q s ++ String q EmptyString).

(** The reading of a Python string literal, the inverse of [repr_str]:
    the body up to the closing quote [q], with the escapes [repr] writes. *)
Definition hex_of (c : ascii) : option nat :=
  let n := nat_of_ascii c in
  if Nat.leb 48 n && Nat.leb n 57 then Some (n - 48)
  else if Nat.leb 97 n && Nat.leb n 102 then Some (n - 87)
  else None.

Fixpoint unrepr_chars (q : ascii) (s : string) : option string :=
  match s with
  | EmptyString => None
  | String c rest =>
      if Ascii.eqb c q then match rest with EmptyString => Some EmptyString | _ => None end
      else if Ascii.eqb c "\" then
        match rest with
        | String e rest' =>
            if Ascii.eqb e "x" then
              match rest' with
              | String h1 (String h2 r) =>
                  match hex_of h1, hex_of h2, unrepr_chars q r with
                  | Some a, Some b, Some t => Some (String (ascii_of_nat (16 * a + b)) t)
                  | _, _, _ => None
                  end
              | _ => None
              end
            else
              match unrepr_chars q rest' with
              | Some t =>
                  if Ascii.eqb e "t" then Some (String (ascii_of_nat 9) t)
                  else if Ascii.eqb e "n" then Some (String (ascii_of_nat 10) t)
                  else if Ascii.eqb e "r" then Some (String (ascii_of_nat 13) t)
                  else Some (String e t)
              | None => None
              end
        | EmptyString => None
        end
      else match unrepr_chars q rest with Some t => Some (String c t) | None => None end
  end.

Definition unrepr_str (s : string) : option string :=
  match s with
  | String q body => if Ascii.eqb q "'" || Ascii.eqb q dquote_char then unrepr_chars q body else None
  | EmptyString => None
  end.

(** [s] padded on the left with zeros to [n] characters. *)
Definition zpad (n : nat) (s : string) : string := replicate_char (n - String.length s) "0" ++ s.

Fixpoint py_repr (y : yaml) : string :=
  match y with
  | YNull => "None"
  | YBool true => "True"
  | YBool false => "False"
  | YInt z => py_str_int z
  | YFloat r => r
  | YDate yr mo dy =>
      "datetime.date(" ++ py_str_int yr ++ ", " ++ py_str_int mo ++ ", " ++ py_str_int dy ++ ")"
  | YStr s => repr_str s
  | YSeq l => "[" ++ String.concat ", " (map py_repr l) ++ "]"
  | YMap m => "{" ++ String.concat ", " (map (fun kv => repr_str (fst kv) ++ ": " ++ py_repr (snd kv)) m) ++ "}"
  end.

(** [str(y)]: a date prints as [date.isoformat()]. *)
Definition py_str (y : yaml) : string :=
  match y with
  | YStr s => s
  | YDate yr mo dy =>
      zpad 4 (py_str_int yr) ++ "-" ++ zpad 2 (py_str_int mo) ++ "-" ++ zpad 2 (py_str_int dy)
  | _ => py_repr y
  end.

(** A value used where a Python string is required ([len], [+],
    [os.path.expanduser]): anything else raises [TypeError]. *)
Definition as_text (y : yaml) : result string :=
  match y with
  | YStr s => Ok s
  | _ => Err TypeError
  end.

(** ** Containers *)

(** [item in c] for a string [item]. *)
Definition py_in (item : string) (c : yaml) : result bool :=
  match c with
  | YMap m => Ok (dict_mem m item)
  | YSeq l => Ok (existsb (fun e => match e with YStr s => String.eqb s item | _ => false end) l)
  | YStr s => Ok (py_contains item s)
  | _ => Err TypeError
  end.

(** [l[i]] on a Python list or string, negative indices from the end. *)
Definition py_index {A} (l : list A) (i : Z) : result A :=
  let n := Z.of_nat (List.length l) in
  let j := if (i <? 0)%Z then (i + n)%Z else i in
  if ((j <? 0) || (n <=? j))%Z then Err IndexError
  else match nth_error l (Z.to_nat j) with
       | Some a => Ok a
       | None => Err IndexError
       end.

Fixpoint string_chars (s : string) : list yaml :=
  match s with
  | EmptyString => []
  | String c s' => YStr (String c EmptyString) :: string_chars s'
  end.

Definition int_of_key (key : yaml) : option Z :=
  match key with
  | YInt z => Some z
  | YBool b => Some (if b then 1 else 0)%Z
  | _ => None
  end.

(** [c[key]]. *)
Definition py_getitem (c key : yaml) : result yaml :=
  match c with
  | YMap m =>
      match key with
      | YStr k => match dict_get m k with Some v => Ok v | None => Err (KeyError k) end
      | _ => Err (KeyError (py_str key))
      end
  | YSeq l => match int_of_key key with Some i => py_index l i | None => Err TypeError end
  | YStr s => match int_of_key key with Some i => py_index (string_chars s) i | None => Err TypeError end
  | _ => Err TypeError
  end.

(** [for x in c]. *)
Definition py_iter (c : yaml) : result (list yaml) :=
  match c with
  | YMap m => Ok (map (fun kv => YStr (fst kv)) m)
  | YSeq l => Ok l
  | YStr s => Ok (string_chars s)
  | _ => Err TypeError
  end.

(** The key of [d[var] = ...] for a dictionary of strings.  A mapping or a
    sequence is unhashable; a number or [None] would become a non-string
    key, which the model does not represent and reports as [TypeError]
    (CPython raises it at the next substitution, which concatenates the
    key with a string). *)
Definition dict_key (var : yaml) : result string :=
  match var with
  | YStr s => Ok s
  | _ => Err TypeError
  end.

(** ** Lemmas *)

(** Iterating a well-formed mapping and indexing it by each key visits its
    entries in order. *)
Lemma getitem_iter_map (m : dict yaml) :
  dict_wf m ->
  Forall (fun kv => py_getitem (YMap m) (YStr (fst kv)) = Ok (snd kv)) m.
Proof.
  intros Hwf. apply Forall_forall. intros [k v] Hin. simpl.
  rewrite (dict_get_In m k v Hwf Hin). reflexivity.
Qed.

Lemma py_in_map (m : dict yaml) k : py_in k (YMap m) = Ok (dict_mem m k).
Proof. reflexivity. Qed.

(** One character and its [repr] read back. *)
Lemma repr_char_unrepr q c rest :
  q = "'"%char \/ q = dquote_char ->
  unrepr_chars q (repr_char q c ++ rest) =
  match unrepr_chars q rest with Some t => Some (String c t) | None => None end.
Proof. intros [-> | ->]; ascii_cases c; reflexivity. Qed.

Lemma repr_chars_unrepr q s :
  q = "'"%char \/ q = dquote_char ->
  unrepr_chars q (repr_chars q s ++ String q EmptyString) = Some s.
Proof.
  intros Hq. induction s as [|c s IH]; simpl.
  - rewrite Ascii.eqb_refl. reflexivity.
  - rewrite <- append_assoc, repr_char_unrepr by exact Hq. rewrite IH. reflexivity.
Qed.

(** [repr] of a string reads back as the string: the quoting and
    escaping of [str()] on a configuration node loses nothing, so the
    [No path in ...] message shows the node's strings exactly. *)
Theorem repr_str_roundtrip (s : string) : unrepr_str (repr_str s) = Some s.
Proof.
  unfold repr_str, unrepr_str.
  destruct (py_contains "'" s && negb (py_contains dquote s)).
  - rewrite orb_true_r. apply repr_chars_unrepr. right; reflexivity.
  - cbn [Ascii.eqb orb]. apply repr_chars_unrepr. left; reflexivity.
Qed.

(** [l[i]] succeeds exactly for [-len(l) <= i < len(l)], a negative
    index counting from the end, and raises [IndexError] otherwise. *)
Theorem py_index_bounds {A} (l : list A) (i : Z) :
  (- Z.of_nat (List.length l) <= i < Z.of_nat (List.length l))%Z ->
  py_index l i =
    match nth_error l (Z.to_nat (if (i <? 0)%Z then i + Z.of_nat (List.length l) else i)) with
    | Some a => Ok a
    | None => Err IndexError
    end /\
  exists a, nth_error l (Z.to_nat (if (i <? 0)%Z then i + Z.of_nat (List.length l) else i)) = Some a.
Proof.
  intros Hi. set (n := Z.of_nat (List.length l)) in *.
  set (j := if (i <? 0)%Z then (i + n)%Z else i).
  assert (Hj : (0 <= j < n)%Z) by (unfold j; destruct (Z.ltb_spec i 0); lia).
  assert (Hs : ((j <? 0) || (n <=? j))%Z = false)
    by (apply orb_false_iff; split; [apply Z.ltb_ge | apply Z.leb_gt]; lia).
  destruct (nth_error l (Z.to_nat j)) as [a|] eqn:E.
  - split; [unfold py_index; fold n; fold j; rewrite Hs, E; reflexivity | eauto].
  - apply nth_error_None in E. unfold n in Hj. lia.
Qed.

(** Outside [-len(l) <= i < len(l)], [l[i]] raises [IndexError]. *)
Theorem py_index_out_of_range {A} (l : list A) (i : Z) :
  (i < - Z.of_nat (List.length l) \/ Z.of_nat (List.length l) <= i)%Z -> py_index l i = Err IndexError.
Proof.
  intros Hi. unfold py_index.
  replace (((if (i <? 0)%Z then (i + Z.of_nat (List.length l))%Z else i) <? 0) ||
           (Z.of_nat (List.length l) <=? (if (i <? 0)%Z then (i + Z.of_nat (List.length l))%Z else i)))%Z
    with true; [reflexivity|].
  symmetry. destruct (Z.ltb_spec i 0); apply orb_true_iff;
    [left; apply Z.ltb_lt | right; apply Z.leb_le]; lia.
Qed.

Lemma py_index_bounds_witness :
  py_index ["cc"; "gcc"] (-1)%Z = Ok "gcc" /\
  (exists a, nth_error ["cc"; "gcc"] (Z.to_nat (if (-1 <? 0)%Z then -1 + Z.of_nat 2 else -1)) = Some a).
Proof. destruct (py_index_bounds ["cc"; "gcc"] (-1)%Z ltac:(simpl; lia)) as [H1 H2]. split; [rewrite H1; reflexivity | exact H2]. Defined.

Lemma py_index_out_of_range_witness : py_index ["cc=gcc"] 1%Z = Err IndexError.
Proof. apply py_index_out_of_range. simpl. lia. Defined.

End Yaml.
