(* ===== verification/Resolver.v ===== *)
(** * Variable substitution and configuration extraction

    [replace_with_variables] (src/builder.py lines 23-28) replaces every
    [{name}] of a template by its value, user variables first and then the
    computed ones, each key once, in dictionary order.  [extract_variables]
    and [extract_environment] (lines 31-42) walk a node's [variables] or
    [environment] block in declaration order and assign every entry,
    resolved against the variables known at that point.  Both mutate and
    return the dictionary they are given; the aliasing this creates is
    modelled in [Builder]. *)

From Stdlib Require Import List String Ascii ZArith Lia Bool.
From S2P Require Import Prelude PyStr PyDict Yaml.
Import ListNotations.
Import PyStr PyDict Yaml.
Open Scope string_scope.
Open Scope py_scope.

Module Resolver.

(** ** Definitions *)

Definition placeholder (k : string) : string := "{" ++ k ++ "}".

(** [value = str(value).replace('{' + v + '}', d[v])]. *)
Definition subst_var (value : string) (kv : string * string) : string :=
  py_replace value (placeholder (fst kv)) (snd kv).

(** The two loops of [replace_with_variables] on the string [str(value)]. *)
Definition replace_str (value : string) (variables user_variables : dict string) : string :=
  fold_left subst_var variables (fold_left subst_var user_variables value).

(** [replace_with_variables(value, variables, user_variables)]: when both
    dictionaries are empty no loop runs and [value] comes back as it is
    (possibly not a string); otherwise the first iteration applies [str]. *)
Definition replace_with_variables (value : yaml) (variables user_variables : dict string) : yaml :=
  match user_variables, variables with
  | [], [] => value
  | _, _ => YStr (replace_str (py_str value) variables user_variables)
  end.

(** The loop body [target[var] = replace_with_variables(str(block[var]), ...)]:
    the right-hand side first, then the key is stored. *)
Definition assign_step (block : yaml) (resolve : dict string -> string -> string)
    (target : dict string) (var : yaml) : result (dict string) :=
  val <- py_getitem block var ;;
  k <- dict_key var ;;
  Ok (dict_set k (resolve target (py_str val)) target).

(** [extract_variables(root, variables, user_variables)]: each entry is
    resolved against the dictionary being filled. *)
Definition extract_variables (root : yaml) (variables user_variables : dict string)
    : result (dict string) :=
  present <- py_in "variables" root ;;
  if present then
    block <- py_getitem root (YStr "variables") ;;
    vars <- py_iter block ;;
    rfold (assign_step block
             (fun cur s => py_str (replace_with_variables (YStr s) cur user_variables)))
          vars variables
  else Ok variables.

(** [extract_environment(root, environment, variables, user_variables)]:
    entries are resolved against [variables], never against [environment]. *)
Definition extract_environment (root : yaml) (environment variables user_variables : dict string)
    : result (dict string) :=
  present <- py_in "environment" root ;;
  if present then
    block <- py_getitem root (YStr "environment") ;;
    vars <- py_iter block ;;
    rfold (assign_step block
             (fun _ s => py_str (replace_with_variables (YStr s) variables user_variables)))
          vars environment
  else Ok environment.

(** The contract of section 4.2 of the specification: a sequential fold
    over the declared entries, each resolved against the map so far. *)
Fixpoint declare (block : dict yaml) (resolve : dict string -> string -> string)
    (d : dict string) : dict string :=
  match block with
  | [] => d
  | (k, v) :: block' => declare block' resolve (dict_set k (resolve d (py_str v)) d)
  end.

(** Brace-free text: no [{] and no [}]. *)
Definition brace_free (s : string) : bool :=
  negb (py_contains "{" s) && negb (py_contains "}" s).

(** ** Substitution lemmas *)

Lemma subst_var_scan s kv :
  subst_var s kv = replace_scan (placeholder (fst kv)) (snd kv) 0 s.
Proof. reflexivity. Qed.

Lemma replace_with_variables_str s variables user :
  replace_with_variables (YStr s) variables user = YStr (replace_str s variables user).
Proof. destruct user, variables; reflexivity. Qed.

Lemma py_str_replace_with_variables s variables user :
  py_str (replace_with_variables (YStr s) variables user) = replace_str s variables user.
Proof. rewrite replace_with_variables_str. reflexivity. Qed.

Lemma placeholder_absent k s :
  py_contains "{" s = false -> py_contains (placeholder k) s = false.
Proof.
  intros H. destruct (py_contains (placeholder k) s) eqn:E; [|reflexivity].
  unfold placeholder in E. rewrite <- H. symmetry.
  apply (py_contains_app_l "{" (k ++ "}")), E.
Qed.

Lemma subst_var_absent s kv :
  py_contains "{" s = false -> subst_var s kv = s.
Proof.
  intros H. rewrite subst_var_scan.
  apply replace_scan_absent, (placeholder_absent (fst kv)), H.
Qed.

Lemma fold_subst_absent s l :
  py_contains "{" s = false -> fold_left subst_var l s = s.
Proof.
  revert s; induction l as [|kv l IH]; intros s H; simpl; [reflexivity|].
  rewrite subst_var_absent by exact H. apply IH, H.
Qed.

Lemma replace_str_absent s variables user :
  py_contains "{" s = false -> replace_str s variables user = s.
Proof.
  intros H. unfold replace_str. rewrite (fold_subst_absent s _ H).
  apply fold_subst_absent, H.
Qed.

(** A placeholder [{k'}] occurs in [{k}] followed by text without [{]
    only when [k' = k], for brace-free names. *)
Lemma py_contains_no_open_brace k s :
  py_contains "}" k = false ->
  forall k', prefix (k' ++ "}") (k ++ String "}" s) = true -> py_contains "}" k' = false -> k' = k.
Proof.
  induction k as [|c k IH]; intros Hk [|c' k'] Hp Hk'; auto; simpl in Hp.
  - rewrite prefix_String in Hp. destruct (ascii_dec c' "}") as [->|]; [|discriminate].
    rewrite py_contains_head in Hk'. discriminate.
  - rewrite prefix_String in Hp. destruct (ascii_dec "}" c) as [<-|]; [|discriminate].
    rewrite py_contains_head in Hk. discriminate.
  - rewrite prefix_String in Hp. destruct (ascii_dec c' c) as [<-|]; [|discriminate].
    f_equal. apply IH; eauto using py_contains_tail.
Qed.

Lemma py_contains_brace_tail k s :
  py_contains "{" k = false -> py_contains "{" s = false -> py_contains "{" (k ++ String "}" s) = false.
Proof.
  induction k as [|c k IH]; intros H Hs; [simpl; rewrite Hs; reflexivity|].
  simpl in *. apply orb_false_iff in H as [H1 H2].
  apply orb_false_iff. split; [|apply IH; assumption].
  rewrite prefix_String in *. destruct (ascii_dec "{" c); [rewrite prefix_nil in H1; discriminate | reflexivity].
Qed.

Lemma placeholder_inj k k' s :
  brace_free k = true -> brace_free k' = true -> py_contains "{" s = false ->
  py_contains (placeholder k') (placeholder k ++ s) = true -> k' = k.
Proof.
  unfold brace_free, placeholder. intros Hk Hk' Hs H.
  apply andb_true_iff in Hk as [Hk1 Hk2]. apply andb_true_iff in Hk' as [_ Hk2'].
  apply negb_true_iff in Hk1, Hk2, Hk2'. rewrite <- !append_assoc in H.
  simpl in H. apply orb_true_iff in H as [H|H].
  - rewrite prefix_cons in H. eapply py_contains_no_open_brace; eauto.
  - pose proof (py_contains_app_l "{" (k' ++ "}") _ H) as H'.
    rewrite py_contains_brace_tail in H' by assumption. discriminate.
Qed.

Lemma subst_var_other k kv s :
  brace_free k = true -> brace_free (fst kv) = true -> fst kv <> k -> py_contains "{" s = false ->
  subst_var (placeholder k ++ s) kv = placeholder k ++ s.
Proof.
  intros Hk Hkv Hne Hs. rewrite subst_var_scan. apply replace_scan_absent.
  destruct (py_contains (placeholder (fst kv)) (placeholder k ++ s)) eqn:E; [|reflexivity].
  exfalso. apply Hne. eapply placeholder_inj; eassumption.
Qed.

Lemma placeholder_nonempty k : placeholder k <> EmptyString.
Proof. unfold placeholder. discriminate. Qed.

Lemma subst_var_same k v s :
  py_contains "{" s = false -> subst_var (placeholder k ++ s) (k, v) = v ++ s.
Proof.
  intros Hs. rewrite subst_var_scan. cbn [fst snd].
  rewrite replace_scan_match by (apply placeholder_nonempty || apply prefix_append).
  rewrite sdrop_append. f_equal. apply replace_scan_absent, placeholder_absent, Hs.
Qed.

(** The loop over a dictionary whose brace-free keys do not include [k]
    leaves [{k}], followed by text without [{], as it is. *)
Lemma fold_subst_unbound k s (l : dict string) :
  brace_free k = true -> Forall (fun kv => brace_free (fst kv) = true) l ->
  dict_get l k = None -> py_contains "{" s = false ->
  fold_left subst_var l (placeholder k ++ s) = placeholder k ++ s.
Proof.
  intros Hk Hl Hget Hs. induction l as [|[k' v'] l IH]; [reflexivity|].
  inversion Hl as [|? ? Hk' Hl']; subst. simpl in Hget. cbn [fold_left].
  destruct (String.eqb_spec k k') as [_|Hne]; [discriminate|].
  rewrite subst_var_other by (simpl; auto). apply IH; assumption.
Qed.

(** The loop over a dictionary that binds [k] to a value without [{]
    puts the value in place of [{k}]; the text after it is kept. *)
Lemma fold_subst_placeholder_app k u s (l : dict string) :
  brace_free k = true -> Forall (fun kv => brace_free (fst kv) = true) l ->
  dict_get l k = Some u -> py_contains "{" u = false -> py_contains "{" s = false ->
  fold_left subst_var l (placeholder k ++ s) = u ++ s.
Proof.
  intros Hk Hl Hget Hu Hs. induction l as [|[k' v'] l IH]; [discriminate|].
  inversion Hl as [|? ? Hk' Hl']; subst. simpl in Hget. cbn [fold_left].
  destruct (String.eqb_spec k k') as [<-|Hne].
  - injection Hget as ->. rewrite subst_var_same by exact Hs. apply fold_subst_absent.
    destruct (py_contains "{" (u ++ s)) eqn:E; [|reflexivity].
    rewrite py_contains_char_app, Hu, Hs in E. discriminate.
  - rewrite subst_var_other by (simpl; auto). apply IH; assumption.
Qed.

Lemma fold_subst_placeholder k u (l : dict string) :
  brace_free k = true -> Forall (fun kv => brace_free (fst kv) = true) l ->
  dict_get l k = Some u -> py_contains "{" u = false ->
  fold_left subst_var l (placeholder k) = u.
Proof.
  intros. rewrite <- (append_nil_r (placeholder k)), (fold_subst_placeholder_app k u); auto.
  apply append_nil_r.
Qed.

(** ** Extraction lemmas *)

Lemma declare_ext block r1 r2 d :
  (forall cur s, r1 cur s = r2 cur s) -> declare block r1 d = declare block r2 d.
Proof.
  intros H. revert d; induction block as [|[k v] block IH]; intros d; simpl; [reflexivity|].
  rewrite H. apply IH.
Qed.

Lemma rfold_assign_block (block : dict yaml) resolve (l : dict yaml) d :
  Forall (fun kv => py_getitem (YMap block) (YStr (fst kv)) = Ok (snd kv)) l ->
  rfold (assign_step (YMap block) resolve) (map (fun kv => YStr (fst kv)) l) d =
  Ok (declare l resolve d).
Proof.
  revert d; induction l as [|[k v] l IH]; intros d Hl; [reflexivity|].
  inversion Hl as [|? ? Hkv Hl']; subst. cbn [rfold map fst snd] in *.
  unfold assign_step at 1. rewrite Hkv. simpl. apply IH, Hl'.
Qed.

Lemma rfold_assign_keys b r l d d' :
  rfold (assign_step b r) l d = Ok d' -> exists ks, dict_keys d' = (dict_keys d ++ ks)%list.
Proof.
  revert d; induction l as [|var l IH]; intros d H; simpl in H.
  - injection H as <-. exists []. symmetry. apply app_nil_r.
  - unfold assign_step in H at 1. destruct (py_getitem b var); [|discriminate].
    destruct (dict_key var) as [k|]; [|discriminate]. simpl in H.
    destruct (IH _ H) as [ks Hks]. destruct (dict_keys_set_prefix d k (r d (py_str a))) as [ks' Hks'].
    exists (ks' ++ ks)%list. rewrite Hks, Hks', app_assoc. reflexivity.
Qed.

Lemma rfold_assign_wf b r l d d' :
  rfold (assign_step b r) l d = Ok d' -> dict_wf d -> dict_wf d'.
Proof.
  revert d; induction l as [|var l IH]; intros d H Hd; simpl in H.
  - injection H as <-. exact Hd.
  - unfold assign_step in H at 1. destruct (py_getitem b var); [|discriminate].
    destruct (dict_key var) as [k|]; [|discriminate]. simpl in H.
    eapply IH; [exact H | apply dict_set_wf, Hd].
Qed.

Lemma extract_variables_ok_rfold root variables user d' :
  extract_variables root variables user = Ok d' ->
  d' = variables \/ exists b l, rfold (assign_step b
     (fun cur s => py_str (replace_with_variables (YStr s) cur user))) l variables = Ok d'.
Proof.
  unfold extract_variables. intros H.
  destruct (py_in "variables" root) as [[|]|]; simpl in H; [|injection H as <-; auto | discriminate].
  destruct (py_getitem root (YStr "variables")) as [b|]; simpl in H; [|discriminate].
  destruct (py_iter b) as [l|]; simpl in H; [|discriminate]. right. eauto.
Qed.

Lemma dict_set_get_same (d : dict string) k v : dict_get d k = Some v -> dict_set k v d = d.
Proof.
  induction d as [|[k' v'] d IH]; simpl; intros H; [discriminate|].
  destruct (String.eqb_spec k k') as [<-|]; [injection H as ->; reflexivity | f_equal; auto].
Qed.

Lemma declare_get_notin block r d k :
  ~ In k (dict_keys block) -> dict_get (declare block r d) k = dict_get d k.
Proof.
  revert d; induction block as [|[k' v] block IH]; intros d Hk; simpl in *; [reflexivity|].
  rewrite IH by tauto. apply dict_get_set_ne. intros ->. tauto.
Qed.

Lemma declare_fixed block (f : string -> string) d :
  dict_wf block ->
  (forall k v, In (k, v) block -> dict_get d k = Some (f (py_str v))) ->
  declare block (fun _ s => f s) d = d.
Proof.
  revert d; induction block as [|[k v] block IH]; intros d Hwf Hd; simpl; [reflexivity|].
  inversion Hwf; subst.
  rewrite dict_set_get_same by (apply Hd; left; reflexivity).
  apply IH; [assumption|]. intros; apply Hd; right; assumption.
Qed.

Lemma declare_get_in block (f : string -> string) d k v :
  dict_wf block -> In (k, v) block ->
  dict_get (declare block (fun _ s => f s) d) k = Some (f (py_str v)).
Proof.
  revert d; induction block as [|[k' v'] block IH]; intros d Hwf Hin; [contradiction|].
  inversion Hwf as [|? ? Hnot Hwf']; subst. simpl in Hin |- *. destruct Hin as [E|Hin].
  - injection E as -> ->. rewrite declare_get_notin by exact Hnot. apply dict_get_set_eq.
  - apply IH; assumption.
Qed.

(** With a resolution that ignores the map, a second declaration of the same
    well-formed block changes nothing. *)
Lemma declare_const_idem block (f : string -> string) d :
  dict_wf block -> declare block (fun _ s => f s) (declare block (fun _ s => f s) d) =
                   declare block (fun _ s => f s) d.
Proof.
  intros Hwf. apply declare_fixed; [exact Hwf|]. intros k v Hin. apply declare_get_in; assumption.
Qed.

Lemma extract_variables_block (m block : dict yaml) (variables user : dict string) :
  dict_get m "variables" = Some (YMap block) -> dict_wf block ->
  extract_variables (YMap m) variables user =
  Ok (declare block (fun cur s => replace_str s cur user) variables).
Proof.
  intros Hget Hwf. unfold extract_variables. simpl. unfold dict_mem. rewrite Hget. simpl.
  rewrite rfold_assign_block by apply getitem_iter_map, Hwf.
  f_equal. apply declare_ext. intros. apply py_str_replace_with_variables.
Qed.

Lemma extract_environment_ok_rfold root environment variables user d' :
  extract_environment root environment variables user = Ok d' ->
  d' = environment \/ exists b r l, rfold (assign_step b r) l environment = Ok d'.
Proof.
  unfold extract_environment. intros H.
  destruct (py_in "environment" root) as [[|]|]; simpl in H; [|injection H as <-; auto | discriminate].
  destruct (py_getitem root (YStr "environment")) as [b|]; simpl in H; [|discriminate].
  destruct (py_iter b) as [l|]; simpl in H; [|discriminate]. right. eauto.
Qed.

(** Extraction only adds keys at the end of a duplicate-free dictionary. *)
Lemma rfold_assign_grows b r l d d' :
  dict_wf d -> rfold (assign_step b r) l d = Ok d' ->
  dict_wf d' /\ exists ks, dict_keys d' = (dict_keys d ++ ks)%list.
Proof. intros Hwf H. split; [eapply rfold_assign_wf; eauto | eapply rfold_assign_keys; eauto]. Qed.

Lemma grows_refl (d : dict string) :
  dict_wf d -> dict_wf d /\ exists ks, dict_keys d = (dict_keys d ++ ks)%list.
Proof. intros Hwf. split; [exact Hwf | exists []; symmetry; apply app_nil_r]. Qed.

Lemma extract_variables_grows (root : yaml) (variables user d' : dict string) :
  dict_wf variables -> extract_variables root variables user = Ok d' ->
  dict_wf d' /\ exists ks, dict_keys d' = (dict_keys variables ++ ks)%list.
Proof.
  intros Hwf H. destruct (extract_variables_ok_rfold _ _ _ _ H) as [->|[b [l Hl]]];
    [apply grows_refl | eapply rfold_assign_grows]; eauto.
Qed.

Lemma extract_environment_grows (root : yaml) (environment variables user d' : dict string) :
  dict_wf environment -> extract_environment root environment variables user = Ok d' ->
  dict_wf d' /\ exists ks, dict_keys d' = (dict_keys environment ++ ks)%list.
Proof.
  intros Hwf H. destruct (extract_environment_ok_rfold _ _ _ _ _ H) as [->|[b [r [l Hl]]]];
    [apply grows_refl | eapply rfold_assign_grows]; eauto.
Qed.

(** ** Theorems *)

(** Substitution leaves a template that contains no [{] unchanged,
    whatever the user and computed variables are. *)
Theorem replace_with_variables_brace_free (s : string) (variables user : dict string) :
  py_contains "{" s = false -> replace_with_variables (YStr s) variables user = YStr s.
Proof. intros H. rewrite replace_with_variables_str. f_equal. apply replace_str_absent, H. Qed.

Lemma replace_with_variables_brace_free_witness :
  py_contains "{" "make -j8" = false /\
  replace_with_variables (YStr "make -j8") [("os", "fedora")] [("bt", "Debug")] = YStr "make -j8".
Proof. split; [reflexivity | apply replace_with_variables_brace_free; reflexivity]. Defined.

(** C5: A user variable takes precedence: the placeholder [{k}] of a user
    variable with value [u] resolves to [u], whatever the computed
    variables hold for [k], provided the names are brace-free and [u] has
    no [{] of its own. *)
Theorem replace_with_variables_user_first (k u : string) (variables user : dict string) :
  brace_free k = true -> Forall (fun kv => brace_free (fst kv) = true) user ->
  dict_get user k = Some u -> py_contains "{" u = false ->
  replace_with_variables (YStr (placeholder k)) variables user = YStr u.
Proof.
  intros Hk Huser Hget Hu. rewrite replace_with_variables_str. unfold replace_str.
  rewrite (fold_subst_placeholder k u user) by assumption. f_equal. apply fold_subst_absent, Hu.
Qed.

Lemma replace_with_variables_user_first_witness :
  replace_with_variables (YStr (placeholder "os")) [("os", "linux")] [("os", "mac")] = YStr "mac".
Proof.
  apply replace_with_variables_user_first; [reflexivity | repeat constructor | reflexivity | reflexivity].
Defined.

(** C23: Text substituted for a computed key is scanned again by the
    later keys: when [a] is declared with the value [{b}] before [b], whose
    value [x] has no [{], resolving [{a}] gives [x], whatever the other
    computed keys and the user variables (which must not bind [a]) are.
    Section 8 of the specification expects [{b}]. *)
Theorem replace_with_variables_rescans (a b x : string) (l1 l2 l3 user : dict string) :
  brace_free a = true -> brace_free b = true -> py_contains "{" x = false ->
  Forall (fun kv => brace_free (fst kv) = true) (user ++ l1 ++ l2)%list ->
  dict_get user a = None -> dict_get l1 a = None -> dict_get l2 b = None ->
  replace_with_variables (YStr (placeholder a)) (l1 ++ (a, placeholder b) :: l2 ++ (b, x) :: l3)%list user = YStr x.
Proof.
  intros Ha Hb Hx Hk Hu H1 H2. rewrite !Forall_app in Hk. destruct Hk as (Hku & Hk1 & Hk2).
  rewrite replace_with_variables_str. unfold replace_str. f_equal.
  rewrite <- (append_nil_r (placeholder a)), (fold_subst_unbound a EmptyString user) by auto.
  rewrite fold_left_app, (fold_subst_unbound a EmptyString l1) by auto. cbn [fold_left].
  rewrite subst_var_same by reflexivity. rewrite fold_left_app, (fold_subst_unbound b EmptyString l2) by auto.
  cbn [fold_left]. rewrite subst_var_same, append_nil_r by reflexivity. apply fold_subst_absent, Hx.
Qed.

(** C6: On a mapping node whose [variables] block is a well-formed mapping,
    [extract_variables] is the sequential fold of the specification: each
    declaration, in order, is resolved against the dictionary holding the
    earlier ones and stored. *)
Theorem extract_variables_declare (m block : dict yaml) (variables user : dict string) :
  dict_get m "variables" = Some (YMap block) -> dict_wf block ->
  extract_variables (YMap m) variables user =
  Ok (declare block (fun cur s => replace_str s cur user) variables).
Proof. apply extract_variables_block. Qed.

Lemma extract_variables_declare_witness :
  extract_variables (YMap [("variables", YMap [("a", YInt 1); ("b", YStr "{a}2")])])
    [("os", "fedora")] [] = Ok [("os", "fedora"); ("a", "1"); ("b", "12")].
Proof.
  rewrite (extract_variables_declare _ [("a", YInt 1); ("b", YStr "{a}2")]);
    [reflexivity | reflexivity | repeat constructor; simpl; intuition discriminate].
Defined.

(** C7: [extract_environment] resolves each entry against the variables,
    never against the environment being filled. *)
Theorem extract_environment_declare (m block : dict yaml) (environment variables user : dict string) :
  dict_get m "environment" = Some (YMap block) -> dict_wf block ->
  extract_environment (YMap m) environment variables user =
  Ok (declare block (fun _ s => replace_str s variables user) environment).
Proof.
  intros Hget Hwf. unfold extract_environment. simpl. unfold dict_mem. rewrite Hget. simpl.
  rewrite rfold_assign_block by apply getitem_iter_map, Hwf.
  f_equal. apply declare_ext. intros. apply py_str_replace_with_variables.
Qed.

Lemma extract_environment_declare_witness :
  extract_environment (YMap [("environment", YMap [("CC", YStr "{cc}"); ("X", YStr "{CC}")])])
    [("CC", "old")] [("cc", "gcc")] [] = Ok [("CC", "gcc"); ("X", "{CC}")].
Proof.
  rewrite (extract_environment_declare _ [("CC", YStr "{cc}"); ("X", YStr "{CC}")]);
    [reflexivity | reflexivity | repeat constructor; simpl; intuition discriminate].
Defined.

(** C20: A node with no [variables] key leaves the dictionary as it is; a
    node that is not a container ([None], a number, a boolean) raises
    [TypeError]. *)
Theorem extract_variables_no_block (m : dict yaml) (variables user : dict string) :
  dict_get m "variables" = None ->
  extract_variables (YMap m) variables user = Ok variables /\
  extract_variables YNull variables user = Err TypeError.
Proof. intros H. unfold extract_variables. simpl. unfold dict_mem. rewrite H. split; reflexivity. Qed.

Lemma extract_variables_no_block_witness :
  extract_variables (YMap [("path", YStr "/tmp")]) [("os", "fedora")] [] = Ok [("os", "fedora")] /\
  extract_variables YNull [("os", "fedora")] [] = Err TypeError.
Proof. apply extract_variables_no_block. reflexivity. Defined.

(** C8: Extraction keeps the dictionary's keys distinct and never moves a
    key already present: the old keys are a prefix of the new ones. *)
Theorem extract_variables_invariant (root : yaml) (variables user d' : dict string) :
  dict_wf variables -> extract_variables root variables user = Ok d' ->
  dict_wf d' /\ exists ks, dict_keys d' = (dict_keys variables ++ ks)%list.
Proof. apply extract_variables_grows. Qed.

Lemma extract_variables_invariant_witness :
  dict_wf [("os", "fedora"); ("bt", "Release")] /\
  extract_variables (YMap [("variables", YMap [("bt", YStr "Debug"); ("a", YStr "x")])])
    [("os", "fedora"); ("bt", "Release")] [] = Ok [("os", "fedora"); ("bt", "Debug"); ("a", "x")] /\
  (dict_wf [("os", "fedora"); ("bt", "Debug"); ("a", "x")] /\
   exists ks, dict_keys [("os", "fedora"); ("bt", "Debug"); ("a", "x")] =
              (dict_keys [("os", "fedora"); ("bt", "Release")] ++ ks)%list).
Proof.
  assert (Hwf : dict_wf [("os", "fedora"); ("bt", "Release")])
    by (repeat constructor; simpl; intuition discriminate).
  split; [exact Hwf|]. split; [reflexivity|].
  exact (extract_variables_invariant
           (YMap [("variables", YMap [("bt", YStr "Debug"); ("a", YStr "x")])]) _ []
           [("os", "fedora"); ("bt", "Debug"); ("a", "x")] Hwf eq_refl).
Defined.

(** Extracting the same block twice gives the same dictionary when no
    template of the block contains [{]; this is when the re-extraction
    done by [build] and [test] is harmless. *)
Theorem extract_variables_idem (m block : dict yaml) (variables user d1 : dict string) :
  dict_get m "variables" = Some (YMap block) -> dict_wf block ->
  Forall (fun kv => py_contains "{" (py_str (snd kv)) = false) block ->
  extract_variables (YMap m) variables user = Ok d1 ->
  extract_variables (YMap m) d1 user = Ok d1.
Proof.
  intros Hget Hwf Hfree H1. rewrite (extract_variables_block m block) in * by assumption.
  injection H1 as <-. f_equal.
  assert (Hr : forall d, declare block (fun cur s => replace_str s cur user) d =
                         declare block (fun _ s => s) d).
  { clear - Hfree. intros d. revert d; induction block as [|[k v] block IH]; intros d; [reflexivity|].
    inversion Hfree as [|? ? Hv Hb]; subst. simpl in *.
    rewrite replace_str_absent by exact Hv. apply IH, Hb. }
  rewrite !Hr. apply (declare_const_idem block (fun s => s)), Hwf.
Qed.

Lemma extract_variables_idem_witness :
  extract_variables (YMap [("variables", YMap [("a", YStr "1")])]) [("os", "fedora")] [] =
    Ok [("os", "fedora"); ("a", "1")] /\
  extract_variables (YMap [("variables", YMap [("a", YStr "1")])]) [("os", "fedora"); ("a", "1")] [] =
    Ok [("os", "fedora"); ("a", "1")].
Proof.
  split; [reflexivity|].
  apply (extract_variables_idem _ [("a", YStr "1")] [("os", "fedora")]);
    [reflexivity | repeat constructor; simpl; tauto | repeat constructor | reflexivity].
Defined.

Lemma replace_with_variables_rescans_witness :
  replace_with_variables (YStr (placeholder "a"))
    ([("os", "fedora")] ++ ("a", placeholder "b") :: [("bt", "Release")] ++ ("b", "X") :: [("c", "{a}")])%list
    [("u", "1")] = YStr "X".
Proof. apply replace_with_variables_rescans; try reflexivity. repeat constructor. Defined.

End Resolver.
