(* ===== verification/Banner.v ===== *)
(** * Banners and the command line of a phase

    [banner] (src/builder.py lines 16-20) frames a step's text in an
    [echo -e] of three lines of [#]; the loops of [build] and [test]
    (lines 83-95 and 103-115) resolve each step, append [&&] between
    entries, a banner and the step, and join the list with spaces.  The
    model keeps the list ([phase_commands]) and the joined line
    ([phase_line]) apart, as the code does. *)

From Stdlib Require Import List String Ascii ZArith Lia Bool.
From S2P Require Import Prelude PyStr PyDict Yaml Resolver.
Import ListNotations.
Import PyStr PyDict Yaml Resolver.
Open Scope string_scope.
Open Scope py_scope.

Module Banner.

(** ** Definitions *)

(** [banner(text)]: the title is cut to 110 characters; the [#] line is 8
    characters longer than the title.  The Python literal ['\\n'] is a
    backslash and an [n], as Rocq's ["\n"] is. *)
Definition banner (text : string) : string :=
  let text := if Nat.ltb 110 (length text) then py_slice_to 110 text else text in
  let sep := "########" ++ replicate_char (length text) "#" in
  "echo -e '\n" ++ sep ++ "\n### " ++ text ++ " ###\n" ++ sep ++ "\n'".

(** One iteration of [for step in proj_root[phase]]. *)
Definition phase_step (variables user_variables : dict string) (cmd : list string) (step : yaml)
    : result (list string) :=
  let step := replace_with_variables step variables user_variables in
  let cmd := if Nat.ltb 0 (List.length cmd) then (cmd ++ ["&&"])%list else cmd in
  s <- as_text step ;;
  Ok (cmd ++ [banner s; "&&"; s])%list.

(** The list [cmd] built by the loop, from [cmd = []]. *)
Definition phase_commands (steps : list yaml) (variables user_variables : dict string)
    : result (list string) :=
  rfold (phase_step variables user_variables) steps [].

(** [' '.join(cmd)]. *)
Definition phase_line (cmd : list string) : string := py_join " " cmd.

(** The specification's pipeline: banner and step of each step, chained
    with [&&]. *)
Fixpoint intersperse_and (l : list string) : list string :=
  match l with
  | [] => []
  | [x] => [x]
  | x :: l' => x :: "&&" :: intersperse_and l'
  end.

Definition pipeline (steps : list string) : list string :=
  intersperse_and (flat_map (fun s => [banner s; s]) steps).

(** The number of occurrences of the character [c] in [s]
    ([s.count(c)]). *)
Fixpoint count_char (c : ascii) (s : string) : nat :=
  match s with
  | EmptyString => 0
  | String d s' => (if Ascii.eqb c d then 1 else 0) + count_char c s'
  end.

(** ** Lemmas *)

Lemma banner_title (text : string) :
  banner text = banner (py_slice_to 110 text).
Proof.
  unfold banner, py_slice_to.
  destruct (Nat.ltb 110 (length text)) eqn:E; pose proof E as E0.
  - apply Nat.ltb_lt in E.
    assert (Hl : length (stake 110 text) = 110) by (rewrite length_stake; lia).
    rewrite Hl. change (Nat.ltb 110 110) with false. cbv iota. rewrite Hl. reflexivity.
  - apply Nat.ltb_ge in E. rewrite (stake_all 110 text E), E0. reflexivity.
Qed.

Lemma intersperse_and_app_pair (l : list string) x y :
  l <> [] -> intersperse_and (l ++ [x; y]) = (intersperse_and l ++ ["&&"; x; "&&"; y])%list.
Proof.
  intros Hl. induction l as [|a l IH]; [congruence|].
  destruct l as [|b l]; [reflexivity|].
  change (intersperse_and (a :: (b :: l) ++ [x; y]) =
          a :: "&&" :: (intersperse_and (b :: l) ++ ["&&"; x; "&&"; y])%list).
  rewrite <- IH by discriminate. reflexivity.
Qed.

Lemma length_intersperse_and (l : list string) :
  List.length (intersperse_and l) = 0 <-> List.length l = 0.
Proof. destruct l as [|a [|b l]]; simpl; split; intros H; simpl in *; lia. Qed.

Lemma flat_map_snoc {A B} (f : A -> list B) l a : flat_map f (l ++ [a]) = (flat_map f l ++ f a)%list.
Proof. rewrite flat_map_app. simpl. rewrite app_nil_r. reflexivity. Qed.

Lemma phase_commands_strings (steps : list yaml) variables user acc :
  variables <> [] ->
  rfold (phase_step variables user) steps (intersperse_and acc) =
  Ok (intersperse_and (acc ++ flat_map (fun st => let s := replace_str (py_str st) variables user in
                                               [banner s; s]) steps)%list).
Proof.
  intros Hv. revert acc; induction steps as [|st steps IH]; intros acc; simpl.
  - rewrite app_nil_r. reflexivity.
  - unfold phase_step at 1.
    replace (replace_with_variables st variables user) with
            (YStr (replace_str (py_str st) variables user))
      by (destruct user, variables; try reflexivity; congruence).
    simpl. set (s := replace_str (py_str st) variables user).
    destruct acc as [|a acc].
    + simpl. change [banner s; "&&"; s] with (intersperse_and [banner s; s]). apply IH.
    + assert (Hlen : (0 < List.length (intersperse_and (a :: acc)))%nat)
        by (destruct acc; simpl; lia).
      apply Nat.ltb_lt in Hlen. rewrite Hlen, <- app_assoc.
      change (["&&"] ++ [banner s; "&&"; s])%list with ["&&"; banner s; "&&"; s].
      rewrite <- intersperse_and_app_pair by discriminate. rewrite IH, <- app_assoc. reflexivity.
Qed.

Lemma intersperse_and_cons_ne a l : intersperse_and (a :: l) <> [].
Proof. destruct l; discriminate. Qed.

Lemma join_space_intersperse (l : list string) :
  py_join " " (intersperse_and l) = py_join " && " l.
Proof.
  unfold py_join. induction l as [|a l IH]; [reflexivity|].
  destruct l as [|b l]; [reflexivity|].
  change (intersperse_and (a :: b :: l)) with (a :: "&&" :: intersperse_and (b :: l)).
  rewrite concat_cons_cons by discriminate.
  rewrite concat_cons_cons by apply intersperse_and_cons_ne.
  rewrite (concat_cons_cons " && " a) by discriminate.
  rewrite IH. reflexivity.
Qed.

(** ** Theorems *)

Lemma count_char_app c a b : count_char c (a ++ b) = count_char c a + count_char c b.
Proof. induction a as [|d a IH]; simpl; [reflexivity|]. rewrite IH. lia. Qed.

Lemma count_char_replicate c d n : Ascii.eqb c d = false -> count_char c (replicate_char n d) = 0.
Proof. intros H. induction n as [|n IH]; simpl; [reflexivity|]. rewrite H, IH. reflexivity. Qed.

(** C17: A banner has [42 + 3 * min(len(text), 110)] characters: two [#]
    lines of [8 + t] characters, the title line [### t ###] of the same
    length, and 26 characters of [echo -e '...'] and line breaks. *)
Theorem banner_length (text : string) :
  length (banner text) = 42 + 3 * Nat.min (length text) 110.
Proof.
  rewrite banner_title. unfold banner, py_slice_to.
  assert (Hl : length (stake 110 text) = Nat.min (length text) 110)
    by (rewrite length_stake; lia).
  assert (Hf : Nat.ltb 110 (length (stake 110 text)) = false) by (apply Nat.ltb_ge; lia).
  rewrite Hf. cbv iota zeta. autorewrite with pyrw. set (t := Nat.min 110 (length text)). simpl. lia.
Qed.

(** C9: When every step resolves to a string, the line a phase runs is
    the specification's pipeline: banner and step of each step in order,
    all joined by [&&], so that a failing command stops the rest. *)
Theorem phase_line_pipeline (steps : list yaml) (variables user : dict string) :
  variables <> [] ->
  exists cmd, phase_commands steps variables user = Ok cmd /\
    phase_line cmd = py_join " && "
      (flat_map (fun st => let s := replace_str (py_str st) variables user in [banner s; s]) steps).
Proof.
  intros Hv. eexists. split.
  - unfold phase_commands. exact (phase_commands_strings steps variables user [] Hv).
  - apply join_space_intersperse.
Qed.

Lemma phase_line_pipeline_witness :
  phase_commands [YStr "make {bt}"; YInt 7] [("bt", "Debug")] [] =
    Ok [banner "make Debug"; "&&"; "make Debug"; "&&"; banner "7"; "&&"; "7"] /\
  exists cmd, phase_commands [YStr "make {bt}"; YInt 7] [("bt", "Debug")] [] = Ok cmd /\
    phase_line cmd = py_join " && "
      (flat_map (fun st => let s := replace_str (py_str st) [("bt", "Debug")] [] in [banner s; s])
                [YStr "make {bt}"; YInt 7]).
Proof.
  split; [reflexivity|]. apply (phase_line_pipeline [YStr "make {bt}"; YInt 7] [("bt", "Debug")] []).
  discriminate.
Defined.

(** C29: The banner puts the step text between single quotes without
    escaping it: for every text, the line is [echo -e '...'] whose quoted
    part holds exactly the quotes of the (truncated) text, so a step with
    a quote closes the [echo]'s quoting early, and one with an odd number
    of quotes leaves it unterminated, which the shell rejects. *)
Theorem banner_unescaped_quote (text : string) :
  exists body, banner text = "echo -e '" ++ body ++ "'" /\
    count_char "'" body = count_char "'" (py_slice_to 110 text).
Proof.
  rewrite banner_title. unfold banner, py_slice_to. set (t := stake 110 text).
  assert (Hf : Nat.ltb 110 (length t) = false) by (apply Nat.ltb_ge; unfold t; rewrite length_stake; lia).
  rewrite Hf. cbv iota zeta. set (sep := "########" ++ replicate_char (length t) "#").
  exists ("\n" ++ sep ++ "\n### " ++ t ++ " ###\n" ++ sep ++ "\n"). split.
  - rewrite <- !append_assoc. reflexivity.
  - assert (Hs : count_char "'" sep = 0) by (unfold sep; rewrite count_char_app, count_char_replicate; reflexivity).
    rewrite !count_char_app, Hs. simpl. lia.
Qed.

End Banner.
