(* ===== verification/Process.v ===== *)
(** * The process: its world, its trace, [error] and [execute_command]

    A run of [src/builder.py] reads the working directory, the process
    environment and the password database, prints to standard output and
    standard error, spawns shell commands and ends with an exit status.
    [World] holds what it reads; a computation of [M A] returns the events
    it produced ([event]) with its result, an [A] or the Python exception
    that ends the run.  [error] (lines 11-13) and [execute_command] (lines
    70-75) are the two operations with effects; the environment the shell
    gets and the failure on a non-zero status are C13 and C15.  [clean],
    [announced] and [err_last] are properties of traces, instances of the
    class [TraceInv], which Builder and Program prove of every run. *)

From Stdlib Require Import List String Ascii ZArith Lia Bool.
From S2P Require Import Prelude PyStr PyDict Yaml.
Import ListNotations.
Import PyStr PyDict Yaml.
Open Scope string_scope.

Module Process.

(** What the process reads: [os.getcwd()], [os.environ], the home directory
    of the current user in the password database ([pwd.getpwuid]), those of
    named users ([pwd.getpwnam]), the exit status the shell returns for
    a command line run in a directory with an environment
    ([subprocess.call(cmd, env=env, cwd=cwd, shell=True)]), the [OSError]
    that call raises when it cannot change into [cwd] ([FileNotFoundError],
    [NotADirectoryError], ...; [None] for a directory it can enter), and
    the text of the files it can open for reading. *)
Record World := {
  w_cwd : string;
  w_environ : dict string;
  w_home_uid : option string;
  w_home_of : string -> option string;
  w_shell : string -> string -> dict string -> Z;
  w_cwd_error : string -> option exn;
  w_files : string -> option string
}.

(** What the process does that can be observed. *)
Inductive event : Type :=
| EvOut (line : string)                                 (** [print(line)] *)
| EvErr (line : string)                                 (** [print(line, file=sys.stderr)] *)
| EvRun (cmd cwd : string) (env : dict string) (code : Z). (** a shell run and its status *)

(** The writer-and-exception monad: the events, then the outcome. *)
Definition M (A : Type) : Type := (list event * result A)%type.

Definition mret {A} (a : A) : M A := ([], Ok a).

Definition mbind {A B} (c : M A) (f : A -> M B) : M B :=
  match c with
  | (t, Ok a) => let (t', r) := f a in ((t ++ t')%list, r)
  | (t, Err e) => (t, Err e)
  end.

(** Fallible pure code inside the process. *)
Definition lift {A} (r : result A) : M A := ([], r).

Declare Scope proc_scope.
Delimit Scope proc_scope with proc.
Notation "x <- c ;; k" := (mbind c (fun x => k))
  (at level 61, c at next level, right associativity) : proc_scope.
Notation "' p <- c ;; k" := (mbind c (fun x => match x with p => k end))
  (at level 61, p pattern, c at next level, right associativity) : proc_scope.
Notation "c ;;; k" := (mbind c (fun _ => k))
  (at level 61, right associativity) : proc_scope.

Definition emit (e : event) : M unit := ([e], Ok tt).

(** The exit status of the process: [0] after a normal return,
    [sys.exit]'s code, [1] for an uncaught exception. *)
Definition exit_status {A} (r : result A) : Z :=
  match r with
  | Ok _ => 0
  | Err (SystemExit c) => c
  | Err _ => 1
  end.

Open Scope proc_scope.

(** [error(text)]: print to standard error and [exit(1)]. *)
Definition error {A} (text : string) : M A :=
  emit (EvErr ("ERROR: " ++ text)) ;;; ([], Err (SystemExit 1)).

(** [execute_command(cmd, cwd, environment)]: print the line, run it with
    [{**os.environ, **environment}] in [cwd], fail on a non-zero status.
    [subprocess.call] raises, and nothing runs, when [cwd] cannot be
    entered. *)
Definition execute_command (w : World) (cmd cwd : string) (environment : dict string) : M unit :=
  emit (EvOut cmd) ;;;
  let env := dict_merge (w_environ w) environment in
  match w_cwd_error w cwd with
  | Some x => ([], Err x)
  | None =>
      let retcode := w_shell w cmd cwd env in
      emit (EvRun cmd cwd env retcode) ;;;
      if Z.eqb retcode 0 then mret tt
      else error ("Execution of " ++ dquote ++ cmd ++ dquote ++ " failed.")
  end.

(** The events of a run, and the shell commands it ran. *)
Definition runs (t : list event) : list string :=
  flat_map (fun e => match e with EvRun cmd _ _ _ => [cmd] | _ => [] end) t.

(** The number of shell commands a computation runs. *)
Definition nruns {A} (c : M A) : nat := List.length (runs (fst c)).

(** Fail-fast: at most one command, and a run that ran one has failed. *)
Definition fails_fast {A} (c : M A) : Prop :=
  nruns c <= 1 /\ (nruns c = 1 -> snd c = Err (SystemExit 1)).

(** An event of a run that went well: nothing on standard error, and every
    command exited with status 0. *)
Definition ok_event (e : event) : Prop :=
  match e with
  | EvErr _ => False
  | EvRun _ _ _ code => code = 0%Z
  | EvOut _ => True
  end.

(** A computation that, when it returns normally, produced only such
    events. *)
Definition clean {A} (c : M A) : Prop := forall a, snd c = Ok a -> Forall ok_event (fst c).

(** A world for the examples: every directory can be entered, the
    process environment has [PATH] and [CC], and the shell exits with
    [code] for every command. *)
Definition shell_world (code : Z) : World := {|
  w_cwd := "/src";
  w_environ := [("PATH", "/usr/bin"); ("CC", "gcc")];
  w_home_uid := None;
  w_home_of := fun _ => None;
  w_shell := fun _ _ _ => code;
  w_cwd_error := fun _ => None;
  w_files := fun _ => None
|}.

(** A shell run, and a line on standard error. *)
Definition is_run (e : event) : bool := match e with EvRun _ _ _ _ => true | _ => false end.
Definition is_err (e : event) : bool := match e with EvErr _ => true | _ => false end.

(** Every shell run is announced: it comes right after the [print(cmd)]
    of the same command line. *)
Inductive announced : list event -> Prop :=
| ann_nil : announced []
| ann_run cmd cwd env code t : announced t -> announced (EvOut cmd :: EvRun cmd cwd env code :: t)
| ann_other e t : is_run e = false -> announced t -> announced (e :: t).

Definition announced_m {A} (c : M A) : Prop := announced (fst c).

(** An error line ends the run: the events hold no line on standard
    error, or one, the last event, of a run that fails. *)
Definition err_last {A} (c : M A) : Prop :=
  Forall (fun e => is_err e = false) (fst c) \/
  exists t0 line x, fst c = (t0 ++ [EvErr line])%list /\
                    Forall (fun e => is_err e = false) t0 /\ snd c = Err x.

(** A property of computations that holds of the pure steps, of a last
    event that ends the process, and of [execute_command], and that
    sequencing preserves: it then holds of every computation of the
    script (Builder, Program). *)
Class TraceInv (Q : forall A, M A -> Prop) := {
  inv_quiet A (c : M A) : fst c = [] -> Q A c;
  inv_bind A B (c : M A) (f : A -> M B) : Q A c -> (forall a, Q B (f a)) -> Q B (mbind c f);
  inv_final A (e : event) (x : exn) : is_run e = false -> Q A ([e], Err x);
  inv_exec w cmd cwd env : Q unit (execute_command w cmd cwd env)
}.

(** ** Theorems on [execute_command] *)

(** C13: The shell runs the command line in [cwd] with
    [{**os.environ, **environment}]: a variable of the project's
    environment overrides the process environment, and every other
    variable of the process environment is passed on. *)
Theorem execute_command_environment (w : World) (cmd cwd : string) (environment : dict string) :
  dict_wf environment ->
  forall c d e code, In (EvRun c d e code) (fst (execute_command w cmd cwd environment)) ->
    c = cmd /\ d = cwd /\ code = w_shell w cmd cwd e /\
    forall k, dict_get e k = match dict_get environment k with
                             | Some v => Some v
                             | None => dict_get (w_environ w) k
                             end.
Proof.
  intros Hwf c d e code. unfold execute_command. simpl.
  repeat match goal with
         | |- context [match ?x with Some _ => _ | None => _ end] => destruct x
         | |- context [if ?b then _ else _] => destruct b
         end; simpl; intros H; repeat destruct H as [H|H]; try discriminate; try contradiction;
    injection H as <- <- <- <-; repeat split; intros k; apply dict_merge_get, Hwf.
Qed.

(** C15: A command that exits with a non-zero status, negative (killed by
    a signal, as [subprocess.call] reports it) or positive, fails the
    run: the line is printed, run, then [ERROR: Execution of "cmd"
    failed.] goes to standard error and the process exits with status 1. *)
Theorem execute_command_nonzero (w : World) (cmd cwd : string) (environment : dict string) :
  w_cwd_error w cwd = None ->
  w_shell w cmd cwd (dict_merge (w_environ w) environment) <> 0%Z ->
  execute_command w cmd cwd environment =
    ([EvOut cmd; EvRun cmd cwd (dict_merge (w_environ w) environment)
                       (w_shell w cmd cwd (dict_merge (w_environ w) environment));
      EvErr ("ERROR: Execution of " ++ dquote ++ cmd ++ dquote ++ " failed.")], Err (SystemExit 1)).
Proof.
  intros Hc Hs. unfold execute_command. simpl. rewrite Hc. simpl.
  destruct (Z.eqb_spec (w_shell w cmd cwd (dict_merge (w_environ w) environment)) 0);
    [contradiction | reflexivity].
Qed.

(** ** Monad laws and trace lemmas *)

Lemma mbind_ret {A B} (a : A) (f : A -> M B) : mbind (mret a) f = f a.
Proof. unfold mbind, mret. simpl. destruct (f a). reflexivity. Qed.

Lemma mbind_ok {A B} t (a : A) (f : A -> M B) :
  mbind (t, Ok a) f = ((t ++ fst (f a))%list, snd (f a)).
Proof. unfold mbind. destruct (f a); reflexivity. Qed.

Lemma mbind_lift_ok {A B} (a : A) (f : A -> M B) : mbind (lift (Ok a)) f = f a.
Proof. apply mbind_ret. Qed.

Lemma mbind_lift_err {A B} (e : exn) (f : A -> M B) : mbind (lift (Err e)) f = ([], Err e).
Proof. reflexivity. Qed.

Lemma mbind_err {A B} t e (f : A -> M B) : mbind (t, Err e) f = (t, Err e).
Proof. reflexivity. Qed.

Lemma mbind_assoc {A B C} (c : M A) (f : A -> M B) (g : B -> M C) :
  mbind (mbind c f) g = mbind c (fun a => mbind (f a) g).
Proof.
  destruct c as [t [a|e]]; [|reflexivity]. unfold mbind at 2 3.
  destruct (f a) as [t1 [b|e]]; simpl.
  - destruct (g b) as [t2 r]. rewrite app_assoc. reflexivity.
  - reflexivity.
Qed.

Lemma error_spec {A} text : @error A text = ([EvErr ("ERROR: " ++ text)], Err (SystemExit 1)).
Proof. reflexivity. Qed.

Lemma runs_app t1 t2 : runs (t1 ++ t2) = (runs t1 ++ runs t2)%list.
Proof. apply flat_map_app. Qed.

Lemma nruns_bind {A B} (c : M A) (f : A -> M B) :
  nruns (mbind c f) = nruns c + match snd c with Ok a => nruns (f a) | Err _ => 0 end.
Proof.
  destruct c as [t [a|e]]; unfold nruns, mbind; simpl; [|lia].
  destruct (f a) as [t' r]. simpl. rewrite runs_app, length_app. reflexivity.
Qed.

Lemma nruns_bind_le {A B} (c : M A) (f : A -> M B) n m :
  nruns c <= n -> (forall a, nruns (f a) <= m) -> nruns (mbind c f) <= n + m.
Proof.
  intros Hc Hf. rewrite nruns_bind. destruct (snd c); [specialize (Hf a)|]; lia.
Qed.

Lemma nruns_bind_quiet {A B} (c : M A) (f : A -> M B) m :
  nruns c = 0 -> (forall a, nruns (f a) <= m) -> nruns (mbind c f) <= m.
Proof. intros Hc Hf. rewrite <- (Nat.add_0_l m), <- Hc. apply nruns_bind_le; auto. Qed.

Lemma nruns_lift {A} (r : result A) : nruns (lift r) = 0.
Proof. reflexivity. Qed.

Lemma nruns_ret {A} (a : A) : nruns (mret a) = 0.
Proof. reflexivity. Qed.

Lemma nruns_error {A} text : nruns (@error A text) = 0.
Proof. reflexivity. Qed.

Lemma execute_command_spec w cmd cwd environment :
  let env := dict_merge (w_environ w) environment in
  let code := w_shell w cmd cwd env in
  execute_command w cmd cwd environment =
  match w_cwd_error w cwd with
  | Some x => ([EvOut cmd], Err x)
  | None =>
      if Z.eqb code 0 then ([EvOut cmd; EvRun cmd cwd env code], Ok tt)
      else ([EvOut cmd; EvRun cmd cwd env code;
             EvErr ("ERROR: Execution of " ++ dquote ++ cmd ++ dquote ++ " failed.")],
            Err (SystemExit 1))
  end.
Proof. simpl. unfold execute_command. simpl. destruct (w_cwd_error w cwd); [|destruct (Z.eqb _ 0)]; reflexivity. Qed.

(** The command runs, once, exactly when [cwd] can be entered. *)
Lemma nruns_execute_command w cmd cwd environment :
  nruns (execute_command w cmd cwd environment) = match w_cwd_error w cwd with Some _ => 0 | None => 1 end.
Proof. rewrite execute_command_spec. simpl. destruct (w_cwd_error w cwd); [|destruct (Z.eqb _ 0)]; reflexivity. Qed.

Lemma execute_command_fails w cmd cwd environment :
  w_shell w cmd cwd (dict_merge (w_environ w) environment) <> 0%Z ->
  snd (execute_command w cmd cwd environment) =
  match w_cwd_error w cwd with Some x => Err x | None => Err (SystemExit 1) end.
Proof.
  intros H. rewrite execute_command_spec. simpl. destruct (w_cwd_error w cwd); [reflexivity|].
  destruct (Z.eqb_spec (w_shell w cmd cwd (dict_merge (w_environ w) environment)) 0);
    [contradiction | reflexivity].
Qed.

Lemma snd_bind {A B} (c : M A) (f : A -> M B) :
  snd (mbind c f) = match snd c with Ok a => snd (f a) | Err e => Err e end.
Proof. destruct c as [t [a|e]]; [|reflexivity]. rewrite mbind_ok. reflexivity. Qed.

Lemma fails_fast_quiet {A} (c : M A) : nruns c = 0 -> fails_fast c.
Proof. intros H. split; lia. Qed.

Lemma fails_fast_bind {A B} (c : M A) (f : A -> M B) :
  fails_fast c -> (forall a, snd c = Ok a -> fails_fast (f a)) -> fails_fast (mbind c f).
Proof.
  intros [Hc1 Hc2] Hf. unfold fails_fast. rewrite nruns_bind, snd_bind.
  destruct (snd c) as [a|e] eqn:E.
  - destruct (Nat.eq_dec (nruns c) 1) as [H1|H1]; [specialize (Hc2 H1); congruence|].
    destruct (Hf a eq_refl) as [Hf1 Hf2]. split; [lia|]. intros H. apply Hf2. lia.
  - split; [lia|]. intros H. specialize (Hc2 ltac:(lia)). congruence.
Qed.

Lemma execute_command_fails_fast w cmd cwd environment :
  w_shell w cmd cwd (dict_merge (w_environ w) environment) <> 0%Z ->
  fails_fast (execute_command w cmd cwd environment).
Proof.
  intros H. pose proof (execute_command_fails w cmd cwd environment H) as Hs.
  split; rewrite nruns_execute_command in *; destruct (w_cwd_error w cwd); try lia.
  intros _. exact Hs.
Qed.

Lemma inv_error {Q} `{TraceInv Q} A text : Q A (@error A text).
Proof. rewrite error_spec. apply inv_final. reflexivity. Qed.

#[export] Instance clean_inv : TraceInv (@clean).
Proof.
  split.
  - intros A c H a _. rewrite H. constructor.
  - intros A B c f Hc Hf b. destruct c as [t [a|x]]; [|discriminate].
    rewrite mbind_ok. intros Hb. apply Forall_app. split; [apply (Hc a eq_refl) | apply (Hf a b Hb)].
  - intros A e x _ a Ha. discriminate Ha.
  - intros w cmd cwd env. rewrite execute_command_spec. destruct (w_cwd_error w cwd); [intros a Ha; discriminate Ha|].
    destruct (Z.eqb_spec (w_shell w cmd cwd (dict_merge (w_environ w) env)) 0) as [H|H].
    + intros a _. repeat constructor. exact H.
    + intros a Ha. discriminate Ha.
Qed.

Lemma announced_app t1 t2 : announced t1 -> announced t2 -> announced (t1 ++ t2).
Proof. induction 1; intros H2; simpl; [exact H2 | constructor; auto ..]. Qed.

#[export] Instance announced_inv : TraceInv (@announced_m).
Proof.
  unfold announced_m. split.
  - intros A c ->. constructor.
  - intros A B c f Hc Hf. destruct c as [t [a|x]]; [|exact Hc].
    rewrite mbind_ok. apply announced_app; [exact Hc | apply Hf].
  - intros A e x He. simpl. constructor; [exact He | constructor].
  - intros w cmd cwd env. rewrite execute_command_spec.
    destruct (w_cwd_error w cwd); [|destruct (Z.eqb _ 0)]; simpl; repeat constructor.
Qed.

#[export] Instance err_last_inv : TraceInv (@err_last).
Proof.
  unfold err_last. split.
  - intros A c ->. left. constructor.
  - intros A B c f Hc Hf. destruct c as [t [a|x]].
    2:{ rewrite mbind_err. destruct Hc as [Hc|(t0 & line & y & Ht & Ht0 & _)]; [left; exact Hc|].
        right. exists t0, line, x. repeat split; assumption. }
    destruct Hc as [Hc|(t0 & line & x & _ & _ & Hx)]; [|discriminate Hx].
    rewrite mbind_ok. destruct (Hf a) as [Hfa|(t0 & line & x & Ht & Ht0 & Hx)]; simpl.
    + left. apply Forall_app. split; assumption.
    + right. exists (t ++ t0)%list, line, x. rewrite Ht, app_assoc.
      repeat split; [apply Forall_app; split|]; assumption.
  - intros A [line|line|c d e code] x He; simpl; [left; repeat constructor | | discriminate He].
    right. exists [], line, x. repeat split. constructor.
  - intros w cmd cwd env. rewrite execute_command_spec.
    destruct (w_cwd_error w cwd); [|destruct (Z.eqb _ 0)]; simpl;
      [left; repeat constructor | left; repeat constructor |].
    right. eexists [_; _], _, _. repeat split. repeat constructor.
Qed.

(** Splits a computation into its binds and conditionals and closes the
    quiet steps, the errors and the shell commands, for any invariant. *)
Ltac inv_t :=
  repeat match goal with
         | |- _ _ (mbind _ _) => apply inv_bind; [|intros ?]
         | |- _ _ (if ?b then _ else _) => destruct b
         | |- _ _ (match ?x with _ => _ end) => destruct x
         | |- _ _ (error _) => apply inv_error
         | |- _ _ (execute_command _ _ _ _) => apply inv_exec
         | |- _ _ _ => solve [apply inv_quiet; reflexivity | apply inv_final; reflexivity]
         end.

#[export] Hint Rewrite @nruns_bind @nruns_lift @nruns_ret @nruns_error nruns_execute_command : pyrw.

Lemma execute_command_environment_witness :
  dict_wf [("CC", "clang")] /\
  forall c d e code, In (EvRun c d e code) (fst (execute_command (shell_world 0) "make" "/src" [("CC", "clang")])) ->
    c = "make" /\ d = "/src" /\ code = w_shell (shell_world 0) "make" "/src" e /\
    forall k, dict_get e k = match dict_get [("CC", "clang")] k with
                             | Some v => Some v
                             | None => dict_get (w_environ (shell_world 0)) k
                             end.
Proof.
  assert (H : dict_wf [("CC", "clang")]) by (repeat constructor; simpl; tauto).
  split; [exact H | apply execute_command_environment, H].
Defined.

Lemma execute_command_nonzero_witness :
  execute_command (shell_world (-9)) "make" "/src" [] =
    ([EvOut "make"; EvRun "make" "/src" (dict_merge (w_environ (shell_world (-9))) []) (-9);
      EvErr ("ERROR: Execution of " ++ dquote ++ "make" ++ dquote ++ " failed.")], Err (SystemExit 1)).
Proof. apply execute_command_nonzero; [reflexivity | discriminate]. Defined.

End Process.
