(* ===== verification/Regex.v ===== *)
(** * Regular expressions: the interface [get_path] needs, and an engine

    [get_path] (src/builder.py lines 48-50) calls [re.compile(path)] and
    [regex.match(os.getcwd())], and keeps [match.group()]: the text the
    pattern matched at the start of the working directory.  [RegexEngine]
    states what the path matcher relies on: a match is a prefix of the
    subject, and a pattern without metacharacters matches exactly when it
    is a prefix.  This file holds the interface, the syntax of patterns
    and the matcher [mtch]/[regex_match]: a backtracking matcher in the
    style of CPython's [sre], where alternatives and greedy repetitions
    are tried first-to-last, lazy ones last-to-first, and a repetition
    stops after an iteration that consumed nothing, going on with the rest
    of the pattern ([MAX_UNTIL]/[MIN_UNTIL]).  A repetition gets one more
    unit of fuel than the length of the subject and every iteration that
    continues the loop consumes a character, so the fuel never runs out
    ([mtch_star_fuel_enough]).  A lookahead runs its body to its first
    match and consumes nothing.  [lang] is the language of a pattern as a
    relation, by recursion on the pattern with [star_rel] for
    repetitions; the matcher is sound and complete for it ([mtch_correct],
    proved in one induction because a negative lookahead turns one into
    the other): what it returns is a matching prefix, and it finds a match
    whenever one exists ([regex_match_lang]).  The parser is in
    [RegexParse], the instance [py_re] in [PyRe].

    The engine (with [RegexParse]) accepts literals, [.], [^], [$], [\A], [\Z], classes
    [[...]] with ranges and negation, the escapes [\d \D \w \W \s \S] and
    character escapes, groups [(...)] and [(?:...)], the lookaheads
    [(?=...)] and [(?!...)], [|], and the quantifiers
    [* + ? {m} {m,} {m,n} {,n}] with their lazy forms.  It
    rejects with [ReError] what CPython rejects (nothing to repeat,
    multiple repeat, unbalanced parentheses, bad ranges and escapes) and
    also what it does not implement (lookbehind, atomic groups and
    possessive quantifiers, backreferences, named groups, comments,
    inline flags, [\b]).  [\w] and [\s]
    are their ASCII meaning on 8-bit characters. *)

From Stdlib Require Import List String Ascii ZArith Lia Bool.
From S2P Require Import Prelude PyStr.
Import ListNotations.
Import PyStr.
Open Scope string_scope.
Open Scope py_scope.

Module Regex.

(** ** The interface *)

(** The metacharacters of Python's [re]; a pattern without them is a
    literal. *)
Definition is_meta (c : ascii) : bool :=
  existsb (Ascii.eqb c) (list_ascii_of_string ".^$*+?{}[]\|()").

Fixpoint literal (pat : string) : bool :=
  match pat with
  | EmptyString => true
  | String c s => negb (is_meta c) && literal s
  end.

Class RegexEngine := {
  re_pattern : Type;
  (** [re.compile(pat)], [ReError] for a pattern it rejects. *)
  re_compile : string -> result re_pattern;
  (** [p.match(s)] and, on success, [.group()]. *)
  re_match : re_pattern -> string -> option string;
  re_match_prefix : forall p s m, re_match p s = Some m -> prefix m s = true;
  re_literal : forall pat, literal pat = true ->
    exists p, re_compile pat = Ok p /\
      forall s, re_match p s = if prefix pat s then Some pat else None
}.

(** ** Syntax *)

Inductive class_item : Type :=
| CChar (c : ascii)
| CRange (lo hi : ascii)
| CDigit (neg : bool)
| CWord (neg : bool)
| CSpace (neg : bool).

Inductive regex : Type :=
| REmpty
| RChar (c : ascii)
| RAny                                  (** [.] *)
| RClass (neg : bool) (items : list class_item)
| RBol                                  (** [^] and [\A] *)
| REol                                  (** [$] *)
| REnd                                  (** [\Z] *)
| RSeq (r1 r2 : regex)
| RAlt (r1 r2 : regex)
| ROpt (greedy : bool) (r : regex)
| RStar (greedy : bool) (r : regex)
| RLook (neg : bool) (r : regex).       (** [(?=...)], and [(?!...)] when [neg] *)

Definition is_digit (c : ascii) : bool :=
  Nat.leb 48 (nat_of_ascii c) && Nat.leb (nat_of_ascii c) 57.

Definition is_word (c : ascii) : bool :=
  let n := nat_of_ascii c in
  is_digit c || (Nat.leb 65 n && Nat.leb n 90) || (Nat.leb 97 n && Nat.leb n 122) || Nat.eqb n 95.

Definition item_mem (it : class_item) (c : ascii) : bool :=
  match it with
  | CChar d => Ascii.eqb c d
  | CRange lo hi => Nat.leb (nat_of_ascii lo) (nat_of_ascii c) && Nat.leb (nat_of_ascii c) (nat_of_ascii hi)
  | CDigit neg => xorb neg (is_digit c)
  | CWord neg => xorb neg (is_word c)
  | CSpace neg => xorb neg (py_isspace c)
  end.

(** ** Matching *)

Definition orelse {A} (a b : option A) : option A :=
  match a with Some x => Some x | None => b end.

Definition newline : ascii := ascii_of_nat 10.

(** A repetition, as [sre]'s [MAX_UNTIL] and [MIN_UNTIL] run it: after
    an iteration that consumed nothing the loop does not iterate again
    and goes on with the rest of the pattern ([k]); [fuel] exceeds the
    length of [s], so it never runs out. *)
Fixpoint star_loop (f : string -> (string -> option string) -> option string) (greedy : bool)
    (fuel : nat) (s : string) (k : string -> option string) : option string :=
  match fuel with
  | O => None
  | S n =>
      let iter := f s (fun s' => if Nat.ltb (length s') (length s) then star_loop f greedy n s' k
                                 else k s') in
      if greedy then orelse iter (k s) else orelse (k s) iter
  end.

(** [mtch r n0 s k]: match [r] at the front of [s] (the subject has length
    [n0]) and pass the rest to the continuation [k]. *)
Fixpoint mtch (r : regex) (n0 : nat) (s : string) (k : string -> option string) : option string :=
  match r with
  | REmpty => k s
  | RChar c => match s with String d s' => if Ascii.eqb c d then k s' else None | _ => None end
  | RAny => match s with String d s' => if Ascii.eqb d newline then None else k s' | _ => None end
  | RClass neg items =>
      match s with
      | String d s' => if xorb neg (existsb (fun it => item_mem it d) items) then k s' else None
      | _ => None
      end
  | RBol => if Nat.eqb (length s) n0 then k s else None
  | REol =>
      match s with
      | EmptyString => k s
      | String d EmptyString => if Ascii.eqb d newline then k s else None
      | _ => None
      end
  | REnd => match s with EmptyString => k s | _ => None end
  | RSeq r1 r2 => mtch r1 n0 s (fun s' => mtch r2 n0 s' k)
  | RAlt r1 r2 => orelse (mtch r1 n0 s k) (mtch r2 n0 s k)
  | ROpt g r1 => if g then orelse (mtch r1 n0 s k) (k s) else orelse (k s) (mtch r1 n0 s k)
  | RStar g r1 => star_loop (mtch r1 n0) g (S (length s)) s k
  | RLook neg r1 =>
      match mtch r1 n0 s (fun t => Some t) with
      | Some _ => if neg then None else k s
      | None => if neg then k s else None
      end
  end.

(** [p.match(s).group()]: the consumed prefix. *)
Definition regex_match (r : regex) (s : string) : option string :=
  match mtch r (length s) s (fun rest => Some rest) with
  | Some rest => Some (stake (length s - length rest) s)
  | None => None
  end.

(** Repetitions of a relation [R] on suffixes, each of which consumes
    input. *)
Inductive star_rel (R : string -> string -> Prop) : string -> string -> Prop :=
| sr_nil s : star_rel R s s
| sr_cons s s1 s2 : R s s1 -> length s1 < length s -> star_rel R s1 s2 -> star_rel R s s2.

(** The language of a pattern, as a relation: [lang n0 r s rest] when [r]
    matches a prefix of [s] (a suffix of the subject of length [n0]) and
    leaves [rest].  A repetition is a sequence of iterations that each
    consume input: an empty iteration adds nothing to the language.  A
    lookahead consumes nothing and holds when its body matches some
    prefix (or, negated, none). *)
Fixpoint lang (n0 : nat) (r : regex) (s s' : string) {struct r} : Prop :=
  match r with
  | REmpty => s' = s
  | RChar c => s = String c s'
  | RAny => exists d, s = String d s' /\ Ascii.eqb d newline = false
  | RClass neg items => exists d, s = String d s' /\ xorb neg (existsb (fun it => item_mem it d) items) = true
  | RBol => s' = s /\ length s = n0
  | REol => s' = s /\ (s = EmptyString \/ s = String newline EmptyString)
  | REnd => s' = s /\ s = EmptyString
  | RSeq r1 r2 => exists s1, lang n0 r1 s s1 /\ lang n0 r2 s1 s'
  | RAlt r1 r2 => lang n0 r1 s s' \/ lang n0 r2 s s'
  | ROpt _ r1 => lang n0 r1 s s' \/ s' = s
  | RStar _ r1 => star_rel (lang n0 r1) s s'
  | RLook neg r1 =>
      s' = s /\ (if neg then ~ (exists t, lang n0 r1 s t) else exists t, lang n0 r1 s t)
  end.

(** ** The engine satisfies the interface *)


(** A literal pattern parses to the sequence of its characters. *)
Definition lit_re (cs : list ascii) (acc : regex) : regex :=
  fold_left (fun a c => RSeq a (RChar c)) cs acc.

(** The continuation that consumes the characters [cs]. *)
Fixpoint chars_k (cs : list ascii) (k : string -> option string) (s : string) : option string :=
  match cs with
  | [] => k s
  | c :: cs' => match s with
                | String d s' => if Ascii.eqb c d then chars_k cs' k s' else None
                | EmptyString => None
                end
  end.

Lemma star_loop_ext f1 f2 g fuel s k1 k2 :
  (forall s k1 k2, (forall t, k1 t = k2 t) -> f1 s k1 = f2 s k2) ->
  (forall t, k1 t = k2 t) -> star_loop f1 g fuel s k1 = star_loop f2 g fuel s k2.
Proof.
  intros Hf. revert s k1 k2; induction fuel as [|n IH]; intros s k1 k2 Hk; [reflexivity|].
  simpl. rewrite (Hf s _ (fun s' => if Nat.ltb (length s') (length s) then star_loop f2 g n s' k2 else k2 s')).
  - rewrite Hk. reflexivity.
  - intros t. destruct (Nat.ltb _ _); [apply IH, Hk | apply Hk].
Qed.

Lemma mtch_ext r n0 s k1 k2 :
  (forall t, k1 t = k2 t) -> mtch r n0 s k1 = mtch r n0 s k2.
Proof.
  revert s k1 k2; induction r as [| c | | neg items | | | | r1 IH1 r2 IH2 | r1 IH1 r2 IH2 | g r IH | g r IH | neg r IH];
    intros s k1 k2 Hk; cbn [mtch].
  - apply Hk.
  - destruct s; [reflexivity|]. destruct (Ascii.eqb _ _); auto.
  - destruct s; [reflexivity|]. destruct (Ascii.eqb _ _); auto.
  - destruct s; [reflexivity|]. destruct (xorb _ _); auto.
  - destruct (Nat.eqb _ _); auto.
  - destruct s as [|d [|e s]]; auto. destruct (Ascii.eqb _ _); auto.
  - destruct s; auto.
  - apply IH1. intros t. apply IH2, Hk.
  - rewrite (IH1 s k1 k2 Hk), (IH2 s k1 k2 Hk). reflexivity.
  - rewrite (IH s k1 k2 Hk), Hk. reflexivity.
  - apply star_loop_ext; [intros; apply IH; assumption | exact Hk].
  - destruct (mtch r n0 s _), neg; auto.
Qed.

Lemma mtch_lit_re cs acc n0 s k :
  mtch (lit_re cs acc) n0 s k = mtch acc n0 s (chars_k cs k).
Proof.
  revert acc k; induction cs as [|c cs IH]; intros acc k; [reflexivity|].
  unfold lit_re in *. simpl. rewrite IH. simpl. apply mtch_ext. intros t.
  destruct t; reflexivity.
Qed.

Lemma chars_k_prefix pat k s :
  chars_k (list_ascii_of_string pat) k s =
  if prefix pat s then k (sdrop (length pat) s) else None.
Proof.
  revert s; induction pat as [|c pat IH]; intros s; simpl.
  - rewrite prefix_nil. reflexivity.
  - destruct s as [|d s]; [reflexivity|]. rewrite prefix_String.
    destruct (Ascii.eqb_spec c d) as [<-|Hne].
    + destruct (ascii_dec c c); [apply IH | congruence].
    + destruct (ascii_dec c d); [congruence | reflexivity].
Qed.

Lemma regex_match_literal pat s :
  literal pat = true ->
  regex_match (lit_re (list_ascii_of_string pat) REmpty) s = if prefix pat s then Some pat else None.
Proof.
  intros _. unfold regex_match. rewrite mtch_lit_re. simpl. rewrite chars_k_prefix.
  destruct (prefix pat s) eqn:Hp; [|reflexivity]. f_equal.
  pose proof (prefix_split pat s Hp) as Hs.
  assert (Hlen : length pat <= length s) by (rewrite Hs, length_append; lia).
  rewrite length_sdrop. replace (length s - (length s - length pat)) with (length pat) by lia.
  rewrite Hs. apply stake_append.
Qed.

Lemma regex_match_prefix r s m : regex_match r s = Some m -> prefix m s = true.
Proof.
  unfold regex_match. destruct (mtch _ _ _ _); intros H; [|discriminate].
  injection H as <-. apply prefix_stake.
Qed.

(** A repetition loop whose body respects pointwise-equal continuations
    gives the same result with any fuel above the subject's length. *)
Lemma star_loop_fuel (f : string -> (string -> option string) -> option string) g n m s k :
  (forall s k1 k2, (forall t, k1 t = k2 t) -> f s k1 = f s k2) ->
  S (length s) <= n -> S (length s) <= m -> star_loop f g n s k = star_loop f g m s k.
Proof.
  intros Hf. revert m s; induction n as [|n IH]; intros m s Hn Hm; [lia|].
  destruct m as [|m]; [lia|]. cbn [star_loop].
  rewrite (Hf s _ (fun s' => if Nat.ltb (length s') (length s) then star_loop f g m s' k else k s')).
  - reflexivity.
  - intros t. destruct (Nat.ltb_spec (length t) (length s)); [apply IH; lia | reflexivity].
Qed.

(** ** The matcher against the language *)

Ltac ex_some := solve [eexists; first [reflexivity | eassumption]].

Lemma star_rel_suffix (R : string -> string -> Prop) s s' :
  (forall s s', R s s' -> exists p, s = p ++ s') -> star_rel R s s' -> exists p, s = p ++ s'.
Proof.
  intros HR. induction 1 as [s|s s1 s2 H1 _ _ [p2 ->]]; [exists EmptyString; reflexivity|].
  destruct (HR _ _ H1) as [p1 ->]. exists (p1 ++ p2). apply append_assoc.
Qed.

Lemma lang_suffix n0 r : forall s s', lang n0 r s s' -> exists p, s = p ++ s'.
Proof.
  induction r as [| c | | neg items | | | | r1 IH1 r2 IH2 | r1 IH1 r2 IH2 | g r IH | g r IH | neg r IH];
    intros s s' H; cbn [lang] in H.
  - subst s'. exists EmptyString. reflexivity.
  - subst s. exists (String c EmptyString). reflexivity.
  - destruct H as [d [-> _]]. exists (String d EmptyString). reflexivity.
  - destruct H as [d [-> _]]. exists (String d EmptyString). reflexivity.
  - destruct H as [-> _]. exists EmptyString. reflexivity.
  - destruct H as [-> _]. exists EmptyString. reflexivity.
  - destruct H as [-> _]. exists EmptyString. reflexivity.
  - destruct H as (s1 & H1 & H2). destruct (IH1 _ _ H1) as [p1 ->], (IH2 _ _ H2) as [p2 ->].
    exists (p1 ++ p2). apply append_assoc.
  - destruct H; [apply IH1 | apply IH2]; assumption.
  - destruct H as [H | ->]; [apply IH, H | exists EmptyString; reflexivity].
  - exact (star_rel_suffix _ _ _ IH H).
  - destruct H as [-> _]. exists EmptyString. reflexivity.
Qed.

Section StarLoop.
Variables (n0 : nat) (r : regex) (g : bool).
Hypothesis r_sound : forall s k x, mtch r n0 s k = Some x -> exists s', lang n0 r s s' /\ k s' = Some x.
Hypothesis r_complete : forall s s' k x, lang n0 r s s' -> k s' = Some x -> exists y, mtch r n0 s k = Some y.

Lemma star_loop_sound fuel s k x :
  star_loop (mtch r n0) g fuel s k = Some x -> exists s', star_rel (lang n0 r) s s' /\ k s' = Some x.
Proof.
  revert s x; induction fuel as [|n IH]; intros s x H; [discriminate|]. cbn [star_loop] in H.
  assert (Hiter : mtch r n0 s (fun s' => if Nat.ltb (length s') (length s) then star_loop (mtch r n0) g n s' k
                                        else k s') = Some x ->
                  exists s', star_rel (lang n0 r) s s' /\ k s' = Some x).
  { intros Hi. destruct (r_sound _ _ _ Hi) as (s1 & Hl & Hk).
    destruct (Nat.ltb_spec (length s1) (length s)) as [Hlt|Hge].
    2:{ destruct (lang_suffix _ _ _ _ Hl) as [[|c p] Hp]; [|rewrite Hp in Hge; simpl in Hge; rewrite length_append in Hge; lia].
        exists s1. split; [rewrite Hp; apply sr_nil | exact Hk]. }
    destruct (IH _ _ Hk) as (s2 & Hl2 & Hk2). exists s2. split; [econstructor; eassumption | exact Hk2]. }
  destruct g; unfold orelse in H.
  - destruct (mtch r n0 s _) as [y|] eqn:Hi.
    + injection H as <-. apply Hiter. reflexivity.
    + exists s. split; [apply sr_nil | exact H].
  - destruct (k s) as [y|] eqn:Hks.
    + injection H as <-. exists s. split; [apply sr_nil | exact Hks].
    + apply Hiter, H.
Qed.

Lemma star_loop_complete s s' k x :
  star_rel (lang n0 r) s s' -> k s' = Some x -> exists y, star_loop (mtch r n0) g (S (length s)) s k = Some y.
Proof.
  induction 1 as [s|s s1 s2 H1 Hlt _ IH]; intros Hk; cbn [star_loop]; unfold orelse.
  - destruct g; [destruct (mtch r n0 s _)|]; rewrite ?Hk; ex_some.
  - destruct (IH Hk) as [y Hy].
    rewrite (star_loop_fuel _ g _ (length s)) in Hy; [| intros; apply mtch_ext; assumption | lia | lia].
    destruct (r_complete s s1 (fun s' => if Nat.ltb (length s') (length s)
                                       then star_loop (mtch r n0) g (length s) s' k else k s') y H1)
      as [z Hz].
    { apply Nat.ltb_lt in Hlt. rewrite Hlt. exact Hy. }
    destruct g; [rewrite Hz; ex_some|]. destruct (k s); ex_some.
Qed.

End StarLoop.

(** The matcher is sound (whatever it returns comes from a match of the
    pattern) and complete (whenever the pattern matches a prefix after
    which the continuation succeeds, it succeeds: backtracking misses no
    match).  The two are proved together, since a negative lookahead
    turns one into the other. *)
Lemma mtch_correct r : forall n0,
  (forall s k x, mtch r n0 s k = Some x -> exists s', lang n0 r s s' /\ k s' = Some x) /\
  (forall s s' k x, lang n0 r s s' -> k s' = Some x -> exists y, mtch r n0 s k = Some y).
Proof.
  induction r as [| c | | neg items | | | | r1 IH1 r2 IH2 | r1 IH1 r2 IH2 | g r IH | g r IH | neg r IH];
    intros n0; split; cbn [mtch lang].
  - intros s k x H. exists s. split; [reflexivity | exact H].
  - intros s s' k x -> Hk. ex_some.
  - intros [|d s] k x H; [discriminate|]. destruct (Ascii.eqb_spec c d) as [<-|]; [|discriminate].
    exists s. split; [reflexivity | exact H].
  - intros s s' k x -> Hk. rewrite Ascii.eqb_refl. ex_some.
  - intros [|d s] k x H; [discriminate|]. destruct (Ascii.eqb d newline) eqn:Hd; [discriminate|].
    exists s. split; [exists d; split; [reflexivity | exact Hd] | exact H].
  - intros s s' k x [d [-> Hd]] Hk. rewrite Hd. ex_some.
  - intros [|d s] k x H; [discriminate|]. destruct (xorb _ _) eqn:Hd; [|discriminate].
    exists s. split; [exists d; split; [reflexivity | exact Hd] | exact H].
  - intros s s' k x [d [-> Hd]] Hk. rewrite Hd. ex_some.
  - intros s k x H. destruct (Nat.eqb_spec (length s) n0); [|discriminate].
    exists s. split; [split; [reflexivity | assumption] | exact H].
  - intros s s' k x [-> Hs] Hk. rewrite Hs, Nat.eqb_refl. ex_some.
  - intros [|d [|e s]] k x H; [exists EmptyString; split; [split; auto | exact H] | | discriminate].
    destruct (Ascii.eqb_spec d newline) as [->|]; [|discriminate].
    eexists. split; [split; [reflexivity | right; reflexivity] | exact H].
  - intros s s' k x [-> [-> | ->]] Hk; [ex_some|]. rewrite Ascii.eqb_refl. ex_some.
  - intros [|d s] k x H; [|discriminate]. exists EmptyString. split; [split; reflexivity | exact H].
  - intros s s' k x [-> ->] Hk. ex_some.
  - intros s k x H. destruct (proj1 (IH1 n0) _ _ _ H) as (s1 & Hl1 & Hk1).
    destruct (proj1 (IH2 n0) _ _ _ Hk1) as (s2 & Hl2 & Hk2).
    exists s2. split; [exists s1; split; assumption | exact Hk2].
  - intros s s' k x (s1 & H1 & H2) Hk. destruct (proj2 (IH2 n0) _ _ k x H2 Hk) as [y Hy].
    exact (proj2 (IH1 n0) _ _ _ _ H1 Hy).
  - intros s k x H. unfold orelse in H. destruct (mtch r1 n0 s k) eqn:E1.
    + injection H as <-. destruct (proj1 (IH1 n0) _ _ _ E1) as (s' & Hl & Hk).
      exists s'. split; [left; exact Hl | exact Hk].
    + destruct (proj1 (IH2 n0) _ _ _ H) as (s' & Hl & Hk). exists s'. split; [right; exact Hl | exact Hk].
  - intros s s' k x [H | H] Hk; unfold orelse.
    + destruct (proj2 (IH1 n0) _ _ _ _ H Hk) as [y ->]. ex_some.
    + destruct (proj2 (IH2 n0) _ _ _ _ H Hk) as [y Hy]. destruct (mtch r1 n0 s k); ex_some.
  - intros s k x H. unfold orelse in H.
    assert (Hsome : forall y, mtch r n0 s k = Some y -> exists s', (lang n0 r s s' \/ s' = s) /\ k s' = Some y).
    { intros y Hy. destruct (proj1 (IH n0) _ _ _ Hy) as (s' & Hl & Hk). exists s'. split; [left; exact Hl | exact Hk]. }
    destruct g; [destruct (mtch r n0 s k) as [y|] eqn:E | destruct (k s) as [y|] eqn:E].
    + injection H as <-. apply Hsome. reflexivity.
    + exists s. split; [right; reflexivity | exact H].
    + injection H as <-. exists s. split; [right; reflexivity | exact E].
    + apply Hsome, H.
  - intros s s' k x [H | ->] Hk; unfold orelse.
    + destruct (proj2 (IH n0) _ _ _ _ H Hk) as [y Hy]. destruct g; [rewrite Hy; ex_some|].
      destruct (k s); ex_some.
    + destruct g; [destruct (mtch r n0 s k)|]; rewrite ?Hk; ex_some.
  - intros s k x H. exact (star_loop_sound n0 r g (proj1 (IH n0)) _ s k x H).
  - intros s s' k x H Hk. exact (star_loop_complete n0 r g (proj2 (IH n0)) s s' k x H Hk).
  - intros s k x H. exists s. split; [split; [reflexivity|] | ].
    + destruct (mtch r n0 s _) as [y|] eqn:E; destruct neg; try discriminate.
      * destruct (proj1 (IH n0) _ _ _ E) as (t & Ht & _). exists t. exact Ht.
      * intros [t Ht]. destruct (proj2 (IH n0) _ _ (fun u => Some u) t Ht eq_refl) as [y Hy]. congruence.
    + destruct (mtch r n0 s _), neg; congruence.
  - intros s s' k x [-> Hl] Hk. destruct neg.
    + destruct (mtch r n0 s _) as [y|] eqn:E; [|ex_some].
      destruct (proj1 (IH n0) _ _ _ E) as (t & Ht & _). exfalso. apply Hl. exists t. exact Ht.
    + destruct Hl as [t Ht]. destruct (proj2 (IH n0) _ _ (fun u => Some u) t Ht eq_refl) as [y ->]. ex_some.
Qed.

(** ** Theorems *)

(** The repetition loop of the matcher never runs out of fuel: any
    fuel above the length of the subject gives what [r*] matches. *)
Theorem mtch_star_fuel_enough (r : regex) (n0 : nat) (g : bool) (s : string)
    (k : string -> option string) (fuel : nat) :
  S (length s) <= fuel -> star_loop (mtch r n0) g fuel s k = mtch (RStar g r) n0 s k.
Proof.
  intros Hf. cbn [mtch]. apply star_loop_fuel; [intros; apply mtch_ext; assumption | lia | lia].
Qed.

(** C22: The matcher agrees with the language of the pattern: the text
    [regex_match] returns (the [match.group()] of [get_path]) is a prefix
    of the subject that the pattern matches, and whenever the pattern
    matches some prefix, [regex_match] finds a match: the backtracking
    search, repetitions and lookaheads included, misses none. *)
Theorem regex_match_lang (r : regex) (s : string) :
  (forall m, regex_match r s = Some m -> exists rest, lang (length s) r s rest /\ s = m ++ rest) /\
  ((exists rest, lang (length s) r s rest) -> exists m, regex_match r s = Some m).
Proof.
  split.
  - intros m. unfold regex_match.
    destruct (mtch r (length s) s (fun rest => Some rest)) as [rest|] eqn:E; [|discriminate].
    intros [= <-]. destruct (proj1 (mtch_correct r (length s)) _ _ _ E) as (rest' & Hl & Hk). injection Hk as ->.
    exists rest. split; [exact Hl|]. destruct (lang_suffix _ _ _ _ Hl) as [p Hp].
    rewrite Hp at 2. rewrite Hp, length_append.
    replace (length p + length rest - length rest) with (length p) by lia. rewrite stake_append. reflexivity.
  - intros [rest Hl]. destruct (proj2 (mtch_correct r (length s)) _ _ (fun rest => Some rest) rest Hl eq_refl) as [y Hy].
    unfold regex_match. rewrite Hy. eexists; reflexivity.
Qed.

Lemma regex_match_lang_witness :
  exists m, regex_match (RSeq (RChar "a") (RSeq (RLook true (RChar "c")) (RStar true (RChar "b")))) "abbc" = Some m.
Proof.
  apply (proj2 (regex_match_lang _ _)). exists "c". cbn [lang].
  exists "bbc". split; [reflexivity|]. exists "bbc". split.
  - split; [reflexivity|]. intros [t Ht]. discriminate Ht.
  - apply (sr_cons _ _ "bc"); [reflexivity | simpl; lia |].
    apply (sr_cons _ _ "c"); [reflexivity | simpl; lia | apply sr_nil].
Defined.

End Regex.
