(* ===== verification/RegexParse.v ===== *)
(** * Parsing regular expressions, after CPython's [sre_parse]

    [py_compile] is [re.compile(path)] (src/builder.py line 48): the
    recursive-descent parser [parse_alt]/[parse_seq]/[parse_atom] with the
    class parser [parse_class_items], the group openers [group_open], the
    escapes and the quantifiers.
    Characters are tested one at a time as [sre_parse] does
    ([head_is], [Ascii.eqb]).  The parsers recurse on a fuel argument:
    [py_compile] grants [4 * length + 4], the class parser [length + 1].
    Every parsing step leaves a shorter remainder, so [3 * length + 3]
    bounds the depth of the parser and [length + 1] that of the class
    parser, and above these bounds the fuel does not matter
    ([py_compile_fuel_enough]).  [py_re_literal] is the law of the
    interface for literal patterns; [py_re_matches_cpython] compares the
    engine with CPython 3 on the kind of patterns a configuration holds. *)

From Stdlib Require Import List String Ascii ZArith Lia Bool.
From S2P Require Import Prelude PyStr Regex.
Import ListNotations.
Import PyStr Regex.
Open Scope string_scope.
Open Scope py_scope.

Module RegexParse.

(** ** Parsing, after CPython's [sre_parse] *)

Definition is_alpha (c : ascii) : bool :=
  let n := nat_of_ascii c in (Nat.leb 65 n && Nat.leb n 90) || (Nat.leb 97 n && Nat.leb n 122).

Definition hex_val (c : ascii) : option nat :=
  let n := nat_of_ascii c in
  if is_digit c then Some (n - 48)
  else if Nat.leb 97 n && Nat.leb n 102 then Some (n - 87)
  else if Nat.leb 65 n && Nat.leb n 70 then Some (n - 55)
  else None.

(** The escapes that stand for a class: [\d \D \w \W \s \S]. *)
Definition class_escape (e : ascii) : option class_item :=
  if Ascii.eqb e "d" then Some (CDigit false)
  else if Ascii.eqb e "D" then Some (CDigit true)
  else if Ascii.eqb e "w" then Some (CWord false)
  else if Ascii.eqb e "W" then Some (CWord true)
  else if Ascii.eqb e "s" then Some (CSpace false)
  else if Ascii.eqb e "S" then Some (CSpace true)
  else None.

(** The escapes that stand for one character, [s] following the escaped
    letter [e]; [in_class] adds [\b] (backspace). *)
Definition char_escape (in_class : bool) (e : ascii) (s : string) : result (ascii * string) :=
  let n := nat_of_ascii e in
  if Ascii.eqb e "x" then
    match s with
    | String h1 (String h2 rest) =>
        match hex_val h1, hex_val h2 with
        | Some a, Some b => Ok (ascii_of_nat (16 * a + b), rest)
        | _, _ => Err ReError
        end
    | _ => Err ReError
    end
  else if Ascii.eqb e "0" then
    match s with
    | String d _ => if Nat.leb 48 (nat_of_ascii d) && Nat.leb (nat_of_ascii d) 55 then Err ReError
                    else Ok (ascii_of_nat 0, s)
    | EmptyString => Ok (ascii_of_nat 0, s)
    end
  else if is_digit e then Err ReError
  else if Ascii.eqb e "n" then Ok (ascii_of_nat 10, s)
  else if Ascii.eqb e "t" then Ok (ascii_of_nat 9, s)
  else if Ascii.eqb e "r" then Ok (ascii_of_nat 13, s)
  else if Ascii.eqb e "f" then Ok (ascii_of_nat 12, s)
  else if Ascii.eqb e "v" then Ok (ascii_of_nat 11, s)
  else if Ascii.eqb e "a" then Ok (ascii_of_nat 7, s)
  else if in_class && Ascii.eqb e "b" then Ok (ascii_of_nat 8, s)
  else if is_alpha e then Err ReError
  else Ok (e, s).

(** [s] after its first character when that character is [c]. *)
Definition head_is (c : ascii) (s : string) : option string :=
  match s with
  | String d rest => if Ascii.eqb d c then Some rest else None
  | EmptyString => None
  end.

(** One element of a class: a character ([inl]) or a class escape ([inr]). *)
Definition class_atom (s : string) : result ((ascii + class_item) * string) :=
  match s with
  | String c rest =>
      if Ascii.eqb c "\" then
        match rest with
        | String e rest' =>
            match class_escape e with
            | Some it => Ok (inr it, rest')
            | None => '(c', rest'') <- char_escape true e rest' ;; Ok (inl c', rest'')
            end
        | EmptyString => Err ReError
        end
      else Ok (inl c, rest)
  | EmptyString => Err ReError
  end.

(** The items of [[...]] up to the closing bracket; a [-] between two
    characters is a range, elsewhere a literal. *)
Fixpoint parse_class_items (fuel : nat) (first : bool) (s : string)
    : result (list class_item * string) :=
  match fuel with
  | O => Err ReError
  | S f =>
      match head_is "]" s with
      | Some rest => if first then
                       '(items, rest') <- parse_class_items f false rest ;;
                       Ok (CChar "]" :: items, rest')
                     else Ok ([], rest)
      | None =>
          '(a, rest) <- class_atom s ;;
          match a with
          | inr it => '(items, rest') <- parse_class_items f false rest ;; Ok (it :: items, rest')
          | inl c =>
              match head_is "-" rest with
              | Some (String d rest2) =>
                  if Ascii.eqb d "]" then
                    '(items, rest') <- parse_class_items f false rest ;; Ok (CChar c :: items, rest')
                  else
                    '(b, rest3) <- class_atom (String d rest2) ;;
                    match b with
                    | inl c2 =>
                        if Nat.ltb (nat_of_ascii c2) (nat_of_ascii c) then Err ReError
                        else '(items, rest') <- parse_class_items f false rest3 ;;
                             Ok (CRange c c2 :: items, rest')
                    | inr _ => Err ReError
                    end
              | _ => '(items, rest') <- parse_class_items f false rest ;; Ok (CChar c :: items, rest')
              end
          end
      end
  end.

Definition parse_class (s : string) : result (regex * string) :=
  match head_is "^" s with
  | Some rest => '(items, rest') <- parse_class_items (S (length rest)) true rest ;;
                 Ok (RClass true items, rest')
  | None => '(items, rest') <- parse_class_items (S (length s)) true s ;; Ok (RClass false items, rest')
  end.

Fixpoint span_digits (s : string) : string * string :=
  match s with
  | String c rest => if is_digit c then let (d, r) := span_digits rest in (String c d, r)
                     else (EmptyString, s)
  | EmptyString => (EmptyString, EmptyString)
  end.

Fixpoint digits_value (acc : nat) (s : string) : nat :=
  match s with
  | String c rest => digits_value (10 * acc + (nat_of_ascii c - 48)) rest
  | EmptyString => acc
  end.

(** [{m,n}] after the brace: [None] when the brace is a literal. *)
Definition parse_braces (s : string) : option (nat * option nat * string) :=
  match head_is "}" s with
  | Some _ => None
  | None =>
      let (lo, r) := span_digits s in
      let '(hi, r', comma) := match head_is "," r with
                              | Some r1 => let (hi, r2) := span_digits r1 in (hi, r2, true)
                              | None => (lo, r, false)
                              end in
      match head_is "}" r' with
      | Some rest =>
          let mn := match lo with EmptyString => 0 | _ => digits_value 0 lo end in
          let mx := match hi with EmptyString => if comma then None else Some mn
                                | _ => Some (digits_value 0 hi) end in
          Some (mn, mx, rest)
      | None => None
      end
  end.

Fixpoint rep_exact (a : regex) (n : nat) : regex :=
  match n with O => REmpty | S k => RSeq a (rep_exact a k) end.

Fixpoint rep_opt (a : regex) (g : bool) (n : nat) : regex :=
  match n with O => REmpty | S k => ROpt g (RSeq a (rep_opt a g k)) end.

Definition repetition (a : regex) (mn : nat) (mx : option nat) (g : bool) : regex :=
  RSeq (rep_exact a mn) (match mx with None => RStar g a | Some n => rep_opt a g (n - mn) end).

Definition quantifier (s : string) : option (nat * option nat * string) :=
  match s with
  | String c rest =>
      if Ascii.eqb c "*" then Some (0, None, rest)
      else if Ascii.eqb c "+" then Some (1, None, rest)
      else if Ascii.eqb c "?" then Some (0, Some 1, rest)
      else if Ascii.eqb c "{" then parse_braces rest
      else None
  | EmptyString => None
  end.

Definition is_anchor (a : regex) : bool :=
  match a with RBol | REol | REnd => true | _ => false end.

(** A quantifier after an atom: [nothing to repeat] on an anchor,
    [min repeat greater than max repeat], [multiple repeat]. *)
Definition parse_quant (a : regex) (s : string) : result (regex * string) :=
  match quantifier s with
  | None => Ok (a, s)
  | Some (mn, mx, rest) =>
      if is_anchor a then Err ReError
      else if match mx with Some n => Nat.ltb n mn | None => false end then Err ReError
      else
        let (g, rest') := match head_is "?" rest with Some r => (false, r) | None => (true, rest) end in
        match quantifier rest' with
        | Some _ => Err ReError
        | None => Ok (repetition a mn mx g, rest')
        end
  end.

Definition parse_escape (s : string) : result (regex * string) :=
  match s with
  | String e rest =>
      match class_escape e with
      | Some it => Ok (RClass false [it], rest)
      | None =>
          if Ascii.eqb e "A" then Ok (RBol, rest)
          else if Ascii.eqb e "Z" then Ok (REnd, rest)
          else '(c, rest') <- char_escape false e rest ;; Ok (RChar c, rest')
      end
  | EmptyString => Err ReError
  end.

(** What follows [(]: a group [(...)] or [(?:...)] ([None]), a lookahead
    [(?=...)] ([Some false]) or [(?!...)] ([Some true]), and the text of
    its body; any other extension is an error. *)
Definition group_open (s : string) : result (option bool * string) :=
  match head_is "?" s with
  | Some (String d r) =>
      if Ascii.eqb d ":" then Ok (None, r)
      else if Ascii.eqb d "=" then Ok (Some false, r)
      else if Ascii.eqb d "!" then Ok (Some true, r)
      else Err ReError
  | Some EmptyString => Err ReError
  | None => Ok (None, s)
  end.

Fixpoint parse_alt (fuel : nat) (s : string) : result (regex * string) :=
  match fuel with
  | O => Err ReError
  | S f =>
      '(r1, rest) <- parse_seq f s REmpty ;;
      match head_is "|" rest with
      | Some rest' => '(r2, rest'') <- parse_alt f rest' ;; Ok (RAlt r1 r2, rest'')
      | None => Ok (r1, rest)
      end
  end
with parse_seq (fuel : nat) (s : string) (acc : regex) : result (regex * string) :=
  match fuel with
  | O => Err ReError
  | S f =>
      match s with
      | EmptyString => Ok (acc, s)
      | String c _ =>
          if Ascii.eqb c "|" || Ascii.eqb c ")" then Ok (acc, s)
          else '(a, rest) <- parse_atom f s ;;
               '(q, rest') <- parse_quant a rest ;;
               parse_seq f rest' (RSeq acc q)
      end
  end
with parse_atom (fuel : nat) (s : string) : result (regex * string) :=
  match fuel with
  | O => Err ReError
  | S f =>
      match s with
      | String c rest =>
          if Ascii.eqb c "(" then
            '(kind, body) <- group_open rest ;;
            '(r, rest') <- parse_alt f body ;;
            match head_is ")" rest' with
            | Some r'' => Ok (match kind with Some neg => RLook neg r | None => r end, r'')
            | None => Err ReError
            end
          else if Ascii.eqb c "[" then parse_class rest
          else if Ascii.eqb c "." then Ok (RAny, rest)
          else if Ascii.eqb c "^" then Ok (RBol, rest)
          else if Ascii.eqb c "$" then Ok (REol, rest)
          else if Ascii.eqb c "\" then parse_escape rest
          else if Ascii.eqb c "{" then
            match parse_braces rest with Some _ => Err ReError | None => Ok (RChar "{", rest) end
          else if Ascii.eqb c "*" || Ascii.eqb c "+" || Ascii.eqb c "?" then Err ReError
          else Ok (RChar c, rest)
      | EmptyString => Err ReError
      end
  end.

(** [re.compile(pat)]: the whole pattern must be consumed (a stray [)] is
    an unbalanced parenthesis). *)
Definition py_compile (pat : string) : result regex :=
  '(r, rest) <- parse_alt (4 * length pat + 4) pat ;;
  match rest with
  | EmptyString => Ok r
  | _ => Err ReError
  end.


(** ** Parser lemmas *)

Lemma parse_seq_plain f c rest acc :
  is_meta c = false ->
  parse_seq (S f) (String c rest) acc =
  ('(a, rest0) <- parse_atom f (String c rest) ;;
   '(q, rest') <- parse_quant a rest0 ;; parse_seq f rest' (RSeq acc q)).
Proof. ascii_cases c; intros H; try discriminate H; reflexivity. Qed.

Lemma parse_atom_plain f c rest :
  is_meta c = false -> parse_atom (S f) (String c rest) = Ok (RChar c, rest).
Proof. ascii_cases c; intros H; try discriminate H; reflexivity. Qed.

Lemma quantifier_literal s : literal s = true -> quantifier s = None.
Proof.
  destruct s as [|c s]; [reflexivity|]. simpl. intros H.
  apply andb_true_iff in H as [H _]. ascii_cases c; try discriminate H; reflexivity.
Qed.

Lemma parse_seq_literal pat f acc :
  literal pat = true -> length pat < f ->
  parse_seq f pat acc = Ok (lit_re (list_ascii_of_string pat) acc, EmptyString).
Proof.
  revert f acc; induction pat as [|c pat IH]; intros f acc Hl Hf;
    (destruct f as [|f]; [simpl in Hf; lia|]); [reflexivity|].
  simpl in Hl. apply andb_true_iff in Hl as [Hc Hl]. apply negb_true_iff in Hc.
  rewrite parse_seq_plain by exact Hc.
  destruct f as [|f]; [simpl in Hf; lia|].
  rewrite parse_atom_plain by exact Hc. cbn [rbind].
  unfold parse_quant. rewrite quantifier_literal by exact Hl. cbn [rbind].
  apply IH; [exact Hl | simpl in Hf; lia].
Qed.

Lemma py_compile_literal pat :
  literal pat = true -> py_compile pat = Ok (lit_re (list_ascii_of_string pat) REmpty).
Proof.
  intros Hl. unfold py_compile. replace (4 * length pat + 4) with (S (4 * length pat + 3)) by lia.
  simpl. rewrite parse_seq_literal by (assumption || lia). reflexivity.
Qed.

(** The matcher depends on its continuation pointwise. *)
Lemma py_re_literal pat :
  literal pat = true ->
  exists p, py_compile pat = Ok p /\
    forall s, regex_match p s = if prefix pat s then Some pat else None.
Proof.
  intros Hl. exists (lit_re (list_ascii_of_string pat) REmpty). split.
  - apply py_compile_literal, Hl.
  - intros s. apply regex_match_literal, Hl.
Qed.

(** ** Every step consumes input *)

Lemma head_is_len c s r : head_is c s = Some r -> length r < length s.
Proof.
  destruct s as [|d s]; simpl; [discriminate|].
  destruct (Ascii.eqb d c); [intros [= <-]; lia | discriminate].
Qed.

Lemma span_digits_len s d r : span_digits s = (d, r) -> length r <= length s.
Proof.
  revert d r; induction s as [|c s IH]; simpl; intros d r H; [injection H as <- <-; simpl; lia|].
  destruct (is_digit c); [|injection H as <- <-; simpl; lia].
  destruct (span_digits s) as [d' r'] eqn:E. injection H as <- <-. specialize (IH _ _ eq_refl). lia.
Qed.

Lemma char_escape_len b e s c r : char_escape b e s = Ok (c, r) -> length r <= length s.
Proof.
  unfold char_escape.
  repeat match goal with
         | |- context [if ?x then _ else _] => destruct x
         end; try discriminate; try (intros [= _ <-]; lia).
  - destruct s as [|h1 [|h2 rest]]; try discriminate.
    destruct (hex_val h1), (hex_val h2); try discriminate. intros [= _ <-]. simpl; lia.
  - destruct s as [|d s]; [intros [= _ <-]; lia|].
    destruct (_ && _); [discriminate | intros [= _ <-]; lia].
Qed.

Lemma class_atom_len s a r : class_atom s = Ok (a, r) -> length r < length s.
Proof.
  destruct s as [|c s]; simpl; [discriminate|].
  destruct (Ascii.eqb c "\"); [|intros [= _ <-]; lia].
  destruct s as [|e s]; [discriminate|].
  destruct (class_escape e); [intros [= _ <-]; simpl; lia|].
  destruct (char_escape true e s) as [[c' r']|] eqn:E; simpl; [|discriminate].
  intros [= _ <-]. apply char_escape_len in E. simpl; lia.
Qed.

Lemma parse_class_items_len f first s items r :
  parse_class_items f first s = Ok (items, r) -> length r < length s.
Proof.
  revert first s items r; induction f as [|f IH]; intros first s items r; cbn [parse_class_items]; [discriminate|].
  destruct (head_is "]" s) as [rest|] eqn:Eh.
  - apply head_is_len in Eh. destruct first.
    + destruct (parse_class_items f false rest) as [[it r']|] eqn:E; cbn [rbind]; [|discriminate].
      intros [= _ <-]. apply IH in E. lia.
    + intros [= _ <-]. exact Eh.
  - destruct (class_atom s) as [[a rest]|] eqn:Ea; cbn [rbind]; [|discriminate].
    apply class_atom_len in Ea.
    assert (Hk : forall it x, '(items, rest') <- parse_class_items f false rest ;;
                              Ok (it :: items, rest') = Ok (x, r) -> length r < length s).
    { intros it x. destruct (parse_class_items f false rest) as [[i' r']|] eqn:E; cbn [rbind];
        [|discriminate]. intros [= _ <-]. apply IH in E. lia. }
    destruct a as [c|it]; [|apply Hk].
    destruct (head_is "-" rest) as [[|d rest2]|] eqn:Hm; try apply Hk.
    apply head_is_len in Hm. destruct (Ascii.eqb d "]"); [apply Hk|].
    destruct (class_atom (String d rest2)) as [[[c2|] rest3]|] eqn:Eb; cbn [rbind]; try discriminate.
    apply class_atom_len in Eb. destruct (Nat.ltb (nat_of_ascii c2) (nat_of_ascii c)); [discriminate|].
    destruct (parse_class_items f false rest3) as [[i' r']|] eqn:E; cbn [rbind]; [|discriminate].
    intros [= _ <-]. apply IH in E. lia.
Qed.

Lemma parse_class_len s x r : parse_class s = Ok (x, r) -> length r < length s.
Proof.
  unfold parse_class. destruct (head_is "^" s) as [rest|] eqn:Eh.
  - apply head_is_len in Eh.
    destruct (parse_class_items _ true rest) as [[it r']|] eqn:E; simpl; [|discriminate].
    intros [= _ <-]. apply parse_class_items_len in E. lia.
  - destruct (parse_class_items _ true s) as [[it r']|] eqn:E; simpl; [|discriminate].
    intros [= _ <-]. apply parse_class_items_len in E. lia.
Qed.

Lemma parse_braces_len s mn mx r : parse_braces s = Some (mn, mx, r) -> length r < length s.
Proof.
  unfold parse_braces. destruct (head_is "}" s); [discriminate|].
  destruct (span_digits s) as [lo r0] eqn:E0. apply span_digits_len in E0.
  destruct (head_is "," r0) as [r1|] eqn:E1.
  - apply head_is_len in E1. destruct (span_digits r1) as [hi r2] eqn:E2.
    apply span_digits_len in E2.
    destruct (head_is "}" r2) as [rest|] eqn:E3; [|discriminate].
    apply head_is_len in E3. intros [= _ _ <-]. lia.
  - destruct (head_is "}" r0) as [rest|] eqn:E3; [|discriminate].
    apply head_is_len in E3. intros [= _ _ <-]. lia.
Qed.

Lemma quantifier_len s mn mx r : quantifier s = Some (mn, mx, r) -> length r < length s.
Proof.
  destruct s as [|c s]; simpl; [discriminate|].
  repeat match goal with |- context [if ?x then _ else _] => destruct x end;
    try discriminate; try (intros [= _ _ <-]; lia).
  intros H. apply parse_braces_len in H. lia.
Qed.

Lemma parse_quant_len a s q r : parse_quant a s = Ok (q, r) -> length r <= length s.
Proof.
  unfold parse_quant. destruct (quantifier s) as [[[mn mx] rest]|] eqn:Eq; [|intros [= _ <-]; lia].
  apply quantifier_len in Eq. destruct (is_anchor a); [discriminate|].
  destruct (match mx with Some n => _ | None => _ end); [discriminate|].
  destruct (head_is "?" rest) as [r1|] eqn:Eh.
  - apply head_is_len in Eh. destruct (quantifier r1); [discriminate|]. intros [= _ <-]. lia.
  - destruct (quantifier rest); [discriminate|]. intros [= _ <-]. lia.
Qed.

Lemma parse_escape_len s x r : parse_escape s = Ok (x, r) -> length r < length s.
Proof.
  destruct s as [|e s]; simpl; [discriminate|].
  destruct (class_escape e); [intros [= _ <-]; lia|].
  destruct (Ascii.eqb e "A"); [intros [= _ <-]; lia|].
  destruct (Ascii.eqb e "Z"); [intros [= _ <-]; lia|].
  destruct (char_escape false e s) as [[c r']|] eqn:E; simpl; [|discriminate].
  intros [= _ <-]. apply char_escape_len in E. lia.
Qed.

(** The body of a group or lookahead is a suffix of the text after the
    parenthesis. *)
Lemma group_open_len s kind body : group_open s = Ok (kind, body) -> length body <= length s.
Proof.
  unfold group_open. destruct (head_is "?" s) as [[|d r]|] eqn:E0; [discriminate| |intros [= _ <-]; lia].
  apply head_is_len in E0. simpl in E0.
  repeat match goal with |- (if ?x then _ else _) = _ -> _ => destruct x end;
    try discriminate; intros [= _ <-]; lia.
Qed.

(** Destruct the first [rbind] of the goal, naming its outcome. *)
Ltac bind_case E :=
  match goal with
  | |- rbind ?m _ = _ -> _ => destruct m as [[? ?]|] eqn:E; cbn [rbind]; [|discriminate]
  end.

Lemma parse_len f :
  (forall s r rest, parse_alt f s = Ok (r, rest) -> length rest <= length s) /\
  (forall s acc r rest, parse_seq f s acc = Ok (r, rest) -> length rest <= length s) /\
  (forall s r rest, parse_atom f s = Ok (r, rest) -> length rest < length s).
Proof.
  induction f as [|f [IHa [IHs IHt]]]; [repeat split; intros; discriminate|].
  repeat split.
  - intros s r rest. cbn [parse_alt]. bind_case E. apply IHs in E.
    destruct (head_is "|" _) as [rest'|] eqn:Eh; [|intros [= _ <-]; exact E].
    apply head_is_len in Eh. bind_case E2. intros [= _ <-]. apply IHa in E2. lia.
  - intros s acc r rest. cbn [parse_seq].
    destruct s as [|c s']; [intros [= _ <-]; lia|].
    destruct (_ || _); [intros [= _ <-]; lia|].
    bind_case E. apply IHt in E. bind_case Hq. apply parse_quant_len in Hq.
    intros H. apply IHs in H. lia.
  - intros s r rest. cbn [parse_atom]. destruct s as [|c s']; [discriminate|].
    destruct (Ascii.eqb c "(").
    + destruct (group_open s') as [[kind body]|] eqn:Eb; cbn [rbind]; [|discriminate].
      apply group_open_len in Eb. bind_case E. apply IHa in E.
      destruct (head_is ")" _) as [r''|] eqn:Eh; [|discriminate].
      apply head_is_len in Eh. intros [= _ <-]. simpl. lia.
    + repeat match goal with |- (if ?x then _ else _) = _ -> _ => destruct x end;
        try discriminate; try (intros [= _ <-]; simpl; lia);
        try (intros H; first [apply parse_class_len in H | apply parse_escape_len in H]; simpl; lia).
Qed.

(** ** Above the bound the fuel does not matter *)

Lemma parse_fuel f g :
  (forall s, 3 * length s + 3 <= f -> 3 * length s + 3 <= g -> parse_alt f s = parse_alt g s) /\
  (forall s acc, 3 * length s + 2 <= f -> 3 * length s + 2 <= g ->
                 parse_seq f s acc = parse_seq g s acc) /\
  (forall s, 3 * length s + 1 <= f -> 3 * length s + 1 <= g -> parse_atom f s = parse_atom g s).
Proof.
  revert g; induction f as [|f IH]; intros g; [repeat split; intros; lia|].
  destruct g as [|g]; [repeat split; intros; lia|].
  destruct (IH g) as [IHa [IHs IHt]]. destruct (parse_len f) as [La [Ls Lt]].
  repeat split.
  - intros s Hf Hg. cbn [parse_alt]. rewrite (IHs s REmpty) by lia.
    destruct (parse_seq g s REmpty) as [[r1 rest1]|] eqn:E; cbn [rbind]; [|reflexivity].
    rewrite <- (IHs s REmpty) in E by lia. apply Ls in E.
    destruct (head_is "|" rest1) as [rest'|] eqn:Eh; [|reflexivity].
    apply head_is_len in Eh. rewrite IHa by lia. reflexivity.
  - intros s acc Hf Hg. cbn [parse_seq]. destruct s as [|c s']; [reflexivity|].
    destruct (_ || _); [reflexivity|]. rewrite IHt by (simpl in *; lia).
    destruct (parse_atom g (String c s')) as [[a rest1]|] eqn:E; cbn [rbind]; [|reflexivity].
    rewrite <- IHt in E by (simpl in *; lia). apply Lt in E.
    destruct (parse_quant a rest1) as [[q rest2]|] eqn:Hq; cbn [rbind]; [|reflexivity].
    apply parse_quant_len in Hq. apply IHs; lia.
  - intros s Hf Hg. cbn [parse_atom]. destruct s as [|c s']; [reflexivity|].
    destruct (Ascii.eqb c "("); [|reflexivity].
    destruct (group_open s') as [[kind body]|] eqn:Eb; cbn [rbind]; [|reflexivity].
    apply group_open_len in Eb. simpl in Hf, Hg. rewrite IHa by lia. reflexivity.
Qed.

Lemma parse_class_items_fuel f g first s :
  S (length s) <= f -> S (length s) <= g -> parse_class_items f first s = parse_class_items g first s.
Proof.
  revert g first s; induction f as [|f IH]; intros g first s Hf Hg; [lia|].
  destruct g as [|g]; [lia|]. cbn [parse_class_items].
  destruct (head_is "]" s) as [rest|] eqn:Eh.
  - apply head_is_len in Eh. destruct first; [|reflexivity]. rewrite (IH g) by lia. reflexivity.
  - destruct (class_atom s) as [[a rest]|] eqn:Ea; cbn [rbind]; [|reflexivity].
    apply class_atom_len in Ea. destruct a as [c|it]; [|rewrite (IH g) by lia; reflexivity].
    destruct (head_is "-" rest) as [[|d rest2]|] eqn:Hm; try (rewrite (IH g) by lia; reflexivity).
    apply head_is_len in Hm. destruct (Ascii.eqb d "]"); [rewrite (IH g) by lia; reflexivity|].
    destruct (class_atom (String d rest2)) as [[[c2|] rest3]|] eqn:Eb; cbn [rbind]; try reflexivity.
    apply class_atom_len in Eb. destruct (Nat.ltb (nat_of_ascii c2) (nat_of_ascii c)); [reflexivity|].
    rewrite (IH g) by lia. reflexivity.
Qed.

(** ** Theorems *)

(** The parser of [re.compile] never runs out of fuel: with any fuel
    of at least [3 * len(pattern) + 3] it gives the result of
    [py_compile] (which grants [4 * len + 4]), and the class parser gives
    the same result with any fuel above the length of its input. *)
Theorem py_compile_fuel_enough (pat : string) (f : nat) :
  3 * length pat + 3 <= f ->
  py_compile pat = ('(r, rest) <- parse_alt f pat ;;
                    match rest with EmptyString => Ok r | _ => Err ReError end) /\
  (forall first s g, S (length s) <= g ->
     parse_class_items g first s = parse_class_items (S (length s)) first s).
Proof.
  intros Hf. split.
  - unfold py_compile. rewrite (proj1 (parse_fuel (4 * length pat + 4) f)) by lia. reflexivity.
  - intros first s g Hg. apply parse_class_items_fuel; lia.
Qed.

(** On the patterns a configuration uses, [re.match(pattern, cwd)]
    agrees with CPython: [.*] backtracks to the last [/proj], classes and
    [\w] repeat greedily, an alternative that fails later is retried with
    the next one, [{m,n}] stops at [n], a lazy star grows only as needed, a
    pattern that does not match gives [None], a lookahead tests without
    consuming, a repetition stops after an iteration that consumed
    nothing, and an unbalanced [(] is a compilation error. *)
Theorem py_re_matches_cpython :
  (r <- py_compile "/home/.*/proj" ;; Ok (regex_match r "/home/user/proj/sub"))%py = Ok (Some "/home/user/proj") /\
  (r <- py_compile "/home/[a-z]+" ;; Ok (regex_match r "/home/user/proj"))%py = Ok (Some "/home/user") /\
  (r <- py_compile "(a|ab)c" ;; Ok (regex_match r "abc"))%py = Ok (Some "abc") /\
  (r <- py_compile "a{2,3}" ;; Ok (regex_match r "aaaa"))%py = Ok (Some "aaa") /\
  (r <- py_compile "a*?b" ;; Ok (regex_match r "aab"))%py = Ok (Some "aab") /\
  (r <- py_compile "~?/ho(me|st)/\w+" ;; Ok (regex_match r "/home/user_1/x"))%py = Ok (Some "/home/user_1") /\
  (r <- py_compile "x" ;; Ok (regex_match r "abc"))%py = Ok None /\
  (r <- py_compile "(?=.*/proj)/home" ;; Ok (regex_match r "/home/u/proj"))%py = Ok (Some "/home") /\
  (r <- py_compile "((?!a)b)+" ;; Ok (regex_match r "bbba"))%py = Ok (Some "bbb") /\
  (r <- py_compile "(a*?)*" ;; Ok (regex_match r "aa"))%py = Ok (Some EmptyString) /\
  py_compile "(" = Err ReError /\ py_compile "(?=a" = Err ReError.
Proof. repeat split; vm_compute; reflexivity. Qed.

End RegexParse.
