(* ===== verification/PyRe.v ===== *)
(** * Python's [re] as an instance of the regular-expression interface

    [py_re] packages the matcher and parser of [Regex] as a
    [RegexEngine]: [re.compile] is [py_compile], [regex.match(cwd)] with
    [.group()] is [regex_match].  Its two laws are [regex_match_prefix]
    ([Regex]) and [py_re_literal] ([RegexParse]). *)

From Stdlib Require Import List String Ascii ZArith Lia Bool.
From S2P Require Import Prelude PyStr Regex RegexParse.
Import ListNotations.
Import PyStr Regex RegexParse.
Open Scope string_scope.

Module PyRe.

(** Python's [re], as far as the engine goes. *)
#[export] Instance py_re : RegexEngine := {
  re_pattern := regex;
  re_compile := py_compile;
  re_match := regex_match;
  re_match_prefix := regex_match_prefix;
  re_literal := py_re_literal
}.

End PyRe.
