(* ===== verification/PathMatch.v ===== *)
(** * Selecting a project by its path pattern

    [get_path] (src/builder.py lines 45-51): a node without [path] is a
    fatal configuration error; otherwise the pattern is resolved, its
    leading [~] expanded ([os.path.expanduser], modelled from CPython's
    [posixpath]), compiled, and matched at the start of the working
    directory.  The theorems are proved for any [RegexEngine]; the
    witnesses run them with the engine [py_re]. *)

From Stdlib Require Import List String Ascii ZArith Lia Bool.
From S2P Require Import Prelude PyStr PyDict Yaml Resolver Process Regex RegexParse PyRe.
Import ListNotations.
Import PyStr PyDict Yaml Resolver Process Regex RegexParse PyRe.
Open Scope string_scope.
Open Scope proc_scope.

Module PathMatch.

(** [s.rstrip('/')]. *)
Fixpoint rstrip_slash (s : string) : string :=
  match s with
  | EmptyString => EmptyString
  | String c s' =>
      match rstrip_slash s' with
      | EmptyString => if Ascii.eqb c "/" then EmptyString else String c EmptyString
      | r => String c r
      end
  end.

(** [os.path.expanduser(path)]: [~] or [~/...] uses [$HOME] (or the
    password entry of the current user when [HOME] is unset), [~name/...]
    the password entry of [name]; an unknown user leaves the path as it
    is; the home directory loses its trailing slashes, and an empty result
    becomes [/]. *)
Definition expanduser (w : World) (path : string) : string :=
  match path with
  | String "~"%char rest =>
      let '(name, i) := match split1_scan "/" rest with
                        | Some (n, _) => (n, S (length n))
                        | None => (rest, length path)
                        end in
      let userhome := if Nat.eqb i 1 then
                        match dict_get (w_environ w) "HOME" with
                        | Some h => Some h
                        | None => w_home_uid w
                        end
                      else w_home_of w name in
      match userhome with
      | None => path
      | Some h =>
          match rstrip_slash h ++ sdrop i path with
          | EmptyString => "/"
          | r => r
          end
      end
  | _ => path
  end.

(** A world for the examples: the working directory [/home/user/proj/sub],
    whose ancestors are the only directories, [HOME] set, a shell that
    succeeds. *)
Definition demo_dirs : list string := ["/"; "/home"; "/home/user"; "/home/user/proj"; "/home/user/proj/sub"].

Definition demo_world : World := {|
  w_cwd := "/home/user/proj/sub";
  w_environ := [("HOME", "/home/user/")];
  w_home_uid := None;
  w_home_of := fun _ => None;
  w_shell := fun _ _ _ => 0%Z;
  w_cwd_error := fun d => if existsb (String.eqb d) demo_dirs then None else Some (FileNotFoundError d);
  w_files := fun _ => None
|}.

Section WithEngine.
Context {RE : RegexEngine}.

(** [get_path(root, variables, user_variables)]. *)
Definition get_path (w : World) (root : yaml) (variables user_variables : dict string)
    : M (option string) :=
  present <- lift (py_in "path" root) ;;
  if present then
    pv <- lift (py_getitem root (YStr "path")) ;;
    path <- lift (as_text (replace_with_variables pv variables user_variables)) ;;
    regex <- lift (re_compile (expanduser w path)) ;;
    mret (re_match regex (w_cwd w))
  else error ("No path in " ++ py_str root).

(** ** Theorems *)

(** C10: A path [get_path] returns is a prefix of the working directory. *)
Theorem get_path_prefix (w : World) (root : yaml) (variables user : dict string) t m :
  get_path w root variables user = (t, Ok (Some m)) -> prefix m (w_cwd w) = true.
Proof.
  unfold get_path. destruct (py_in "path" root) as [[|]|]; simpl; try discriminate.
  destruct (py_getitem root (YStr "path")); simpl; [|discriminate].
  destruct (as_text _); simpl; [|discriminate].
  destruct (re_compile _) as [p|]; simpl; [|discriminate].
  intros H. injection H as _ Hm. apply (re_match_prefix p), Hm.
Qed.

(** C11: A project mapping without [path] stops the run: [ERROR: No path
    in {...}] on standard error and exit status 1. *)
Theorem get_path_missing (w : World) (m : dict yaml) (variables user : dict string) :
  dict_get m "path" = None ->
  get_path w (YMap m) variables user =
    ([EvErr ("ERROR: No path in " ++ py_str (YMap m))], Err (SystemExit 1)).
Proof. intros H. unfold get_path. simpl. unfold dict_mem. rewrite H. reflexivity. Qed.

(** A path without placeholders, [~] or metacharacters selects the
    project exactly when it is a prefix of the working directory, and is
    the matched text. *)
Theorem get_path_literal (w : World) (m : dict yaml) (p : string) (variables user : dict string) :
  dict_get m "path" = Some (YStr p) -> py_contains "{" p = false ->
  prefix "~" p = false -> literal p = true ->
  get_path w (YMap m) variables user =
    ([], Ok (if prefix p (w_cwd w) then Some p else None)).
Proof.
  intros Hget Hbr Ht Hl. unfold get_path. simpl. unfold dict_mem. rewrite Hget. simpl.
  rewrite replace_with_variables_str, replace_str_absent by exact Hbr. simpl.
  replace (expanduser w p) with p
    by (destruct p as [|c p]; [reflexivity|]; unfold expanduser;
        ascii_cases c; try reflexivity; rewrite prefix_cons, prefix_nil in Ht; discriminate Ht).
  destruct (re_literal p Hl) as [rp [Hc Hm]]. rewrite Hc. simpl. rewrite Hm. reflexivity.
Qed.

(** C37: [get_path] expands [~] after the substitution: a path [{k}/rest]
    whose variable [k] holds [~] (and no user variable [k]) compiles
    [HOME] without its trailing slashes followed by [/rest].  Section 4.3
    of the specification expands [~] in the pattern first, which leaves
    [{k}/rest] as it is, so the substituted [~/rest] would be compiled as
    it stands and match no absolute directory. *)
Theorem get_path_expands_substituted_tilde (w : World) (m : dict yaml) (k h rest : string)
    (variables user : dict string) :
  dict_get m "path" = Some (YStr (placeholder k ++ String "/" rest)) ->
  brace_free k = true -> py_contains "{" rest = false ->
  Forall (fun kv => brace_free (fst kv) = true) (user ++ variables)%list ->
  dict_get user k = None -> dict_get variables k = Some "~" ->
  dict_get (w_environ w) "HOME" = Some h ->
  get_path w (YMap m) variables user =
    (regex <- lift (re_compile (rstrip_slash h ++ String "/" rest)) ;; mret (re_match regex (w_cwd w))).
Proof.
  intros Hget Hk Hr Hkeys Hu Hv Hh. apply Forall_app in Hkeys as [Hku Hkv].
  assert (Hs : py_contains "{" (String "/" rest) = false) by (rewrite py_contains_cons, Hr; reflexivity).
  unfold get_path. simpl. unfold dict_mem. rewrite Hget. simpl.
  rewrite replace_with_variables_str. unfold replace_str.
  change (String "{" ((k ++ "}") ++ String "/" rest)) with (placeholder k ++ String "/" rest).
  rewrite (fold_subst_unbound k _ user), (fold_subst_placeholder_app k "~") by auto.
  assert (He : expanduser w (String "~" (String "/" rest)) = rstrip_slash h ++ String "/" rest).
  { unfold expanduser.
    replace (split1_scan "/" (String "/" rest)) with (Some (EmptyString, rest))
      by (symmetry; exact (split1_scan_char "/" EmptyString rest eq_refl)).
    simpl. rewrite Hh. destruct (rstrip_slash h); reflexivity. }
  cbn -[expanduser]. rewrite He. destruct (re_compile _); reflexivity.
Qed.

End WithEngine.

Lemma get_path_prefix_witness :
  get_path demo_world (YMap [("path", YStr "~/pro.")]) [("os", "fedora")] [] =
    ([], Ok (Some "/home/user/proj")) /\ prefix "/home/user/proj" (w_cwd demo_world) = true.
Proof.
  split; [reflexivity|].
  apply (get_path_prefix demo_world (YMap [("path", YStr "~/pro.")]) [("os", "fedora")] [] []).
  reflexivity.
Defined.

Lemma get_path_missing_witness :
  get_path demo_world (YMap [("build", YSeq [])]) [("os", "fedora")] [] =
    ([EvErr "ERROR: No path in {'build': []}"], Err (SystemExit 1)).
Proof. apply get_path_missing. reflexivity. Defined.

(** C36: [os.path.expanduser] on [~/rest] with [HOME] set puts the home
    directory, without its trailing slashes, in place of the [~]. *)
Theorem expanduser_home (w : World) (h rest : string) :
  dict_get (w_environ w) "HOME" = Some h ->
  expanduser w (String "~" (String "/" rest)) = rstrip_slash h ++ String "/" rest.
Proof.
  intros Hh. unfold expanduser.
  replace (split1_scan "/" (String "/" rest)) with (Some (EmptyString, rest))
    by (symmetry; exact (split1_scan_char "/" EmptyString rest eq_refl)).
  simpl. rewrite Hh.
  destruct (rstrip_slash h); reflexivity.
Qed.

Lemma expanduser_home_witness :
  expanduser demo_world "~/proj" = rstrip_slash "/home/user/" ++ "/proj" /\
  rstrip_slash "/home/user/" ++ "/proj" = "/home/user/proj".
Proof. split; [apply (expanduser_home demo_world "/home/user/" "proj"); reflexivity | reflexivity]. Defined.

Lemma get_path_expands_substituted_tilde_witness :
  get_path demo_world (YMap [("path", YStr "{home}/proj")]) [("os", "fedora"); ("home", "~")] [] =
    (regex <- lift (re_compile (rstrip_slash "/home/user/" ++ "/proj")) ;;
     mret (re_match regex (w_cwd demo_world))) /\
  get_path demo_world (YMap [("path", YStr "{home}/proj")]) [("os", "fedora"); ("home", "~")] [] =
    ([], Ok (Some "/home/user/proj")).
Proof.
  split; [|vm_compute; reflexivity].
  apply (get_path_expands_substituted_tilde demo_world _ "home" "/home/user/" "proj");
    try reflexivity. repeat constructor.
Defined.

End PathMatch.
