(* ===== verification/Builder.v ===== *)
(** * The build runner: [build], [test], [-v] parsing and [main]

    [main] (src/builder.py lines 122-169) parses the user variables, seeds
    [variables] with [os] and [bt], extends it with the configuration's
    global blocks, and walks [projects] in order.  The script passes one
    [variables] dictionary and one [environment] dictionary everywhere and
    [extract_variables]/[extract_environment] mutate them in place, so
    [project_vars] is [variables], and [build]/[test] update the same two
    dictionaries.  The model threads them as values: each call returns the
    dictionaries it mutated and the caller continues with them.  A project
    whose path does not match is skipped, but its variables stay. *)

From Stdlib Require Import List String Ascii ZArith Lia Bool.
From S2P Require Import Prelude PyStr PyDict Yaml Resolver Banner Process Regex RegexParse PyRe PathMatch.
Import ListNotations.
Import PyStr PyDict Yaml Resolver Banner Process Regex RegexParse PyRe PathMatch.
Open Scope string_scope.
Open Scope proc_scope.

Module Builder.

(** The parsed command line ([args] of [main]). *)
Record Args := {
  no_build : bool;                  (** [--no-build] *)
  test_flag : bool;                 (** [--test] *)
  variable : option (list string);  (** [--variable] (appended, [None] if absent) *)
  config : string;                  (** [--config] *)
  operating_system : string;        (** [--operating-system] *)
  build_type : string               (** [--build-type] *)
}.

(** [get_system_name()]. *)
Definition get_system_name : string := "fedora".

(** One [-v] argument: [s = v.split('=', 1)],
    [user_variables[s[0]] = str(s[1]).strip()] (right-hand side first). *)
Definition add_user_variable (user_variables : dict string) (v : string) : result (dict string) :=
  (s <- py_split1 v "=" ;;
   value <- py_index s 1 ;;
   key <- py_index s 0 ;;
   Ok (dict_set key (py_strip value) user_variables))%py.

Definition parse_user_variables (vs : option (list string)) : result (dict string) :=
  match vs with
  | Some l => rfold add_user_variable l []
  | None => Ok []
  end.

(** The value the last of the pairs with key [k] gives it (what a
    dictionary assigned in the order of [l] holds for [k]). *)
Fixpoint last_value (l : list (string * string)) (k : string) : option string :=
  match l with
  | [] => None
  | (k', v) :: l' =>
      match last_value l' k with
      | Some x => Some x
      | None => if String.eqb k k' then Some v else None
      end
  end.

(** [get_build_steps(root)] and [get_test_steps(root)] (never called). *)
Definition get_steps (phase : string) (root : yaml) : result (list yaml) :=
  (present <- py_in phase root ;;
   if present then
     block <- py_getitem root (YStr phase) ;;
     py_iter block
   else Ok [])%py.

Definition get_build_steps := get_steps "build".
Definition get_test_steps := get_steps "test".

(** ** Example configurations *)

Definition demo_args (no_build test_flag : bool) (variable : option (list string)) : Args :=
  {| no_build := no_build; test_flag := test_flag; variable := variable;
     config := "/home/user/.builder-config.yml";
     operating_system := "fedora"; build_type := "debug" |}.

(** A world whose shell fails every command. *)
Definition failing_world : World :=
  {| w_cwd := w_cwd demo_world; w_environ := w_environ demo_world; w_home_uid := None;
     w_home_of := fun _ => None; w_shell := fun _ _ _ => 1%Z;
     w_cwd_error := w_cwd_error demo_world; w_files := fun _ => None |}.

(** Project [a] declares [dir] but does not match; project [b]'s path is
    [{dir}]. *)
Definition leak_projects : yaml :=
  YMap [("a", YMap [("path", YStr "/nomatch");
                    ("variables", YMap [("dir", YStr "/home/user/proj")])]);
        ("b", YMap [("path", YStr "{dir}"); ("build", YSeq [YStr "make"])])].

Definition leak_config : yaml := YMap [("projects", leak_projects)].

Definition leak_config_b_only : yaml :=
  YMap [("projects", YMap [
    ("b", YMap [("path", YStr "{dir}"); ("build", YSeq [YStr "make"])])])].

(** A project variable defined from the global variable of the same name. *)
Definition rebind_project : yaml :=
  YMap [("path", YStr "/home/user/proj");
        ("variables", YMap [("dir", YStr "{dir}/sub")]);
        ("build", YSeq [YStr "cd {dir}"])].

Definition rebind_config : yaml :=
  YMap [("variables", YMap [("dir", YStr "/src")]);
        ("projects", YMap [("p", rebind_project)])].

Definition demo_project (path : string) (steps : list yaml) : yaml :=
  YMap [("path", YStr path); ("build", YSeq steps); ("test", YSeq [YStr "ctest"])].

Definition project_with (path : string) (steps : list yaml) : yaml :=
  YMap [("projects", YMap [("p", demo_project path steps)])].

Section WithEngine.
Context {RE : RegexEngine}.
Variable w : World.

(** The body of [build] and of [test], for their phase key: skip without
    the key; otherwise extract the project's variables and environment
    again (into the shared dictionaries), build the command line and run
    it in the matched path.  Returns the two dictionaries as mutated. *)
Definition run_phase (phase : string) (proj_root : yaml) (path : string)
    (variables environment user_variables : dict string) : M (dict string * dict string) :=
  present <- lift (py_in phase proj_root) ;;
  if negb present then mret (variables, environment) else
  variables <- lift (extract_variables proj_root variables user_variables) ;;
  environment <- lift (extract_environment proj_root environment variables user_variables) ;;
  block <- lift (py_getitem proj_root (YStr phase)) ;;
  steps <- lift (py_iter block) ;;
  cmd <- lift (phase_commands steps variables user_variables) ;;
  execute_command w (phase_line cmd) path environment ;;;
  mret (variables, environment).

Definition build := run_phase "build".
Definition test := run_phase "test".

(** The branch of [select] that runs the matched project. *)
Definition run_matched (args : Args) (project : yaml) (path : string)
    (variables environment user_variables : dict string) : M unit :=
  '(variables, environment) <-
    (if no_build args then mret (variables, environment)
     else build project path variables environment user_variables) ;;
  (if test_flag args then test project path variables environment user_variables ;;; mret tt
   else mret tt).

(** The [for p in config['projects']] loop. *)
Fixpoint select (args : Args) (projects : yaml) (ps : list yaml)
    (variables environment user_variables : dict string) : M unit :=
  match ps with
  | [] => error "No matching configuration entry found."
  | p :: ps' =>
      project <- lift (py_getitem projects p) ;;
      variables <- lift (extract_variables project variables user_variables) ;;
      path <- get_path w project variables user_variables ;;
      match path with
      | None | Some EmptyString => select args projects ps' variables environment user_variables
      | Some path => run_matched args project path variables environment user_variables
      end
  end.

(** [main()] after the configuration is loaded (lines 144-169). *)
Definition main_loaded (args : Args) (user_variables : dict string) (config : yaml) : M unit :=
  let variables := dict_set "bt" (build_type args) (dict_set "os" (operating_system args) []) in
  variables <- lift (extract_variables config variables user_variables) ;;
  environment <- lift (extract_environment config [] variables user_variables) ;;
  projects <- lift (py_getitem config (YStr "projects")) ;;
  ps <- lift (py_iter projects) ;;
  select args projects ps variables environment user_variables.

(** [main()], from the parsed arguments and the loaded configuration: the
    user variables, then the rest. *)
Definition main (args : Args) (config : yaml) : M unit :=
  user_variables <- lift (parse_user_variables (variable args)) ;;
  main_loaded args user_variables config.

(** A project that cannot match: a mapping without [variables] whose
    [path] is a literal, with no [{], no leading [~] and no regular
    expression metacharacter, that does not begin the working directory. *)
Definition no_match_project (pj : yaml) : Prop :=
  exists pm p, pj = YMap pm /\ dict_get pm "variables" = None /\
    dict_get pm "path" = Some (YStr p) /\ py_contains "{" p = false /\
    prefix "~" p = false /\ literal p = true /\ prefix p (w_cwd w) = false.

(** ** Counting the shell commands *)

Ltac nruns_t :=
  repeat (autorewrite with pyrw; cbn [snd lift mret fst];
          try match goal with
              | |- context [match ?r with Ok _ => _ | Err _ => _ end] => destruct r
              | |- context [if ?b then _ else _] => destruct b
              end).

Lemma nruns_get_path root variables user : nruns (get_path w root variables user) = 0.
Proof. unfold get_path. nruns_t; lia. Qed.

Lemma nruns_run_phase phase proj_root path variables environment user :
  nruns (run_phase phase proj_root path variables environment user) <= 1.
Proof. unfold run_phase. nruns_t; lia. Qed.

Lemma select_cons args projects p ps variables environment user :
  select args projects (p :: ps) variables environment user =
  project <- lift (py_getitem projects p) ;;
  variables <- lift (extract_variables project variables user) ;;
  path <- get_path w project variables user ;;
  match path with
  | None | Some EmptyString => select args projects ps variables environment user
  | Some path => run_matched args project path variables environment user
  end.
Proof. reflexivity. Qed.

Lemma nruns_run_matched args project path variables environment user :
  nruns (run_matched args project path variables environment user) <=
  (if no_build args then 0 else 1) + (if test_flag args then 1 else 0).
Proof.
  unfold run_matched. apply nruns_bind_le.
  - destruct (no_build args); [reflexivity | apply nruns_run_phase].
  - intros [v e]. destruct (test_flag args); [|reflexivity].
    rewrite <- Nat.add_0_r. apply nruns_bind_le; [apply nruns_run_phase | reflexivity].
Qed.

Lemma nruns_select args projects ps variables environment user :
  nruns (select args projects ps variables environment user) <=
  (if no_build args then 0 else 1) + (if test_flag args then 1 else 0).
Proof.
  revert variables; induction ps as [|p ps IH]; intros variables.
  - simpl. rewrite nruns_error. lia.
  - rewrite select_cons.
    apply nruns_bind_quiet; [reflexivity | intros project].
    apply nruns_bind_quiet; [reflexivity | intros v].
    apply nruns_bind_quiet; [apply nruns_get_path | intros [[|c s]|]]; auto.
    apply nruns_run_matched.
Qed.

(** ** Invariants of every run

    A [TraceInv] invariant (Process) holds of [get_path], of each phase,
    of the projects loop and of [main]. *)

Section Invariants.
Context {Q : forall A, M A -> Prop} `{TraceInv Q}.

Lemma inv_get_path root variables user : Q _ (get_path w root variables user).
Proof. unfold get_path. inv_t. Qed.

Lemma inv_run_phase phase proj_root path variables environment user :
  Q _ (run_phase phase proj_root path variables environment user).
Proof. unfold run_phase. inv_t. Qed.

Lemma inv_select args projects ps variables environment user :
  Q _ (select args projects ps variables environment user).
Proof.
  revert variables; induction ps as [|p ps IH]; intros variables; [apply inv_error|].
  rewrite select_cons. unfold run_matched, build, test. inv_t; auto using inv_get_path, inv_run_phase.
Qed.

Lemma inv_main_loaded args user config : Q _ (main_loaded args user config).
Proof. unfold main_loaded. inv_t. apply inv_select. Qed.

Lemma inv_main args config : Q _ (main args config).
Proof. unfold main. inv_t. apply inv_main_loaded. Qed.

End Invariants.

Section FailingShell.
Hypothesis shell_fails : forall cmd cwd env, w_shell w cmd cwd env <> 0%Z.

Lemma run_phase_fails_fast phase proj_root path variables environment user :
  fails_fast (run_phase phase proj_root path variables environment user).
Proof.
  unfold run_phase.
  apply fails_fast_bind; [apply fails_fast_quiet; reflexivity | intros present _].
  destruct (negb present); [apply fails_fast_quiet; reflexivity|].
  repeat (apply fails_fast_bind; [apply fails_fast_quiet; reflexivity | intros ? _]).
  apply fails_fast_bind; [apply execute_command_fails_fast, shell_fails|].
  intros; apply fails_fast_quiet; reflexivity.
Qed.

Lemma select_fails_fast args projects ps variables environment user :
  fails_fast (select args projects ps variables environment user).
Proof.
  revert variables; induction ps as [|p ps IH]; intros variables.
  - apply fails_fast_quiet. reflexivity.
  - rewrite select_cons.
    apply fails_fast_bind; [apply fails_fast_quiet; reflexivity | intros project _].
    apply fails_fast_bind; [apply fails_fast_quiet; reflexivity | intros v _].
    apply fails_fast_bind; [apply fails_fast_quiet, nruns_get_path | intros [[|c s]|] _]; auto.
    unfold run_matched. apply fails_fast_bind.
    + destruct (no_build args); [apply fails_fast_quiet; reflexivity | apply run_phase_fails_fast].
    + intros [v' e'] _. destruct (test_flag args); [|apply fails_fast_quiet; reflexivity].
      apply fails_fast_bind; [apply run_phase_fails_fast | intros; apply fails_fast_quiet; reflexivity].
Qed.

(** C2: Fail-fast: when every shell command fails, a run of [main] spawns
    at most one command, and a run that spawned one ends with exit status
    1: a failed build is never followed by the tests. *)
Theorem main_fails_fast args config :
  nruns (main args config) <= 1 /\
  (nruns (main args config) = 1 -> snd (main args config) = Err (SystemExit 1)).
Proof.
  change (fails_fast (main args config)). unfold main, main_loaded.
  repeat (apply fails_fast_bind; [apply fails_fast_quiet; reflexivity | intros ? _; cbv zeta]).
  apply select_fails_fast.
Qed.

End FailingShell.

Lemma select_no_match args m l variables environment user :
  Forall (fun kv => dict_get m (fst kv) = Some (snd kv) /\ no_match_project (snd kv)) l ->
  select args (YMap m) (map (fun kv => YStr (fst kv)) l) variables environment user =
  error "No matching configuration entry found.".
Proof.
  induction 1 as [|[k pj] l [Hk Hn] _ IH]; [reflexivity|].
  cbn [fst snd] in Hk, Hn. destruct Hn as [pm [p (-> & Hv & Hp & Hb & Ht & Hl & Hpre)]].
  cbn [map fst]. rewrite select_cons.
  replace (py_getitem (YMap m) (YStr k)) with (Ok (YMap pm) : result yaml)
    by (simpl; rewrite Hk; reflexivity).
  rewrite mbind_lift_ok.
  replace (extract_variables (YMap pm) variables user) with (Ok variables : result (dict string))
    by (unfold extract_variables; simpl; unfold dict_mem; rewrite Hv; reflexivity).
  rewrite mbind_lift_ok, (get_path_literal w pm p) by assumption.
  rewrite Hpre, mbind_ok. cbv beta iota. rewrite IH. reflexivity.
Qed.

(** C1: [main] spawns at most one shell command per phase it runs: none
    for the build with [--no-build], one for the tests with [--test]. *)
Theorem main_runs_bound args config :
  nruns (main args config) <=
  (if no_build args then 0 else 1) + (if test_flag args then 1 else 0).
Proof.
  unfold main, main_loaded. repeat (apply nruns_bind_quiet; [reflexivity | intros ?; cbv zeta]).
  apply nruns_select.
Qed.

(** C3: Only the first project whose path matches is run: once a project
    matches with a non-empty text, [main]'s loop ends with that project's
    build and test, whatever the projects after it are. *)
Theorem select_first_match args projects p ps variables environment user project v' t path :
  py_getitem projects p = Ok project ->
  extract_variables project variables user = Ok v' ->
  get_path w project v' user = (t, Ok (Some path)) -> path <> EmptyString ->
  select args projects (p :: ps) variables environment user =
  ((t ++ fst (run_matched args project path v' environment user))%list,
   snd (run_matched args project path v' environment user)).
Proof.
  intros Hp Hv Hg Hne. rewrite select_cons, Hp, mbind_lift_ok, Hv, mbind_lift_ok, Hg, mbind_ok.
  destruct path; [congruence | reflexivity].
Qed.

(** C4: When no project can match, [main] prints [ERROR: No matching
    configuration entry found.], spawns nothing and exits with status 1. *)
Theorem main_no_match args (m : dict yaml) :
  variable args = None -> dict_wf m -> Forall (fun kv => no_match_project (snd kv)) m ->
  main args (YMap [("projects", YMap m)]) =
  ([EvErr "ERROR: No matching configuration entry found."], Err (SystemExit 1)).
Proof.
  intros Hvar Hwf Hall. unfold main. rewrite Hvar.
  cbn -[select map]. rewrite select_no_match; [reflexivity|]. apply Forall_forall. intros [k pj] Hin. split.
  - apply dict_get_In; assumption.
  - rewrite Forall_forall in Hall. apply (Hall _ Hin).
Qed.

End WithEngine.

(** ** The [-v] arguments *)

Lemma rfold_add_user_variable (l : list (string * string)) (d0 : dict string) :
  dict_wf d0 -> Forall (fun kv => py_contains "=" (fst kv) = false) l ->
  exists d, rfold add_user_variable (map (fun kv => fst kv ++ "=" ++ snd kv) l) d0 = Ok d /\ dict_wf d /\
    forall k, dict_get d k = match last_value l k with Some v => Some (py_strip v) | None => dict_get d0 k end.
Proof.
  revert d0; induction l as [|[k v] l IH]; intros d0 Hwf Hl; [exists d0; auto|].
  inversion Hl as [|? ? Hk Hl']; subst. cbn [map rfold fst snd].
  assert (Ha : add_user_variable d0 (k ++ "=" ++ v) = Ok (dict_set k (py_strip v) d0)).
  { unfold add_user_variable, py_split1. change ("=" ++ v) with (String "=" v).
    rewrite split1_scan_char by exact Hk. reflexivity. }
  rewrite Ha, rbind_ok.
  destruct (IH (dict_set k (py_strip v) d0)) as (d & Hd & Hwfd & Hget); [apply dict_set_wf, Hwf | exact Hl' |].
  exists d. repeat split; [exact Hd | exact Hwfd |]. intros k'. rewrite Hget. cbn [last_value].
  destruct (last_value l k'); [reflexivity|]. rewrite dict_get_set. destruct (String.eqb k' k); reflexivity.
Qed.

(** C30: Repeated [-v] arguments fill the user variables in order, so the
    last [-v key=...] of a key wins: after any list of [key=value]
    arguments, every key holds the stripped value of its last argument
    and the dictionary keeps its keys distinct. *)
Theorem parse_user_variables_last_wins (l : list (string * string)) :
  Forall (fun kv => py_contains "=" (fst kv) = false) l ->
  exists d, parse_user_variables (Some (map (fun kv => fst kv ++ "=" ++ snd kv) l)) = Ok d /\ dict_wf d /\
    forall k, dict_get d k = option_map py_strip (last_value l k).
Proof.
  intros Hl. destruct (rfold_add_user_variable l [] (NoDup_nil _) Hl) as (d & Hd & Hwf & Hget).
  exists d. repeat split; [exact Hd | exact Hwf |]. intros k. rewrite Hget.
  destruct (last_value l k); reflexivity.
Qed.

Lemma add_user_variable_cases d s :
  add_user_variable d s = Err IndexError \/ exists d', add_user_variable d s = Ok d'.
Proof.
  unfold add_user_variable, py_split1.
  destruct (split1_scan "=" s) as [[a b]|]; simpl; eauto.
Qed.

(** C18: [-v key=value] splits at the first [=]: the key is the text
    before it, kept as it is (not stripped), the value is the rest,
    stripped, and later [=] belong to the value. *)
Theorem add_user_variable_split (k v : string) (d : dict string) :
  py_contains "=" k = false ->
  add_user_variable d (k ++ "=" ++ v) = Ok (dict_set k (py_strip v) d).
Proof.
  intros H. unfold add_user_variable, py_split1.
  change ("=" ++ v) with (String "=" v). rewrite split1_scan_char by exact H. reflexivity.
Qed.

(** C19: A [-v] argument without [=] makes [main] raise [IndexError] before
    anything is printed or run: the script dies with a traceback and exit
    status 1. *)
Theorem main_user_variable_without_eq {RE : RegexEngine} w args config l s :
  variable args = Some l -> In s l -> py_contains "=" s = false ->
  main w args config = ([], Err IndexError) /\ exit_status (snd (main w args config)) = 1%Z.
Proof.
  intros Hv Hin Hs.
  assert (Hp : parse_user_variables (variable args) = Err IndexError).
  { rewrite Hv. clear Hv. unfold parse_user_variables. generalize (@nil (string * string)).
    induction l as [|x l IH]; intros d; [destruct Hin|]. cbn [rfold]. destruct Hin as [->|Hin].
    - unfold add_user_variable at 1, py_split1 at 1. rewrite split1_scan_absent by exact Hs.
      reflexivity.
    - destruct (add_user_variable_cases d x) as [->|[d' ->]]; [reflexivity | apply IH, Hin]. }
  unfold main. rewrite Hp. split; reflexivity.
Qed.

(** C38: [projects] must be a mapping: when it is a list of names or a
    plain string (which the loop iterates character by character), the
    first [config['projects'][p]] indexes it with a string and [main]
    raises [TypeError] before anything is printed or run. *)
Theorem main_projects_not_mapping {RE : RegexEngine} w args (m : dict yaml) projects user :
  parse_user_variables (variable args) = Ok user ->
  dict_get m "variables" = None -> dict_get m "environment" = None ->
  dict_get m "projects" = Some projects ->
  (exists c s, projects = YStr (String c s)) \/ (exists x l, projects = YSeq (YStr x :: l)) ->
  main w args (YMap m) = ([], Err TypeError).
Proof.
  intros Hp Hv He Hpr Hshape. unfold main, main_loaded. rewrite Hp, mbind_lift_ok.
  unfold extract_variables, extract_environment. cbn [py_in rbind]. unfold dict_mem. rewrite Hv, He.
  rewrite !mbind_lift_ok. cbn [py_getitem]. rewrite Hpr, mbind_lift_ok.
  destruct Hshape as [(c & s & ->)|(x & l & ->)]; cbn [py_iter string_chars];
    rewrite mbind_lift_ok, select_cons; reflexivity.
Qed.

(** ** The shared dictionaries, empty lists and empty matches *)

Section SharedState.
Context {RE : RegexEngine}.
Variable w : World.

(** C25: A project that does not match, or whose path matches the empty
    text, is skipped with its variables left in the shared dictionary: the
    loop goes on to the next project with the dictionary the skipped
    project's [variables] block extended, so a later project's path and
    commands see them. *)
Theorem select_skip_carries args projects p ps variables environment user project v' t path :
  py_getitem projects p = Ok project ->
  extract_variables project variables user = Ok v' ->
  get_path w project v' user = (t, Ok path) -> path = None \/ path = Some EmptyString ->
  select w args projects (p :: ps) variables environment user =
  ((t ++ fst (select w args projects ps v' environment user))%list,
   snd (select w args projects ps v' environment user)).
Proof.
  intros Hp Hv Hg Hpath. rewrite select_cons, Hp, mbind_lift_ok, Hv, mbind_lift_ok, Hg, mbind_ok.
  destruct Hpath as [-> | ->]; reflexivity.
Qed.

(** The run of a matched project whose [build] block resolves to [cmd]:
    the path's events, then the build command in the matched text, then the
    tests. *)
Lemma select_build_step args projects p ps variables environment user project
    v1 t path v2 e2 block steps cmd :
  py_getitem projects p = Ok project ->
  extract_variables project variables user = Ok v1 ->
  get_path w project v1 user = (t, Ok (Some path)) -> path <> EmptyString ->
  no_build args = false -> py_in "build" project = Ok true ->
  extract_variables project v1 user = Ok v2 ->
  extract_environment project environment v2 user = Ok e2 ->
  py_getitem project (YStr "build") = Ok block -> py_iter block = Ok steps ->
  phase_commands steps v2 user = Ok cmd ->
  select w args projects (p :: ps) variables environment user =
  let r := mbind (execute_command w (phase_line cmd) path e2)
                 (fun _ => if test_flag args then test w project path v2 e2 user ;;; mret tt
                           else mret tt) in
  ((t ++ fst r)%list, snd r).
Proof.
  intros Hp Hv Hg Hne Hnb Hin Hv2 He2 Hb Hs Hc.
  rewrite select_cons, Hp, mbind_lift_ok, Hv, mbind_lift_ok, Hg, mbind_ok.
  destruct path as [|c s]; [congruence|]. unfold run_matched, build, run_phase.
  rewrite Hnb, Hin, mbind_lift_ok, Hv2, mbind_lift_ok, He2, mbind_lift_ok, Hb, mbind_lift_ok,
    Hs, mbind_lift_ok, Hc, mbind_lift_ok.
  cbn [negb]. rewrite mbind_assoc.
  destruct (execute_command w (phase_line cmd) (String c s) e2) as [t0 [[]|x]];
    [rewrite !mbind_ok, mbind_ret | rewrite !mbind_err]; reflexivity.
Qed.

(** C26: [build] extracts the matched project's variables a second time,
    into the dictionary that already holds the first extraction, and runs
    the commands resolved against that second result: the first shell
    command of the run is the build line of the twice-extracted variables. *)
Theorem select_build_reextracts args projects p ps variables environment user project
    v1 t path v2 e2 block steps cmd :
  py_getitem projects p = Ok project ->
  extract_variables project variables user = Ok v1 ->
  get_path w project v1 user = (t, Ok (Some path)) -> path <> EmptyString ->
  w_cwd_error w path = None ->
  no_build args = false -> py_in "build" project = Ok true ->
  extract_variables project v1 user = Ok v2 ->
  extract_environment project environment v2 user = Ok e2 ->
  py_getitem project (YStr "build") = Ok block -> py_iter block = Ok steps ->
  phase_commands steps v2 user = Ok cmd ->
  exists rest, runs (fst (select w args projects (p :: ps) variables environment user)) =
               phase_line cmd :: rest.
Proof.
  intros Hp Hv Hg Hne Hcwd Hnb Hin Hv2 He2 Hb Hs Hc.
  pose proof (nruns_get_path w project v1 user) as H0. rewrite Hg in H0.
  apply length_zero_iff_nil in H0. simpl in H0.
  rewrite (select_build_step _ _ _ _ _ _ _ _ _ _ _ _ _ _ _ _ Hp Hv Hg Hne Hnb Hin Hv2 He2 Hb Hs Hc).
  cbv zeta. cbn [fst]. rewrite runs_app, H0, execute_command_spec, Hcwd.
  destruct (Z.eqb _ 0); [rewrite mbind_ok | rewrite mbind_err]; cbn [fst]; eexists; reflexivity.
Qed.

(** C14: The build runs in the text the path pattern matched, which need
    not be a directory: a pattern such as [/home/us] matches the start of
    [/home/user/proj], and [subprocess.call] cannot enter [/home/us].  The
    build then prints its command line and the run ends with the [OSError]
    of [subprocess.call], before any command runs or any test. *)
Theorem select_matched_text_not_directory args projects p ps variables environment user project
    v1 t path v2 e2 block steps cmd x :
  py_getitem projects p = Ok project ->
  extract_variables project variables user = Ok v1 ->
  get_path w project v1 user = (t, Ok (Some path)) -> path <> EmptyString ->
  w_cwd_error w path = Some x ->
  no_build args = false -> py_in "build" project = Ok true ->
  extract_variables project v1 user = Ok v2 ->
  extract_environment project environment v2 user = Ok e2 ->
  py_getitem project (YStr "build") = Ok block -> py_iter block = Ok steps ->
  phase_commands steps v2 user = Ok cmd ->
  select w args projects (p :: ps) variables environment user = ((t ++ [EvOut (phase_line cmd)])%list, Err x).
Proof.
  intros Hp Hv Hg Hne Hcwd Hnb Hin Hv2 He2 Hb Hs Hc.
  rewrite (select_build_step _ _ _ _ _ _ _ _ _ _ _ _ _ _ _ _ Hp Hv Hg Hne Hnb Hin Hv2 He2 Hb Hs Hc).
  cbv zeta. rewrite execute_command_spec, Hcwd, mbind_err. reflexivity.
Qed.

(** C27: A phase whose list of commands is empty still runs the shell,
    once, on the empty command line (in a directory it can enter). *)
Theorem run_phase_empty_steps phase project path variables environment user v1 e1 :
  w_cwd_error w path = None -> py_in phase project = Ok true ->
  extract_variables project variables user = Ok v1 ->
  extract_environment project environment v1 user = Ok e1 ->
  py_getitem project (YStr phase) = Ok (YSeq []) ->
  runs (fst (run_phase w phase project path variables environment user)) = [EmptyString].
Proof.
  intros Hcwd Hin Hv He Hb. unfold run_phase.
  rewrite Hin, mbind_lift_ok, Hv, mbind_lift_ok, He, mbind_lift_ok, Hb, mbind_lift_ok.
  cbn [py_iter negb]. rewrite mbind_lift_ok. cbn [phase_commands rfold].
  rewrite mbind_lift_ok, execute_command_spec, Hcwd. destruct (Z.eqb _ 0); reflexivity.
Qed.

(** C28: A run of [main] that ends without an error printed no error and
    every command it ran exited with status 0. *)
Theorem main_ok_clean args config t :
  main w args config = (t, Ok tt) -> Forall ok_event t.
Proof.
  intros H. pose proof (inv_main (Q := @clean) w args config) as Hc.
  rewrite H in Hc. apply (Hc tt eq_refl).
Qed.

End SharedState.

(** ** Witnesses *)

Lemma main_fails_fast_witness :
  (forall cmd cwd env, w_shell failing_world cmd cwd env <> 0%Z) /\
  nruns (main failing_world (demo_args false true None) (project_with "/home" [YStr "make"])) <= 1 /\
  (nruns (main failing_world (demo_args false true None) (project_with "/home" [YStr "make"])) = 1 ->
   snd (main failing_world (demo_args false true None) (project_with "/home" [YStr "make"])) =
   Err (SystemExit 1)).
Proof. split; [intros; discriminate | apply main_fails_fast; intros; discriminate]. Defined.

Lemma select_first_match_witness :
  let projects := YMap [("p", YMap [("path", YStr "/home"); ("build", YSeq [YStr "make"])])] in
  select demo_world (demo_args false false None) projects [YStr "p"; YStr "q"] [] [] [] =
  (([] ++ fst (run_matched demo_world (demo_args false false None)
                 (YMap [("path", YStr "/home"); ("build", YSeq [YStr "make"])]) "/home" [] [] []))%list,
   snd (run_matched demo_world (demo_args false false None)
          (YMap [("path", YStr "/home"); ("build", YSeq [YStr "make"])]) "/home" [] [] [])).
Proof.
  intros projects. apply select_first_match; [reflexivity | reflexivity | vm_compute; reflexivity | discriminate].
Defined.

Lemma main_no_match_witness :
  main demo_world (demo_args false true None)
    (YMap [("projects", YMap [("a", YMap [("path", YStr "/other")]); ("b", YMap [("path", YStr "/srv")])])]) =
  ([EvErr "ERROR: No matching configuration entry found."], Err (SystemExit 1)).
Proof.
  apply main_no_match; [reflexivity | repeat constructor; simpl; intuition discriminate |].
  repeat constructor; eexists _, _; repeat split; reflexivity.
Defined.

Lemma add_user_variable_split_witness :
  add_user_variable [] ("cc " ++ "=" ++ " gcc =x") = Ok [("cc ", "gcc =x")].
Proof. rewrite add_user_variable_split by reflexivity. reflexivity. Defined.

Lemma main_user_variable_without_eq_witness :
  main demo_world (demo_args false false (Some ["cc=gcc"; "debug"])) rebind_config = ([], Err IndexError) /\
  exit_status (snd (main demo_world (demo_args false false (Some ["cc=gcc"; "debug"])) rebind_config)) = 1%Z.
Proof. apply (main_user_variable_without_eq demo_world _ _ ["cc=gcc"; "debug"] "debug"); simpl; auto. Defined.

Lemma select_skip_carries_witness :
  select demo_world (demo_args false false None) leak_projects [YStr "a"; YStr "b"] [] [] [] =
  (([] ++ fst (select demo_world (demo_args false false None) leak_projects [YStr "b"]
                 [("dir", "/home/user/proj")] [] []))%list,
   snd (select demo_world (demo_args false false None) leak_projects [YStr "b"]
          [("dir", "/home/user/proj")] [] [])) /\
  main demo_world (demo_args false false None) leak_config =
    ([EvOut "echo -e '\n############\n### make ###\n############\n' && make";
      EvRun "echo -e '\n############\n### make ###\n############\n' && make"
            "/home/user/proj" [("HOME", "/home/user/")] 0], Ok tt) /\
  main demo_world (demo_args false false None) leak_config_b_only =
    ([EvErr "ERROR: No matching configuration entry found."], Err (SystemExit 1)).
Proof.
  split; [|split; vm_compute; reflexivity].
  apply (select_skip_carries demo_world _ _ _ _ _ _ _
           (YMap [("path", YStr "/nomatch"); ("variables", YMap [("dir", YStr "/home/user/proj")])])
           _ [] None); [reflexivity | reflexivity | vm_compute; reflexivity | left; reflexivity].
Defined.

Lemma select_matched_text_not_directory_witness :
  select demo_world (demo_args false true None) (YMap [("p", demo_project "/home/us" [YStr "make"])])
    [YStr "p"] [] [] [] =
    (([] ++ [EvOut (phase_line ["echo -e '\n############\n### make ###\n############\n'"; "&&"; "make"])])%list,
     Err (FileNotFoundError "/home/us")) /\
  main demo_world (demo_args false true None) (project_with "/home/us" [YStr "make"]) =
    ([EvOut "echo -e '\n############\n### make ###\n############\n' && make"],
     Err (FileNotFoundError "/home/us")).
Proof.
  split; [|vm_compute; reflexivity].
  apply (select_matched_text_not_directory demo_world _ _ _ _ _ _ _ (demo_project "/home/us" [YStr "make"])
           [] [] "/home/us" [] [] (YSeq [YStr "make"]) [YStr "make"]);
    try reflexivity; try discriminate; vm_compute; reflexivity.
Defined.

Lemma select_build_reextracts_witness :
  exists rest,
    runs (fst (select demo_world (demo_args false false None) (YMap [("p", rebind_project)]) [YStr "p"]
                 [("dir", "/src")] [] [])) =
    phase_line ["echo -e '\n#######################\n### cd /src/sub/sub ###\n#######################\n'";
                "&&"; "cd /src/sub/sub"] :: rest.
Proof.
  apply (select_build_reextracts demo_world _ _ _ _ _ _ _ rebind_project [("dir", "/src/sub")] []
           "/home/user/proj" [("dir", "/src/sub/sub")] [] (YSeq [YStr "cd {dir}"]) [YStr "cd {dir}"]);
    try reflexivity; try discriminate; vm_compute; reflexivity.
Defined.

Lemma run_phase_empty_steps_witness :
  runs (fst (run_phase demo_world "build" (demo_project "/home" []) "/home" [] [] [])) = [EmptyString] /\
  main demo_world (demo_args false false None) (project_with "/home" []) =
    ([EvOut EmptyString; EvRun EmptyString "/home" [("HOME", "/home/user/")] 0], Ok tt).
Proof.
  split; [|vm_compute; reflexivity].
  apply (run_phase_empty_steps demo_world _ _ _ _ _ _ [] []); reflexivity.
Defined.

Lemma main_ok_clean_witness :
  Forall ok_event (fst (main demo_world (demo_args false true None) (project_with "/home" [YStr "make"]))).
Proof.
  apply (main_ok_clean demo_world (demo_args false true None) (project_with "/home" [YStr "make"])).
  vm_compute. reflexivity.
Defined.

Lemma parse_user_variables_last_wins_witness :
  exists d, parse_user_variables (Some (map (fun kv => fst kv ++ "=" ++ snd kv)
              [("cc", "gcc"); ("bt", "Debug"); ("cc", " clang ")])) = Ok d /\ dict_wf d /\
    forall k, dict_get d k = option_map py_strip (last_value [("cc", "gcc"); ("bt", "Debug"); ("cc", " clang ")] k).
Proof. apply parse_user_variables_last_wins. repeat constructor. Defined.

Lemma main_projects_not_mapping_witness :
  main demo_world (demo_args false false None)
    (YMap [("projects", YSeq [YStr "app"; YStr "lib"])]) = ([], Err TypeError).
Proof.
  apply (main_projects_not_mapping demo_world _ _ (YSeq [YStr "app"; YStr "lib"]) []); try reflexivity.
  right. eexists _, _. reflexivity.
Defined.

End Builder.
