(* ===== verification/ArgParse.v ===== *)
(** * The command line: [ArgumentParser] and [parse_args]

    Lines 124-131 of src/builder.py declare the parser ([-h/--help] comes
    with [ArgumentParser], then [--no-build/-n], [--test/-t],
    [--variable/-v] (append), [--config/-c], [--operating-system/-os],
    [--build-type/-bt]) and call [parser.parse_args()].  The parsing is
    the library's: this file follows CPython 3.11's [argparse]
    ([_parse_known_args], [_parse_optional], [_get_option_tuples],
    [consume_optional], [_match_argument], the actions' [__call__] and
    [error]) specialised to this option table, which has no positional
    arguments, no mutually exclusive group and no [fromfile] prefix.

    A run classifies every argument first ([classify]: an option, an
    argument, or [--] after which everything is an argument; an ambiguous
    abbreviation stops the run there), then walks the tokens from the left
    ([consume]): an option takes its explicit [=value], its attached value
    ([-vX]), a cluster of flags ([-nt]) or the next argument; help exits
    as soon as it is taken; anything not consumed is collected and
    reported at the end as unrecognized. *)

From Stdlib Require Import List String Ascii ZArith Lia Bool.
From S2P Require Import Prelude PyStr PyDict Yaml Process PathMatch Builder.
Import ListNotations.
Import PyStr PyDict Yaml Process PathMatch Builder.
Open Scope string_scope.

Module ArgParse.

(** The parser's actions, one per [add_argument] (and [-h]). *)
Inductive action : Type :=
| AHelp | ANoBuild | ATest | AVariable | AConfig | AOperatingSystem | ABuildType.

(** [parser._option_string_actions], in the order the option strings are
    registered. *)
Definition option_string_actions : dict action :=
  [("-h", AHelp); ("--help", AHelp);
   ("--no-build", ANoBuild); ("-n", ANoBuild);
   ("--test", ATest); ("-t", ATest);
   ("--variable", AVariable); ("-v", AVariable);
   ("--config", AConfig); ("-c", AConfig);
   ("--operating-system", AOperatingSystem); ("-os", AOperatingSystem);
   ("--build-type", ABuildType); ("-bt", ABuildType)].

(** [action.option_strings], as the [add_argument] calls list them. *)
Definition option_strings (a : action) : list string :=
  match a with
  | AHelp => ["-h"; "--help"]
  | ANoBuild => ["--no-build"; "-n"]
  | ATest => ["--test"; "-t"]
  | AVariable => ["--variable"; "-v"]
  | AConfig => ["--config"; "-c"]
  | AOperatingSystem => ["--operating-system"; "-os"]
  | ABuildType => ["--build-type"; "-bt"]
  end.

(** [_get_action_name]: the option strings joined by [/]. *)
Definition action_name (a : action) : string := py_join "/" (option_strings a).

(** [action.nargs]: [0] for [help] and [store_true], one argument for
    [append] and [store]. *)
Definition nargs (a : action) : nat :=
  match a with AHelp | ANoBuild | ATest => 0 | _ => 1 end.

(** The namespace before parsing: the [default=] of each [add_argument];
    the default of [--config] is [os.path.expanduser] applied when the
    parser is built. *)
Definition default_args (w : World) : Args := {|
  no_build := false; test_flag := false; variable := None;
  config := expanduser w "~/.builder-config.yml";
  operating_system := get_system_name; build_type := "Release" |}.

(** ** Classifying one argument ([_parse_optional]) *)

(** [_get_option_tuples]: the options an abbreviation or an attached
    short value can stand for. *)
Definition get_option_tuples (s : string) : list (action * string * option string) :=
  match s with
  | String "-" (String "-" _) =>
      let '(pre, expl) := match split1_scan "=" s with
                          | Some (p, e) => (p, Some e)
                          | None => (s, None)
                          end in
      flat_map (fun '(o, a) => if prefix pre o then [(a, o, expl)] else []) option_string_actions
  | String "-" (String _ _) =>
      flat_map (fun '(o, a) =>
                  if String.eqb o (stake 2 s) then [(a, o, Some (sdrop 2 s))]
                  else if prefix s o then [(a, o, None)] else []) option_string_actions
  | _ => []
  end.

Definition newline : string := String "010"%char EmptyString.

Fixpoint all_digits (s : string) : bool :=
  match s with
  | EmptyString => true
  | String c s' => Nat.leb 48 (nat_of_ascii c) && Nat.leb (nat_of_ascii c) 57 && all_digits s'
  end.

(** [^-\d+$|^-\d*\.\d+$] after the [-]: [$] also matches before a final
    newline. *)
Definition negative_body (t : string) : bool :=
  (negb (String.eqb t EmptyString) && all_digits t) ||
  match split1_scan "." t with
  | Some (a, b) => all_digits a && negb (String.eqb b EmptyString) && all_digits b
  | None => false
  end.

Definition negative_number_like (s : string) : bool :=
  match s with
  | String "-" t =>
      negative_body t ||
      (String.eqb (sdrop (String.length t - 1) t) newline &&
       negative_body (stake (String.length t - 1) t))
  | _ => false
  end.

(** What [_parse_optional] returns: [None] (an argument), an option tuple
    whose action is [None] for an unknown option, or the [error] of an
    ambiguous abbreviation. *)
Inductive parsed_optional : Type :=
| PArg
| POpt (o : option (action * string * option string))
| PAmbiguous (msg : string).

Definition parse_optional (s : string) : parsed_optional :=
  match s with
  | EmptyString => PArg
  | String c _ =>
      if negb (Ascii.eqb c "-") then PArg else
      match dict_get option_string_actions s with
      | Some a => POpt (Some (a, s, None))
      | None =>
          if Nat.eqb (String.length s) 1 then PArg else
          match match split1_scan "=" s with
                | Some (o, e) => option_map (fun a => (a, o, e)) (dict_get option_string_actions o)
                | None => None
                end with
          | Some (a, o, e) => POpt (Some (a, o, Some e))
          | None =>
              match get_option_tuples s with
              | [] => if negative_number_like s || py_contains " " s then PArg else POpt None
              | [t] => POpt (Some t)
              | ts => PAmbiguous ("ambiguous option: " ++ s ++ " could match " ++
                                  py_join ", " (map (fun '(_, o, _) => o) ts))
              end
          end
      end
  end.

(** ** The pattern of the whole command line *)

(** An [A], the [-] of [--], or an [O] with its option tuple. *)
Inductive token : Type :=
| TArg (s : string)
| TSep
| TOpt (s : string) (o : option (action * string * option string)).

(** The loop of [_parse_known_args] that builds [arg_strings_pattern]:
    the message of an ambiguous option, or the tokens. *)
Fixpoint classify (argv : list string) : string + list token :=
  match argv with
  | [] => inr []
  | x :: rest =>
      if String.eqb x "--" then inr (TSep :: map TArg rest) else
      match parse_optional x with
      | PAmbiguous m => inl m
      | p =>
          match classify rest with
          | inl m => inl m
          | inr toks => inr (match p with POpt o => TOpt x o | _ => TArg x end :: toks)
          end
      end
  end.

(** ** Consuming the tokens *)

Definition ignored (a : action) (e : string) : string :=
  "argument " ++ action_name a ++ ": ignored explicit argument " ++ repr_str e.

Definition expected_one (a : action) : string :=
  "argument " ++ action_name a ++ ": expected one argument".

(** The actions an option takes, each with its value, and the action
    still waiting for the next argument, if any. *)
Definition calls : Type := (list (action * option string) * option action)%type.

(** [consume_optional] without an explicit argument. *)
Definition single (a : action) : calls :=
  if Nat.eqb (nargs a) 0 then ([(a, None)], None) else ([], Some a).

(** [consume_optional] with the explicit argument [e]: a one-argument
    action takes it; a flag given by a single-dash option string reads
    the next character of [e] as the next single-dash option. *)
Fixpoint cluster (a : action) (o : string) (e : string) : string + calls :=
  if Nat.eqb (nargs a) 1 then inr ([(a, Some e)], None) else
  match e with
  | EmptyString => inl (ignored a e)
  | String c e' =>
      if prefix "--" o then inl (ignored a e) else
      let o' := String "-" (String c EmptyString) in
      match dict_get option_string_actions o' with
      | None => inl (ignored a e)
      | Some a' =>
          match match e' with EmptyString => inr (single a') | _ => cluster a' o' e' end with
          | inl m => inl m
          | inr (acts, p) => inr ((a, None) :: acts, p)
          end
      end
  end.

(** The stores the actions make on the namespace ([setattr]). *)
Definition with_no_build (ns : Args) : Args :=
  {| no_build := true; test_flag := test_flag ns; variable := variable ns; config := config ns;
     operating_system := operating_system ns; build_type := build_type ns |}.

Definition with_test (ns : Args) : Args :=
  {| no_build := no_build ns; test_flag := true; variable := variable ns; config := config ns;
     operating_system := operating_system ns; build_type := build_type ns |}.

(** [_AppendAction]: [items = _copy_items(items); items.append(values)]. *)
Definition with_variable (ns : Args) (v : string) : Args :=
  {| no_build := no_build ns; test_flag := test_flag ns;
     variable := Some (match variable ns with Some l => (l ++ [v])%list | None => [v] end);
     config := config ns; operating_system := operating_system ns; build_type := build_type ns |}.

Definition with_config (ns : Args) (v : string) : Args :=
  {| no_build := no_build ns; test_flag := test_flag ns; variable := variable ns; config := v;
     operating_system := operating_system ns; build_type := build_type ns |}.

Definition with_operating_system (ns : Args) (v : string) : Args :=
  {| no_build := no_build ns; test_flag := test_flag ns; variable := variable ns; config := config ns;
     operating_system := v; build_type := build_type ns |}.

Definition with_build_type (ns : Args) (v : string) : Args :=
  {| no_build := no_build ns; test_flag := test_flag ns; variable := variable ns; config := config ns;
     operating_system := operating_system ns; build_type := v |}.

(** [take_action]: [None] when the help action ends the run.  A
    one-argument action always receives its value from [consume]. *)
Definition take_action (ns : Args) (a : action) (v : option string) : option Args :=
  let value := match v with Some x => x | None => EmptyString end in
  match a with
  | AHelp => None
  | ANoBuild => Some (with_no_build ns)
  | ATest => Some (with_test ns)
  | AVariable => Some (with_variable ns value)
  | AConfig => Some (with_config ns value)
  | AOperatingSystem => Some (with_operating_system ns value)
  | ABuildType => Some (with_build_type ns value)
  end.

Fixpoint take_actions (ns : Args) (acts : list (action * option string)) : option Args :=
  match acts with
  | [] => Some ns
  | (a, v) :: acts' =>
      match take_action ns a v with
      | Some ns' => take_actions ns' acts'
      | None => None
      end
  end.

(** The outcome of [parse_args]: the namespace, the exit of [--help], or
    the message of [parser.error]. *)
Inductive parse_result : Type :=
| Parsed (a : Args)
| HelpExit
| ArgError (msg : string).

(** The main loop of [_parse_known_args] and the final check of
    [parse_args], with the extras collected so far. *)
Fixpoint consume (toks : list token) (ns : Args) (extras : list string) : parse_result :=
  match toks with
  | [] =>
      match extras with
      | [] => Parsed ns
      | _ => ArgError ("unrecognized arguments: " ++ py_join " " extras)
      end
  | TArg s :: rest => consume rest ns (extras ++ [s])
  | TSep :: rest => consume rest ns (extras ++ ["--"])
  | TOpt s None :: rest => consume rest ns (extras ++ [s])
  | TOpt _ (Some (a, o, e)) :: rest =>
      match match e with Some e => cluster a o e | None => inr (single a) end with
      | inl m => ArgError m
      | inr (acts, None) =>
          match take_actions ns acts with
          | Some ns' => consume rest ns' extras
          | None => HelpExit
          end
      | inr (acts, Some a') =>
          match rest with
          | TArg v :: rest' =>
              match take_actions ns (acts ++ [(a', Some v)]) with
              | Some ns' => consume rest' ns' extras
              | None => HelpExit
              end
          | _ => ArgError (expected_one a')
          end
      end
  end.

(** [parser.parse_args(argv)]. *)
Definition parse_args (w : World) (argv : list string) : parse_result :=
  match classify argv with
  | inl m => ArgError m
  | inr toks => consume toks (default_args w) []
  end.

(** ** What the parser prints *)

Definition unlines (l : list string) : string := py_join newline l.

(** [parser.format_usage()] for the program name [builder.py] at the
    default width of 80 columns, without its final newline. *)
Definition usage : string :=
  unlines ["usage: builder.py [-h] [--no-build] [--test] [--variable VARIABLE]";
           "                  [--config CONFIG] [--operating-system OPERATING_SYSTEM]";
           "                  [--build-type BUILD_TYPE]"].

(** [parser.format_help()], without its final newline. *)
Definition help_text : string :=
  unlines [usage; EmptyString; "Builder script to execute custom builds."; EmptyString; "options:";
           "  -h, --help            show this help message and exit";
           "  --no-build, -n        Perform no build.";
           "  --test, -t            Execute test steps.";
           "  --variable VARIABLE, -v VARIABLE";
           "                        Custom variables.";
           "  --config CONFIG, -c CONFIG";
           "                        Custom configuration file.";
           "  --operating-system OPERATING_SYSTEM, -os OPERATING_SYSTEM";
           "                        Operating system type.";
           "  --build-type BUILD_TYPE, -bt BUILD_TYPE";
           "                        Build type."].

(** [args = parser.parse_args()] in the process: the help goes to stdout
    and exits 0; an error prints the usage and [builder.py: error: ...]
    to stderr and exits 2. *)
Definition parse_args_m (w : World) (argv : list string) : M Args :=
  match parse_args w argv with
  | Parsed a => mret a
  | HelpExit => ([EvOut help_text], Err (SystemExit 0))
  | ArgError m => ([EvErr (usage ++ newline ++ "builder.py: error: " ++ m)], Err (SystemExit 2))
  end.

(** ** The options as settings

    What the options mean, independently of how a command line spells
    them: each one, in order, updates the namespace ([store] replaces,
    [append] extends, [store_true] sets). *)
Inductive setting : Type :=
| SNoBuild | STest
| SVariable (v : string) | SConfig (v : string)
| SOperatingSystem (v : string) | SBuildType (v : string).

Definition apply_setting (ns : Args) (s : setting) : Args :=
  {| no_build := match s with SNoBuild => true | _ => no_build ns end;
     test_flag := match s with STest => true | _ => test_flag ns end;
     variable := match s with
                 | SVariable v => Some (match variable ns with Some l => l | None => [] end ++ [v])%list
                 | _ => variable ns
                 end;
     config := match s with SConfig v => v | _ => config ns end;
     operating_system := match s with SOperatingSystem v => v | _ => operating_system ns end;
     build_type := match s with SBuildType v => v | _ => build_type ns end |}.

Definition setting_value (s : setting) : option string :=
  match s with
  | SNoBuild | STest => None
  | SVariable v | SConfig v | SOperatingSystem v | SBuildType v => Some v
  end.

(** A setting on the command line: with the short option string and the
    value as the next argument, or with the long one and [=value]. *)
Definition render (short : bool) (s : setting) : list string :=
  match s with
  | SNoBuild => [if short then "-n" else "--no-build"]
  | STest => [if short then "-t" else "--test"]
  | SVariable v => if short then ["-v"; v] else ["--variable=" ++ v]
  | SConfig v => if short then ["-c"; v] else ["--config=" ++ v]
  | SOperatingSystem v => if short then ["-os"; v] else ["--operating-system=" ++ v]
  | SBuildType v => if short then ["-bt"; v] else ["--build-type=" ++ v]
  end.

Definition render_all (l : list (bool * setting)) : list string :=
  flat_map (fun '(short, s) => render short s) l.

Definition apply_all (ns : Args) (l : list (bool * setting)) : Args :=
  fold_left (fun ns '(_, s) => apply_setting ns s) l ns.

(** A string [argparse] reads as an argument, not an option or [--]. *)
Definition arg_like (v : string) : bool :=
  negb (String.eqb v "--") && match parse_optional v with PArg => true | _ => false end.

(** A value given as the next argument must read as an argument. *)
Definition well_rendered (bs : bool * setting) : bool :=
  let '(short, s) := bs in
  negb short || match setting_value s with Some v => arg_like v | None => true end.

(** The tokens of a rendered setting. *)
Definition setting_tokens (short : bool) (s : setting) : list token :=
  match s with
  | SNoBuild => [if short then TOpt "-n" (Some (ANoBuild, "-n", None))
                 else TOpt "--no-build" (Some (ANoBuild, "--no-build", None))]
  | STest => [if short then TOpt "-t" (Some (ATest, "-t", None))
              else TOpt "--test" (Some (ATest, "--test", None))]
  | SVariable v => if short then [TOpt "-v" (Some (AVariable, "-v", None)); TArg v]
                   else [TOpt ("--variable=" ++ v) (Some (AVariable, "--variable", Some v))]
  | SConfig v => if short then [TOpt "-c" (Some (AConfig, "-c", None)); TArg v]
                 else [TOpt ("--config=" ++ v) (Some (AConfig, "--config", Some v))]
  | SOperatingSystem v =>
      if short then [TOpt "-os" (Some (AOperatingSystem, "-os", None)); TArg v]
      else [TOpt ("--operating-system=" ++ v) (Some (AOperatingSystem, "--operating-system", Some v))]
  | SBuildType v =>
      if short then [TOpt "-bt" (Some (ABuildType, "-bt", None)); TArg v]
      else [TOpt ("--build-type=" ++ v) (Some (ABuildType, "--build-type", Some v))]
  end.

(** ** Lemmas *)

Lemma classify_arg x rest :
  arg_like x = true -> classify (x :: rest) =
    match classify rest with inl m => inl m | inr toks => inr (TArg x :: toks) end.
Proof.
  unfold arg_like. intros H. apply andb_true_iff in H as [H1 H2]. apply negb_true_iff in H1.
  simpl. rewrite H1. destruct (parse_optional x); try discriminate. reflexivity.
Qed.

Lemma classify_cons x rest :
  classify (x :: rest) =
  if String.eqb x "--" then inr (TSep :: map TArg rest) else
  match parse_optional x with
  | PAmbiguous m => inl m
  | p =>
      match classify rest with
      | inl m => inl m
      | inr toks => inr (match p with POpt o => TOpt x o | _ => TArg x end :: toks)
      end
  end.
Proof. reflexivity. Qed.

Lemma classify_setting short s rest :
  well_rendered (short, s) = true ->
  classify (render short s ++ rest)%list =
    match classify rest with inl m => inl m | inr toks => inr (setting_tokens short s ++ toks)%list end.
Proof.
  intros H. destruct s; destruct short; cbn [well_rendered setting_value negb orb] in H;
    cbn [render app]; rewrite classify_cons; try (rewrite classify_arg by exact H);
    destruct (classify rest); try destruct v; vm_compute; reflexivity.
Qed.

Lemma classify_render l rest :
  forallb well_rendered l = true ->
  classify (render_all l ++ rest)%list =
    match classify rest with
    | inl m => inl m
    | inr toks => inr (flat_map (fun '(short, s) => setting_tokens short s) l ++ toks)%list
    end.
Proof.
  induction l as [|[short s] l IH]; intros H; simpl in H |- *; [destruct (classify rest); reflexivity|].
  apply andb_true_iff in H as [H1 H2]. rewrite <- app_assoc, classify_setting by exact H1.
  rewrite IH by exact H2. destruct (classify rest); [reflexivity|]. rewrite app_assoc. reflexivity.
Qed.

(** The settings' meaning agrees with the stores the actions make. *)
Lemma apply_setting_with ns s :
  apply_setting ns s =
  match s with
  | SNoBuild => with_no_build ns
  | STest => with_test ns
  | SVariable v => with_variable ns v
  | SConfig v => with_config ns v
  | SOperatingSystem v => with_operating_system ns v
  | SBuildType v => with_build_type ns v
  end.
Proof. destruct s; try reflexivity. unfold apply_setting, with_variable. destruct (variable ns); reflexivity. Qed.

Lemma cluster_one a o e : nargs a = 1 -> cluster a o e = inr ([(a, Some e)], None).
Proof. intros H. destruct e; simpl; rewrite H; reflexivity. Qed.

Lemma consume_render l toks ns :
  consume (flat_map (fun '(short, s) => setting_tokens short s) l ++ toks)%list ns [] =
  consume toks (apply_all ns l) [].
Proof.
  revert ns; induction l as [|[short s] l IH]; intros ns; [reflexivity|].
  cbn [flat_map]. rewrite <- app_assoc.
  transitivity (consume (flat_map (fun '(short, s) => setting_tokens short s) l ++ toks)%list
                        (apply_setting ns s) []); [|apply IH].
  destruct s; destruct short; simpl; rewrite ?cluster_one by reflexivity;
    rewrite apply_setting_with; reflexivity.
Qed.

Lemma consume_args xs ns extras :
  consume (map TArg xs) ns extras = consume [] ns (extras ++ xs).
Proof.
  revert extras; induction xs as [|x xs IH]; intros extras; simpl; [rewrite ?app_nil_r; reflexivity|].
  rewrite IH, <- app_assoc. reflexivity.
Qed.

(** *** Abbreviations are unambiguous except for [--=...] *)

Lemma flat_map_all_nil {X Y} (f : X -> list Y) (L : list X) :
  (forall z, In z L -> f z = []) -> flat_map f L = [].
Proof.
  induction L as [|x L IH]; intros H; [reflexivity|]. simpl.
  rewrite H by (left; reflexivity). apply IH. intros z Hz. apply H. right. exact Hz.
Qed.

(** At most one element of [L] contributes to [flat_map f L] when every
    contributing element satisfies [R] and [R] holds of one element of [L]
    at most. *)
Lemma flat_map_le1 {X Y} (f : X -> list Y) (R : X -> Prop) (L : list X) :
  NoDup L -> (forall x, List.length (f x) <= 1) -> (forall x, f x <> [] -> R x) ->
  (forall x y, In x L -> In y L -> R x -> R y -> x = y) ->
  List.length (flat_map f L) <= 1.
Proof.
  intros Hnd Hf HR Huniq. induction L as [|x L IH]; [simpl; lia|].
  inversion Hnd as [|? ? Hx Hnd']; subst. simpl. rewrite length_app.
  destruct (f x) as [|y ys] eqn:Efx.
  - apply IH; auto. intros; apply Huniq; simpl; auto.
  - rewrite flat_map_all_nil; [specialize (Hf x); rewrite Efx in Hf; simpl in *; lia|].
    intros z Hz. destruct (f z) eqn:Efz; [reflexivity|]. exfalso.
    assert (z = x) as ->; [|contradiction].
    apply Huniq; simpl; auto; apply HR; congruence.
Qed.

Lemma stake_app_le n p t : n <= String.length p -> stake n (p ++ t) = stake n p.
Proof.
  revert n; induction p as [|c p IH]; intros [|n] Hn; simpl in *; try reflexivity; [lia|].
  rewrite IH by lia. reflexivity.
Qed.

Lemma prefix_stake_eq p o n : prefix p o = true -> n <= String.length p -> stake n o = stake n p.
Proof. intros Hp Hn. rewrite (prefix_split p o Hp). apply stake_app_le, Hn. Qed.

Lemma option_table_nodup : NoDup option_string_actions.
Proof. repeat constructor; simpl; intuition discriminate. Qed.

(** The table's option strings differ in their first three characters,
    and in their first two unless these are [--]. *)
Lemma option_table_key3 x y :
  In x option_string_actions -> In y option_string_actions ->
  stake 3 (fst x) = stake 3 (fst y) -> x = y.
Proof.
  intros Hx Hy Heq. simpl in Hx, Hy.
  repeat destruct Hx as [<-|Hx]; try contradiction; repeat destruct Hy as [<-|Hy]; try contradiction;
    solve [reflexivity | discriminate Heq].
Qed.

Lemma option_table_key2 x y :
  In x option_string_actions -> In y option_string_actions ->
  stake 2 (fst x) = stake 2 (fst y) -> stake 2 (fst x) <> "--" -> x = y.
Proof.
  intros Hx Hy Heq Hne. simpl in Hx, Hy.
  repeat destruct Hx as [<-|Hx]; try contradiction; repeat destruct Hy as [<-|Hy]; try contradiction;
    solve [reflexivity | discriminate Heq | simpl in Hne; congruence].
Qed.

Lemma get_option_tuples_single c s :
  c <> "-"%char ->
  get_option_tuples (String "-" (String c s)) =
  flat_map (fun '(o, a) =>
              if String.eqb o (String "-" (String c EmptyString)) then [(a, o, Some s)]
              else if prefix (String "-" (String c s)) o then [(a, o, None)] else [])
           option_string_actions.
Proof. intros Hc. ascii_cases c; solve [reflexivity | contradiction]. Qed.

Lemma long_tuples_le1 pre (expl : option string) :
  3 <= String.length pre ->
  List.length (flat_map (fun '(o, a) => if prefix pre o then [(a, o, expl)] else [])
                        option_string_actions) <= 1.
Proof.
  intros Hlen. apply (flat_map_le1 _ (fun x => stake 3 (fst x) = stake 3 pre));
    [apply option_table_nodup | | |].
  - intros [o a]. destruct (prefix pre o); simpl; lia.
  - intros [o a]. destruct (prefix pre o) eqn:Ho; [intros _; apply prefix_stake_eq; assumption | congruence].
  - intros x y Hx Hy Rx Ry. apply option_table_key3; congruence.
Qed.

Lemma get_option_tuples_le1 s :
  String "-" s <> "--" -> prefix "--=" (String "-" s) = false ->
  List.length (get_option_tuples (String "-" s)) <= 1.
Proof.
  intros Hs Hp. destruct s as [|c s]; [simpl; lia|].
  destruct (Ascii.eqb_spec c "-") as [->|Hc].
  - destruct s as [|c3 r]; [contradiction|].
    assert (Hc3 : c3 <> "="%char).
    { intros ->. rewrite !prefix_String in Hp. simpl in Hp. rewrite prefix_nil in Hp. discriminate. }
    cbn [get_option_tuples].
    destruct (split1_scan "=" (String "-" (String "-" (String c3 r)))) as [[pre e]|] eqn:Hsp;
      apply long_tuples_le1; [|simpl; lia].
    apply split1_scan_some in Hsp as [Heq _].
    destruct pre as [|p0 [|p1 [|p2 pre]]]; simpl in Heq |- *; try lia;
      injection Heq; intros; subst; try discriminate; contradiction.
  - rewrite get_option_tuples_single by exact Hc.
    apply (flat_map_le1 _ (fun x => stake 2 (fst x) = String "-" (String c EmptyString)));
      [apply option_table_nodup | | |].
    + intros [o a]. cbv beta iota. destruct (String.eqb _ _); [simpl; lia|].
      destruct (prefix (String "-" (String c s)) o); simpl; lia.
    + intros [o a]. cbv beta iota. destruct (String.eqb_spec o (String "-" (String c EmptyString))) as [->|_];
        [reflexivity|].
      destruct (prefix (String "-" (String c s)) o) eqn:Ho; [|congruence]. intros _.
      cbn [fst]. rewrite (prefix_stake_eq _ _ 2 Ho) by (simpl; lia). reflexivity.
    + intros x y Hx Hy Rx Ry. apply option_table_key2; [assumption | assumption | congruence |].
      rewrite Rx. intros H. injection H. auto.
Qed.

Lemma parse_optional_not_ambiguous s m :
  s <> "--" -> prefix "--=" s = false -> parse_optional s <> PAmbiguous m.
Proof.
  intros Hs Hp. destruct s as [|c s]; [discriminate|]. unfold parse_optional.
  destruct (Ascii.eqb_spec c "-") as [->|Hc]; [|discriminate]. cbn [negb].
  destruct (dict_get option_string_actions (String "-" s)); [discriminate|].
  destruct (Nat.eqb _ 1); [discriminate|].
  destruct (match split1_scan "=" (String "-" s) with
            | Some (o, e) => option_map (fun a => (a, o, e)) (dict_get option_string_actions o)
            | None => None
            end) as [[[a o] e]|]; [discriminate|].
  pose proof (get_option_tuples_le1 s Hs Hp) as Hl.
  destruct (get_option_tuples (String "-" s)) as [|t [|t' ts]];
    [destruct (_ || _); discriminate | discriminate | simpl in Hl; lia].
Qed.

Lemma parse_optional_ambiguous x :
  prefix "--=" x = true -> exists m, parse_optional x = PAmbiguous m.
Proof.
  intros Hx. rewrite (prefix_split _ _ Hx). cbn [String.length].
  destruct (sdrop 3 x) as [|c r]; eexists; reflexivity.
Qed.

Lemma classify_ok rest :
  Forall (fun x => prefix "--=" x = false) rest -> exists toks, classify rest = inr toks.
Proof.
  induction 1 as [|x rest Hx _ [toks IH]]; [eexists; reflexivity|].
  rewrite classify_cons. destruct (String.eqb_spec x "--") as [->|Hne]; [eexists; reflexivity|].
  rewrite IH. destruct (parse_optional x) eqn:Hpo; try (eexists; reflexivity).
  exfalso. exact (parse_optional_not_ambiguous x msg Hne Hx Hpo).
Qed.

Lemma classify_args xs : forallb arg_like xs = true -> classify xs = inr (map TArg xs).
Proof.
  induction xs as [|x xs IH]; intros H; [reflexivity|]. simpl in H. apply andb_true_iff in H as [Hx H].
  rewrite classify_arg, IH by assumption. reflexivity.
Qed.

(** A command line of settings followed by arguments: the settings are
    applied and the arguments are left over as extras. *)
Lemma parse_args_render w l xs :
  forallb well_rendered l = true -> forallb arg_like xs = true ->
  parse_args w (render_all l ++ xs)%list = consume [] (apply_all (default_args w) l) xs.
Proof.
  intros Hl Hx. unfold parse_args. rewrite classify_render, classify_args by assumption.
  rewrite consume_render, consume_args. reflexivity.
Qed.

(** ** Theorems *)

(** C12: [parse_args] implements the meaning of the options: a command
    line that spells a list of settings, each with its short option string
    and the value as the next argument (a value that reads as an argument)
    or with its long option string and [=value] (any value at all), parses
    to the defaults updated by each setting in order, later [store]s
    replacing earlier ones and [-v] values appended in order. *)
Theorem parse_args_settings (w : World) (l : list (bool * setting)) :
  forallb well_rendered l = true ->
  parse_args w (render_all l) = Parsed (apply_all (default_args w) l).
Proof.
  intros H. rewrite <- (app_nil_r (render_all l)), parse_args_render by (assumption || reflexivity).
  reflexivity.
Qed.

(** C16: The only arguments [argparse] rejects as ambiguous
    abbreviations are those that begin with [--=] before any [--]: every
    other abbreviation of a long option and every single-dash string names
    one option at most, since the long options differ in their first
    letter; and the ambiguity is reported when the arguments are
    classified, before any option is acted on. *)
Theorem classify_ambiguous (argv : list string) :
  (exists m, classify argv = inl m) <->
  exists pre x post, argv = (pre ++ x :: post)%list /\ ~ In "--" pre /\ prefix "--=" x = true.
Proof.
  split.
  - induction argv as [|x rest IH]; intros [m Hm]; [discriminate|].
    rewrite classify_cons in Hm. destruct (String.eqb_spec x "--") as [_|Hne]; [discriminate|].
    destruct (prefix "--=" x) eqn:Hx; [exists [], x, rest; auto|].
    destruct (parse_optional x) eqn:Hpo;
      [| | exfalso; exact (parse_optional_not_ambiguous x msg Hne Hx Hpo)];
      (destruct (classify rest) as [m'|] eqn:Hc; [|discriminate]);
      destruct (IH (ex_intro _ m' eq_refl)) as (pre & y & post & -> & Hin & Hy);
      exists (x :: pre), y, post; (split; [reflexivity|]); (split; [|exact Hy]);
      intros [H|H]; auto.
  - intros (pre & x & post & -> & Hin & Hx). induction pre as [|y pre IH]; cbn [app].
    + destruct (parse_optional_ambiguous x Hx) as [m Hm]. exists m.
      rewrite classify_cons, Hm. destruct (String.eqb_spec x "--") as [->|_]; [discriminate|reflexivity].
    + rewrite classify_cons. destruct (String.eqb_spec y "--") as [->|_]; [exfalso; apply Hin; left; reflexivity|].
      destruct IH as [m Hm]; [intros H; apply Hin; right; exact H|].
      destruct (parse_optional y); try (exists msg; reflexivity); rewrite Hm; eexists; reflexivity.
Qed.

(** C21: Help is acted on as soon as it is reached: after any command line
    of settings, [-h] ends parsing with the help and exit status 0, whatever
    follows it, unknown options, stray arguments or an option missing its
    value included, unless an ambiguous [--=...] follows. *)
Theorem parse_args_help_wins (w : World) (l : list (bool * setting)) (rest : list string) :
  forallb well_rendered l = true -> Forall (fun x => prefix "--=" x = false) rest ->
  parse_args w (render_all l ++ "-h" :: rest)%list = HelpExit.
Proof.
  intros Hl Hr. destruct (classify_ok rest Hr) as [toks Ht].
  unfold parse_args. rewrite classify_render by exact Hl. rewrite classify_cons, Ht.
  cbn -[consume flat_map]. rewrite consume_render. reflexivity.
Qed.

(** ** Witnesses *)

Lemma parse_args_settings_witness :
  parse_args demo_world (render_all [(false, SConfig "-weird=x.yml"); (true, SVariable "cc=gcc");
                                     (true, SNoBuild); (false, SVariable "-O2"); (true, SBuildType "Debug")]) =
  Parsed {| no_build := true; test_flag := false; variable := Some ["cc=gcc"; "-O2"];
            config := "-weird=x.yml"; operating_system := "fedora"; build_type := "Debug" |}.
Proof. rewrite parse_args_settings by reflexivity. reflexivity. Defined.

Lemma classify_ambiguous_witness :
  exists m, classify ["-n"; "--=x"; "-h"] = inl m.
Proof.
  apply (proj2 (classify_ambiguous ["-n"; "--=x"; "-h"])).
  exists ["-n"], "--=x", ["-h"]. split; [reflexivity|]. split; [|reflexivity].
  simpl. intros [H|[]]. discriminate.
Defined.

Lemma parse_args_help_wins_witness :
  parse_args demo_world (render_all [(true, SNoBuild); (false, SConfig "c.yml")] ++ "-h" :: ["--bogus"; "-v"])%list =
  HelpExit.
Proof. apply parse_args_help_wins; [reflexivity | repeat constructor]. Defined.

End ArgParse.
