(* ===== verification/Orchestrator.v ===== *)
(** * The run as the state machine of the specification

    Section 4.6 of the specification describes [main] as a state machine:
    [Init -> ConfigLoaded -> Selecting(project_i) -> Matched -> Building
    -> Testing? -> Done | NoMatch].  [ostep] is that machine over the
    states of [src/builder.py]: [Init] holds the loaded configuration,
    [load] (lines 134-154) is the set-up that ends in [Selecting], each
    [Selecting] step handles one project of the loop (lines 154-160), a
    match goes to [Matched], the build (lines 162-163) to [Built], the
    tests (lines 165-166) to [Final].  A step is labelled with the events
    it produces, and every fatal error ends in [Final (Err _)].

    The theorems: [main] refines the machine (a run of [main] is a path of
    the machine and the only one, since the machine is deterministic);
    the machine reaches a final state from every state; and along every
    path from [Init] the shared dictionaries keep distinct keys and only
    grow, the variables starting with [os] and [bt]. *)

From Stdlib Require Import List String Ascii ZArith Lia Bool.
From S2P Require Import Prelude PyStr PyDict Yaml Resolver Banner Process Regex RegexParse PyRe PathMatch Builder.
Import ListNotations.
Import PyStr PyDict Yaml Resolver Banner Process Regex RegexParse PyRe PathMatch Builder.
Open Scope string_scope.
Open Scope proc_scope.

Module Orchestrator.

(** ** The machine *)

(** The set-up of [main] before the projects loop: the user variables,
    the seeded and extended [variables], the global [environment], the
    [projects] node and its keys. *)
Definition load (args : Args) (config : yaml)
    : result (dict string * dict string * dict string * yaml * list yaml) :=
  (user <- parse_user_variables (variable args) ;;
   let variables := dict_set "bt" (build_type args) (dict_set "os" (operating_system args) []) in
   variables <- extract_variables config variables user ;;
   environment <- extract_environment config [] variables user ;;
   projects <- py_getitem config (YStr "projects") ;;
   ps <- py_iter projects ;;
   Ok (user, variables, environment, projects, ps))%py.

Inductive ostate : Type :=
| Init (config : yaml)
| Selecting (projects : yaml) (ps : list yaml) (user variables environment : dict string)
| Matched (project : yaml) (path : string) (user variables environment : dict string)
| Built (project : yaml) (path : string) (user variables environment : dict string)
| Final (r : result unit).

(** The shared dictionaries of a state. *)
Definition dicts_of (s : ostate) : option (dict string * dict string) :=
  match s with
  | Selecting _ _ _ v e | Matched _ _ _ v e | Built _ _ _ v e => Some (v, e)
  | Init _ | Final _ => None
  end.

(** [d'] extends [d]: distinct keys, the keys of [d] first and in order. *)
Definition grows (d d' : dict string) : Prop :=
  dict_wf d' /\ exists ks, dict_keys d' = (dict_keys d ++ ks)%list.

(** The invariant of a run: the shared dictionaries have distinct keys and
    the variables begin with [os] and [bt]. *)
Definition run_inv (s : ostate) : Prop :=
  match dicts_of s with
  | Some (v, e) => dict_wf v /\ dict_wf e /\ exists ks, dict_keys v = "os" :: "bt" :: ks
  | None => True
  end.

Section Machine.
Context {RE : RegexEngine}.
Variable w : World.
Variable args : Args.

Inductive ostep : ostate -> list event -> ostate -> Prop :=
| step_load config user v e projects ps :
    load args config = Ok (user, v, e, projects, ps) ->
    ostep (Init config) [] (Selecting projects ps user v e)
| step_load_err config x :
    load args config = Err x -> ostep (Init config) [] (Final (Err x))
| step_no_match projects user v e :
    ostep (Selecting projects [] user v e)
          [EvErr "ERROR: No matching configuration entry found."] (Final (Err (SystemExit 1)))
| step_project_err projects p ps user v e x :
    py_getitem projects p = Err x ->
    ostep (Selecting projects (p :: ps) user v e) [] (Final (Err x))
| step_extract_err projects p ps user v e project x :
    py_getitem projects p = Ok project -> extract_variables project v user = Err x ->
    ostep (Selecting projects (p :: ps) user v e) [] (Final (Err x))
| step_path_err projects p ps user v e project v' t x :
    py_getitem projects p = Ok project -> extract_variables project v user = Ok v' ->
    get_path w project v' user = (t, Err x) ->
    ostep (Selecting projects (p :: ps) user v e) t (Final (Err x))
| step_skip projects p ps user v e project v' t path :
    py_getitem projects p = Ok project -> extract_variables project v user = Ok v' ->
    get_path w project v' user = (t, Ok path) -> path = None \/ path = Some EmptyString ->
    ostep (Selecting projects (p :: ps) user v e) t (Selecting projects ps user v' e)
| step_match projects p ps user v e project v' t path :
    py_getitem projects p = Ok project -> extract_variables project v user = Ok v' ->
    get_path w project v' user = (t, Ok (Some path)) -> path <> EmptyString ->
    ostep (Selecting projects (p :: ps) user v e) t (Matched project path user v' e)
| step_build project path user v e t v' e' :
    no_build args = false -> build w project path v e user = (t, Ok (v', e')) ->
    ostep (Matched project path user v e) t (Built project path user v' e')
| step_build_err project path user v e t x :
    no_build args = false -> build w project path v e user = (t, Err x) ->
    ostep (Matched project path user v e) t (Final (Err x))
| step_skip_build project path user v e :
    no_build args = true -> ostep (Matched project path user v e) [] (Built project path user v e)
| step_test project path user v e t r :
    test_flag args = true -> test w project path v e user = (t, r) ->
    ostep (Built project path user v e) t
          (Final (match r with Ok _ => Ok tt | Err x => Err x end))
| step_no_test project path user v e :
    test_flag args = false -> ostep (Built project path user v e) [] (Final (Ok tt)).

(** Paths of the machine, with the concatenation of their labels. *)
Definition lstar : ostate -> list event -> ostate -> Prop := star ostep.

(** ** Paths *)

Lemma lstar_one s t s' : ostep s t s' -> lstar s t s'.
Proof. apply star_one. Qed.

Lemma lstar_trans s1 t1 s2 t2 s3 : lstar s1 t1 s2 -> lstar s2 t2 s3 -> lstar s1 (t1 ++ t2) s3.
Proof. apply star_trans. Qed.

(** ** [main] runs along the machine *)

Lemma main_load config :
  main w args config =
  match load args config with
  | Ok (user, v, e, projects, ps) => select w args projects ps v e user
  | Err x => ([], Err x)
  end.
Proof.
  unfold main, main_loaded, load.
  destruct (parse_user_variables _) as [user|x]; [rewrite mbind_lift_ok; cbv zeta; cbn [rbind] | reflexivity].
  destruct (extract_variables _ _ _) as [v|x]; [rewrite mbind_lift_ok; cbn [rbind] | reflexivity].
  destruct (extract_environment _ _ _ _) as [e|x]; [rewrite mbind_lift_ok; cbn [rbind] | reflexivity].
  destruct (py_getitem _ _) as [projects|x]; [rewrite mbind_lift_ok; cbn [rbind] | reflexivity].
  destruct (py_iter projects) as [ps|x]; [rewrite mbind_lift_ok; cbn [rbind] | reflexivity].
  reflexivity.
Qed.

Lemma built_star project path user v e t r :
  (if test_flag args then test w project path v e user ;;; mret tt else mret tt) = (t, r) ->
  lstar (Built project path user v e) t (Final r).
Proof.
  destruct (test_flag args) eqn:Ht; [|intros [= <- <-]; apply lstar_one, step_no_test, Ht].
  destruct (test w project path v e user) as [t2 [a|x]] eqn:Et.
  - rewrite mbind_ok. intros [= <- <-]. rewrite app_nil_r. apply lstar_one.
    exact (step_test _ _ _ _ _ _ _ Ht Et).
  - rewrite mbind_err. intros [= <- <-]. apply lstar_one. exact (step_test _ _ _ _ _ _ _ Ht Et).
Qed.

Lemma run_matched_star project path user v e t r :
  run_matched w args project path v e user = (t, r) -> lstar (Matched project path user v e) t (Final r).
Proof.
  unfold run_matched. destruct (no_build args) eqn:Hb.
  - rewrite mbind_ret. intros H. rewrite <- (app_nil_l t).
    econstructor; [apply step_skip_build, Hb | apply built_star, H].
  - destruct (build w project path v e user) as [t1 [[v' e']|x]] eqn:Eb.
    + rewrite mbind_ok. intros [= <- <-]. econstructor; [apply step_build; eassumption|].
      apply built_star. destruct (if test_flag args then _ else _); reflexivity.
    + rewrite mbind_err. intros [= <- <-]. apply lstar_one, step_build_err; assumption.
Qed.

Lemma select_star projects ps user v e t r :
  select w args projects ps v e user = (t, r) -> lstar (Selecting projects ps user v e) t (Final r).
Proof.
  revert v t r; induction ps as [|p ps IH]; intros v t r.
  - cbn [select]. rewrite error_spec. intros [= <- <-]. apply lstar_one, step_no_match.
  - rewrite select_cons.
    destruct (py_getitem projects p) as [project|x] eqn:Ep;
      [rewrite mbind_lift_ok | rewrite mbind_lift_err; intros [= <- <-]; apply lstar_one;
                               eapply step_project_err; eassumption].
    destruct (extract_variables project v user) as [v'|x] eqn:Ev;
      [rewrite mbind_lift_ok | rewrite mbind_lift_err; intros [= <- <-]; apply lstar_one;
                               eapply step_extract_err; eassumption].
    destruct (get_path w project v' user) as [t1 [path|x]] eqn:Eg;
      [rewrite mbind_ok | rewrite mbind_err; intros [= <- <-]; apply lstar_one;
                          eapply step_path_err; eassumption].
    intros [= <- <-]. destruct path as [[|c s]|]; cbv beta iota.
    + econstructor; [eapply step_skip; eauto | apply IH, surjective_pairing].
    + econstructor; [eapply step_match; eauto; discriminate | apply run_matched_star, surjective_pairing].
    + econstructor; [eapply step_skip; eauto | apply IH, surjective_pairing].
Qed.

Lemma main_star config t r : main w args config = (t, r) -> lstar (Init config) t (Final r).
Proof.
  rewrite main_load. destruct (load args config) as [[[[[user v] e] projects] ps]|x] eqn:El.
  - intros H. rewrite <- (app_nil_l t). econstructor; [apply step_load, El | apply select_star, H].
  - intros [= <- <-]. apply lstar_one, step_load_err, El.
Qed.

(** ** The machine is deterministic *)

Lemma final_stuck r t s : ~ ostep (Final r) t s.
Proof. intros H. inversion H. Qed.

Lemma ostep_det s t1 s1 t2 s2 : ostep s t1 s1 -> ostep s t2 s2 -> t1 = t2 /\ s1 = s2.
Proof.
  intros H1 H2. inversion H1; subst; inversion H2; subst;
    repeat match goal with H : _ \/ _ |- _ => destruct H end; subst;
    try match goal with
        | H : test ?w ?p ?a ?b ?c ?d = _, H' : test ?w ?p ?a ?b ?c ?d = _ |- _ =>
            rewrite H in H'; injection H' as <- <-
        end;
    split; congruence.
Qed.

Lemma lstar_final_det s t1 r1 t2 r2 :
  lstar s t1 (Final r1) -> lstar s t2 (Final r2) -> t1 = t2 /\ r1 = r2.
Proof.
  intros H1 H2. destruct (star_stuck_det _ ostep_det _ _ _ _ _ (final_stuck r1) (final_stuck r2) H1 H2)
    as [-> Hf]. injection Hf as ->. split; reflexivity.
Qed.

(** ** The shared dictionaries only grow *)

Lemma grows_self (d : dict string) : dict_wf d -> grows d d.
Proof. intros H. split; [exact H | exists []; symmetry; apply app_nil_r]. Qed.

Lemma grows_os_bt v v' ks :
  grows v v' -> dict_keys v = "os" :: "bt" :: ks -> exists ks', dict_keys v' = "os" :: "bt" :: ks'.
Proof. intros [_ [ks' Hk]] Hv. rewrite Hv in Hk. exists (ks ++ ks')%list. exact Hk. Qed.

Lemma load_inv config user v e projects ps :
  load args config = Ok (user, v, e, projects, ps) ->
  dict_wf v /\ dict_wf e /\ exists ks, dict_keys v = "os" :: "bt" :: ks.
Proof.
  unfold load. intros H.
  apply rbind_inv in H as [u [_ H]]. cbv zeta in H.
  apply rbind_inv in H as [v1 [Ev H]]. apply rbind_inv in H as [e1 [Ee H]].
  apply rbind_inv in H as [pj [_ H]]. apply rbind_inv in H as [ps' [_ H]].
  injection H as <- <- <- _ _.
  apply extract_variables_grows in Ev as [Hv [ks Hk]]; [|repeat constructor; simpl; intuition discriminate].
  apply extract_environment_grows in Ee as [He _]; [|constructor].
  repeat split; [exact Hv | exact He | exists ks; exact Hk].
Qed.

Lemma run_phase_grows phase project path v e user t v' e' :
  dict_wf v -> dict_wf e ->
  run_phase w phase project path v e user = (t, Ok (v', e')) -> grows v v' /\ grows e e'.
Proof.
  intros Hv He. unfold run_phase.
  destruct (py_in phase project) as [present|x]; [rewrite mbind_lift_ok | rewrite mbind_lift_err; discriminate].
  destruct (negb present); [intros [= _ <- <-]; split; apply grows_self; assumption|].
  destruct (extract_variables project v user) as [v1|x] eqn:Ev;
    [rewrite mbind_lift_ok | rewrite mbind_lift_err; discriminate].
  destruct (extract_environment project e v1 user) as [e1|x] eqn:Ee;
    [rewrite mbind_lift_ok | rewrite mbind_lift_err; discriminate].
  repeat match goal with
         | |- mbind (lift ?c) _ = _ -> _ =>
             destruct c; [rewrite mbind_lift_ok | rewrite mbind_lift_err; discriminate]
         end.
  destruct (execute_command _ _ _ _) as [t0 [[]|x]]; [rewrite mbind_ok | rewrite mbind_err; discriminate].
  intros [= _ <- <-].
  split; [apply (extract_variables_grows _ _ _ _ Hv Ev) | apply (extract_environment_grows _ _ _ _ _ He Ee)].
Qed.

Lemma ostep_inv s t s' : ostep s t s' -> run_inv s -> run_inv s'.
Proof.
  unfold run_inv. intros H Hs. destruct H; cbn [dicts_of] in *; auto.
  - eapply load_inv; eassumption.
  - destruct Hs as (Hv & He & ks & Hk). apply extract_variables_grows in H0 as Hg; [|exact Hv].
    destruct (grows_os_bt _ _ _ Hg Hk) as [ks' Hk']. repeat split; [apply Hg | exact He | eauto].
  - destruct Hs as (Hv & He & ks & Hk). apply extract_variables_grows in H0 as Hg; [|exact Hv].
    destruct (grows_os_bt _ _ _ Hg Hk) as [ks' Hk']. repeat split; [apply Hg | exact He | eauto].
  - destruct Hs as (Hv & He & ks & Hk). destruct (run_phase_grows _ _ _ _ _ _ _ _ _ Hv He H0) as [Gv Ge].
    destruct (grows_os_bt _ _ _ Gv Hk) as [ks' Hk']. repeat split; [apply Gv | apply Ge | eauto].
Qed.

Lemma lstar_inv s t s' : lstar s t s' -> run_inv s -> run_inv s'.
Proof. apply star_inv, ostep_inv. Qed.

(** ** Theorems *)

(** C32: [main] refines the state machine of section 4.6 of the
    specification: a run of [main] that produces the events [t] and the
    outcome [r] is a path of the machine from [Init] to [Final r] with
    labels [t], and it is the only such path. *)
Theorem main_refines_machine (config : yaml) (t : list event) (r : result unit) :
  main w args config = (t, r) <-> lstar (Init config) t (Final r).
Proof.
  split; [apply main_star|]. intros H.
  destruct (main w args config) as [t0 r0] eqn:E. apply main_star in E.
  destruct (lstar_final_det _ _ _ _ _ E H) as [<- <-]. reflexivity.
Qed.

(** The machine never gets stuck or loops: from every state, a
    configuration being loaded, a project being selected, a matched or a
    built project, it reaches a final state. *)
Theorem machine_reaches_final (s : ostate) : exists t r, lstar s t (Final r).
Proof.
  destruct s as [config|projects ps user v e|project path user v e|project path user v e|r].
  - exists (fst (main w args config)), (snd (main w args config)). apply main_star, surjective_pairing.
  - exists (fst (select w args projects ps v e user)), (snd (select w args projects ps v e user)).
    apply select_star, surjective_pairing.
  - exists (fst (run_matched w args project path v e user)), (snd (run_matched w args project path v e user)).
    apply run_matched_star, surjective_pairing.
  - eexists _, _. apply built_star, surjective_pairing.
  - exists [], r. apply star_refl.
Qed.

(** C34: In every state a run reaches, the shared [variables] and
    [environment] dictionaries have distinct keys and [variables] still
    begins with [os] and [bt]: a key, once set, is never removed or
    moved, by a later project, by [build] or by [test]. *)
Theorem run_dicts_invariant (config : yaml) (t : list event) (s : ostate) (v e : dict string) :
  lstar (Init config) t s -> dicts_of s = Some (v, e) ->
  dict_wf v /\ dict_wf e /\ exists ks, dict_keys v = "os" :: "bt" :: ks.
Proof.
  intros H Hd. apply lstar_inv in H; [|exact I]. unfold run_inv in H. rewrite Hd in H. exact H.
Qed.

(** C35: The steps of a phase are always well typed: with the variables
    of any state a run reaches (never empty, since they begin with [os]
    and [bt]), every step, a number or a string, is resolved through
    [str()] to a string, so building the command list never raises the
    [TypeError] that [banner] or the concatenation would raise on a
    non-string. *)
Theorem run_steps_well_typed (config : yaml) (t : list event) (s : ostate) (v e : dict string) :
  lstar (Init config) t s -> dicts_of s = Some (v, e) ->
  forall steps user, exists cmd, phase_commands steps v user = Ok cmd.
Proof.
  intros H Hd steps user. apply lstar_inv in H; [|exact I]. unfold run_inv in H. rewrite Hd in H.
  destruct H as (_ & _ & ks & Hk). eexists. unfold phase_commands.
  change (@nil string) with (intersperse_and []). apply phase_commands_strings.
  intros ->. discriminate Hk.
Qed.

End Machine.

(** Loading [rebind_config] selects among its one project with the
    variables [os], [bt] and the global [dir]. *)
Lemma rebind_config_loaded :
  lstar demo_world (demo_args false false None) (Init rebind_config) []
    (Selecting (YMap [("p", YMap [("path", YStr "/home/user/proj");
                                  ("variables", YMap [("dir", YStr "{dir}/sub")]);
                                  ("build", YSeq [YStr "cd {dir}"])])])
               [YStr "p"] [] [("os", "fedora"); ("bt", "debug"); ("dir", "/src")] []).
Proof. apply lstar_one, step_load. vm_compute. reflexivity. Qed.

Lemma run_dicts_invariant_witness :
  lstar demo_world (demo_args false false None) (Init rebind_config) []
    (Selecting (YMap [("p", YMap [("path", YStr "/home/user/proj");
                                  ("variables", YMap [("dir", YStr "{dir}/sub")]);
                                  ("build", YSeq [YStr "cd {dir}"])])])
               [YStr "p"] [] [("os", "fedora"); ("bt", "debug"); ("dir", "/src")] []) /\
  (dict_wf [("os", "fedora"); ("bt", "debug"); ("dir", "/src")] /\ dict_wf (@nil (string * string)) /\
   exists ks, dict_keys [("os", "fedora"); ("bt", "debug"); ("dir", "/src")] = "os" :: "bt" :: ks).
Proof.
  pose proof rebind_config_loaded as H.
  split; [exact H | exact (run_dicts_invariant demo_world _ _ _ _ _ _ H eq_refl)].
Defined.

Lemma run_steps_well_typed_witness :
  exists cmd, phase_commands [YInt 42; YStr "make {bt}"] [("os", "fedora"); ("bt", "debug"); ("dir", "/src")] [] = Ok cmd.
Proof.
  pose proof rebind_config_loaded as H.
  exact (run_steps_well_typed demo_world _ _ _ _ _ _ H eq_refl [YInt 42; YStr "make {bt}"] []).
Defined.

End Orchestrator.
