(* ===== verification/Program.v ===== *)
(** * The whole of [main]: reading and loading the configuration

    [main] (src/builder.py lines 122-169) parses the [-v] arguments
    (lines 134-138), then opens the configuration file named by
    [--config] and loads it with [yaml.safe_load] (lines 141-142), and only
    then builds the variables and walks the projects ([main_loaded],
    lines 144-169).  The file is read from the [World] ([w_files]); a file
    that cannot be opened raises [FileNotFoundError].  The YAML parser is a
    library: [YamlLoader] is its interface, a function from the file's
    text to a value or [YAMLError].

    [builder] is the script on its command line: [parse_args_m]
    (ArgParse), then [program].  [pstep] is the state machine of the
    Orchestrator extended with the command line and the configuration
    file.

    The theorems: once the file is read and loaded, the program is [main]
    on the loaded configuration; a missing or malformed file ends the run
    with the exception before anything is printed or run, but a malformed
    [-v] argument is reported first, since it is parsed first; the script
    on a command line of settings runs [main] with them, and stops with
    exit status 2 on a left-over argument; and a run of the script is the
    one path of [pstep] from the command line to the exit. *)

From Stdlib Require Import List String Ascii ZArith Lia Bool.
From S2P Require Import Prelude PyStr PyDict Yaml Resolver Banner Process Regex RegexParse PyRe PathMatch Builder ArgParse Orchestrator.
Import ListNotations.
Import PyStr PyDict Yaml Resolver Banner Process Regex RegexParse PyRe PathMatch Builder ArgParse Orchestrator.
Open Scope string_scope.
Open Scope proc_scope.

Module Program.

(** [yaml.safe_load(file)] on the text of the file. *)
Class YamlLoader := {
  safe_load : string -> result yaml
}.

(** [open(path, 'r')] and reading it. *)
Definition read_file (w : World) (path : string) : result string :=
  match w_files w path with
  | Some text => Ok text
  | None => Err (FileNotFoundError path)
  end.

(** A loader that knows two documents, and a world with the default
    configuration file, for the examples. *)
#[local] Instance demo_loader : YamlLoader := {|
  safe_load := fun text =>
    if String.eqb text "projects: {p: {path: /home, build: [make]}}" then
      Ok (YMap [("projects", YMap [("p", YMap [("path", YStr "/home"); ("build", YSeq [YStr "make"])])])])
    else if String.eqb text "projects: {}" then Ok (YMap [("projects", YMap [])])
    else Err YAMLError
|}.

Definition files_world (text : string) : World := {|
  w_cwd := w_cwd demo_world; w_environ := w_environ demo_world; w_home_uid := None;
  w_home_of := fun _ => None; w_shell := fun _ _ _ => 0%Z; w_cwd_error := w_cwd_error demo_world;
  w_files := fun path => if String.eqb path "/home/user/.builder-config.yml" then Some text else None
|}.

(** The states of the whole script: the command line, the parsed
    arguments, the run of [main]'s machine ([Orchestrator.ostep]) with
    those arguments, and the end of the process. *)
Inductive pstate : Type :=
| PStart (argv : list string)
| PParsed (args : Args)
| PRunning (args : Args) (s : ostate)
| PDone (r : result unit).

Section WithLoader.
Context {RE : RegexEngine} {L : YamlLoader}.
Variable w : World.

(** [main()] from the parsed arguments. *)
Definition program (args : Args) : M unit :=
  user_variables <- lift (parse_user_variables (variable args)) ;;
  text <- lift (read_file w (config args)) ;;
  cfg <- lift (safe_load text) ;;
  main_loaded w args user_variables cfg.

(** The script run as [builder.py argv...]: [parser.parse_args()]
    (lines 124-131), then the rest of [main]. *)
Definition builder (argv : list string) : M unit :=
  args <- parse_args_m w argv ;;
  program args.

(** The steps of the whole script: [parse_args] (help and usage errors
    end the process), the [-v] arguments, opening and loading the
    configuration, whose errors end the process, then the steps of [main]'s
    machine from [Init], and the exit from its final state. *)
Inductive pstep : pstate -> list event -> pstate -> Prop :=
| pstep_parsed argv a : parse_args w argv = Parsed a -> pstep (PStart argv) [] (PParsed a)
| pstep_help argv :
    parse_args w argv = HelpExit -> pstep (PStart argv) [EvOut help_text] (PDone (Err (SystemExit 0)))
| pstep_usage argv m :
    parse_args w argv = ArgError m ->
    pstep (PStart argv) [EvErr (usage ++ newline ++ "builder.py: error: " ++ m)] (PDone (Err (SystemExit 2)))
| pstep_user_err a x :
    parse_user_variables (variable a) = Err x -> pstep (PParsed a) [] (PDone (Err x))
| pstep_open_err a u x :
    parse_user_variables (variable a) = Ok u -> read_file w (config a) = Err x ->
    pstep (PParsed a) [] (PDone (Err x))
| pstep_load_err a u text x :
    parse_user_variables (variable a) = Ok u -> read_file w (config a) = Ok text -> safe_load text = Err x ->
    pstep (PParsed a) [] (PDone (Err x))
| pstep_loaded a u text cfg :
    parse_user_variables (variable a) = Ok u -> read_file w (config a) = Ok text -> safe_load text = Ok cfg ->
    pstep (PParsed a) [] (PRunning a (Init cfg))
| pstep_run a s t s' : ostep w a s t s' -> pstep (PRunning a s) t (PRunning a s')
| pstep_exit a r : pstep (PRunning a (Final r)) [] (PDone r).

Definition plstar : pstate -> list event -> pstate -> Prop := star pstep.

(** ** Lemmas *)

Lemma program_cases (args : Args) :
  program args =
  match parse_user_variables (variable args) with
  | Err x => ([], Err x)
  | Ok _ =>
      match read_file w (config args) with
      | Err x => ([], Err x)
      | Ok text => match safe_load text with Err x => ([], Err x) | Ok cfg => main w args cfg end
      end
  end.
Proof.
  unfold program, main. destruct (parse_user_variables (variable args)) as [u|x]; [|reflexivity].
  rewrite !mbind_lift_ok. destruct (read_file w (config args)) as [text|x]; [|reflexivity].
  rewrite mbind_lift_ok. destruct (safe_load text); reflexivity.
Qed.

Lemma plstar_running a s t s' : lstar w a s t s' -> plstar (PRunning a s) t (PRunning a s').
Proof.
  induction 1 as [s|s1 t1 s2 t2 s3 Hs _ IH]; [apply star_refl|].
  exact (star_step _ _ _ _ _ (pstep_run _ _ _ _ Hs) IH).
Qed.

Lemma program_star a t r : program a = (t, r) -> plstar (PParsed a) t (PDone r).
Proof.
  rewrite program_cases.
  destruct (parse_user_variables (variable a)) as [u|x] eqn:Hu;
    [|intros [= <- <-]; apply star_one, pstep_user_err, Hu].
  destruct (read_file w (config a)) as [text|x] eqn:Hr;
    [|intros [= <- <-]; apply (star_one _ _ _ _ (pstep_open_err _ _ _ Hu Hr))].
  destruct (safe_load text) as [cfg|x] eqn:Hl;
    [|intros [= <- <-]; apply (star_one _ _ _ _ (pstep_load_err _ _ _ _ Hu Hr Hl))].
  intros H. apply main_star in H. rewrite <- (app_nil_l t), <- (app_nil_r t).
  apply (star_step _ _ _ _ _ (pstep_loaded _ _ _ _ Hu Hr Hl)).
  apply (star_trans _ _ _ _ _ _ (plstar_running _ _ _ _ H)), star_one, pstep_exit.
Qed.

Lemma builder_star argv t r : builder argv = (t, r) -> plstar (PStart argv) t (PDone r).
Proof.
  unfold builder, parse_args_m. destruct (parse_args w argv) as [a| |m] eqn:Hp.
  - rewrite mbind_ret. intros H. rewrite <- (app_nil_l t).
    exact (star_step _ _ _ _ _ (pstep_parsed _ _ Hp) (program_star _ _ _ H)).
  - intros [= <- <-]. apply star_one, pstep_help, Hp.
  - intros [= <- <-]. apply star_one, pstep_usage, Hp.
Qed.

Lemma pstep_det s t1 s1 t2 s2 : pstep s t1 s1 -> pstep s t2 s2 -> t1 = t2 /\ s1 = s2.
Proof.
  intros H1 H2. inversion H1; subst; inversion H2; subst;
    try (exfalso; eapply final_stuck; eassumption);
    try match goal with
        | Ho : ostep _ _ ?s _ _, Ho' : ostep _ _ ?s _ _ |- _ =>
            destruct (ostep_det _ _ _ _ _ _ _ Ho Ho') as [-> ->]
        end;
    split; congruence.
Qed.

Lemma pdone_stuck r t s : ~ pstep (PDone r) t s.
Proof. intros H. inversion H. Qed.

(** ** Invariants of the whole script *)

Section Invariants.
Context {Q : forall A, M A -> Prop} `{TraceInv Q}.

Lemma inv_program args : Q _ (program args).
Proof. unfold program. inv_t. apply inv_main_loaded; exact H. Qed.

Lemma inv_builder argv : Q _ (builder argv).
Proof. unfold builder, parse_args_m. inv_t; apply inv_program. Qed.

End Invariants.

(** C31: On every command line, whatever the configuration, the files
    and the shell do, every shell command the script runs is announced:
    the run comes right after the line [print(cmd)] of the same command
    ([execute_command], line 71). *)
Theorem builder_runs_announced (argv : list string) : announced (fst (builder argv)).
Proof. exact (inv_builder (Q := @announced_m) argv). Qed.

(** C33: On every command line, an error ends the script: the run prints
    no line on standard error, or exactly one, as its last event, and
    then fails; nothing is printed or run after an [ERROR: ...] line or
    an argument error ([error] exits, lines 11-13). *)
Theorem builder_error_last (argv : list string) :
  Forall (fun e => is_err e = false) (fst (builder argv)) \/
  exists t0 line x, fst (builder argv) = (t0 ++ [EvErr line])%list /\
                    Forall (fun e => is_err e = false) t0 /\ snd (builder argv) = Err x.
Proof. exact (inv_builder (Q := @err_last) argv). Qed.

(** Once the configuration file is read and loaded, the program is
    [main] on the loaded configuration. *)
Lemma program_loads_config (args : Args) (text : string) (cfg : yaml) :
  read_file w (config args) = Ok text -> safe_load text = Ok cfg -> program args = main w args cfg.
Proof.
  intros Hr Hl. unfold program, main.
  destruct (parse_user_variables (variable args)) as [user|x]; [|reflexivity].
  rewrite !mbind_lift_ok, Hr, mbind_lift_ok, Hl, mbind_lift_ok. reflexivity.
Qed.

(** C24: A configuration file that is missing or that [yaml.safe_load]
    rejects ends the run with that exception, before anything is printed
    or run; a malformed [-v] argument is reported instead, since the user
    variables are parsed before the file is opened. *)
Theorem program_bad_config (args : Args) (x : exn) :
  (read_file w (config args) = Err x \/
   exists text, read_file w (config args) = Ok text /\ safe_load text = Err x) ->
  program args = ([], Err (match parse_user_variables (variable args) with
                           | Ok _ => x
                           | Err e => e
                           end)).
Proof.
  intros Hx. unfold program.
  destruct (parse_user_variables (variable args)) as [user|e]; [rewrite mbind_lift_ok | reflexivity].
  destruct Hx as [Hr | [text [Hr Hl]]]; rewrite Hr; [reflexivity|].
  rewrite mbind_lift_ok, Hl. reflexivity.
Qed.

(** C40: The whole script on a command line of settings followed by
    arguments: without arguments it runs [main] with the defaults updated
    by the settings; any argument left over makes [argparse] print the
    usage and [unrecognized arguments], and exit with status 2 before the
    configuration is opened or any command runs. *)
Theorem builder_command_line (l : list (bool * setting)) (xs : list string) :
  forallb well_rendered l = true -> forallb arg_like xs = true ->
  builder (render_all l ++ xs)%list =
  match xs with
  | [] => program (apply_all (default_args w) l)
  | _ => ([EvErr (usage ++ newline ++ "builder.py: error: unrecognized arguments: " ++ py_join " " xs)],
          Err (SystemExit 2))
  end.
Proof.
  intros Hl Hx. unfold builder, parse_args_m. rewrite parse_args_render by assumption.
  destruct xs; [apply mbind_ret | reflexivity].
Qed.

(** C39: The whole script refines the state machine of section 4.6 of
    the specification extended with the command line: a run of
    [builder.py] on [argv] that produces the events [t] and ends with [r]
    is a path of the machine from the command line to the end with labels
    [t], parsing, then the user variables, then opening and loading the
    configuration, then [main]'s machine; and it is the only one. *)
Theorem builder_refines_machine (argv : list string) (t : list event) (r : result unit) :
  builder argv = (t, r) <-> plstar (PStart argv) t (PDone r).
Proof.
  split; [apply builder_star|]. intros H.
  destruct (builder argv) as [t0 r0] eqn:E. apply builder_star in E.
  destruct (star_stuck_det _ pstep_det _ _ _ _ _ (pdone_stuck r0) (pdone_stuck r) E H) as [-> Hf].
  injection Hf as ->. reflexivity.
Qed.

End WithLoader.

Lemma program_bad_config_witness :
  program demo_world (demo_args false false None) =
    ([], Err (FileNotFoundError "/home/user/.builder-config.yml")) /\
  program (files_world "projects: [") (demo_args false false (Some ["cc"])) = ([], Err IndexError).
Proof.
  split.
  - rewrite (program_bad_config demo_world _ (FileNotFoundError "/home/user/.builder-config.yml"));
      [reflexivity | left; reflexivity].
  - rewrite (program_bad_config (files_world "projects: [") _ YAMLError);
      [reflexivity | right; exists "projects: ["; split; reflexivity].
Defined.

Lemma builder_command_line_witness :
  builder (files_world "projects: {}") (render_all [(false, STest)] ++ [])%list =
    program (files_world "projects: {}")
      {| no_build := false; test_flag := true; variable := None;
         config := "/home/user/.builder-config.yml"; operating_system := "fedora"; build_type := "Release" |} /\
  builder (files_world "projects: {}") (render_all [(true, SNoBuild)] ++ ["build"; "now"])%list =
    ([EvErr (usage ++ newline ++ "builder.py: error: unrecognized arguments: build now")], Err (SystemExit 2)).
Proof.
  split; rewrite builder_command_line by reflexivity; reflexivity.
Defined.

Lemma builder_refines_machine_witness :
  plstar (files_world "projects: {p: {path: /home, build: [make]}}") (PStart ["-t"; "-bt=Debug"])
    [EvOut "echo -e '\n############\n### make ###\n############\n' && make";
     EvRun "echo -e '\n############\n### make ###\n############\n' && make" "/home"
           [("HOME", "/home/user/")] 0]
    (PDone (Ok tt)).
Proof. apply builder_refines_machine. vm_compute. reflexivity. Defined.

End Program.
